(** * IPAM and DNS reconciliation of a data-plane node set

    A shallow embedding of [pkg/deployment/ipam.go]: the functions
    [reserveIPs], [EnsureIPSets], [CheckDNSService], [createOrPatchDNSData]
    and [EnsureDNSData], over an explicit model of the object store they
    talk to and of the status conditions they write.

    Conventions.
    - A Go [string] is a [string]; a slice that the code tests against
      [nil] is an [option (list _)], with [None] for [nil]; a slice or map
      that is only ranged over or indexed is a [list] or a [gmap].
    - A pointer argument that the code mutates ([instance], the [dns]
      receiver) is threaded: [instance] and the log of store calls live in
      the state of a small state monad, the receiver is passed in and
      handed back.
    - The object store is an oracle: each call is answered as a function of
      the calls made so far, and every call is appended to that log. *)

From Stdlib Require Import Ascii String List Bool Arith Lia Permutation.
From stdpp Require Import base gmap strings list fin_maps.

Set Default Proof Using "Type".

(* ===================================================================== *)
(** ** The [strings] functions the code calls *)
(* ===================================================================== *)

(** [strings.ToLower] on one byte.  Network names are ASCII identifiers;
    bytes outside [A-Z] are left as they are. *)
Definition ToLowerByte (a : ascii) : ascii :=
  let n := nat_of_ascii a in
  if (65 <=? n) && (n <=? 90) then ascii_of_nat (n + 32) else a.

Fixpoint ToLower (s : string) : string :=
  match s with
  | EmptyString => EmptyString
  | String a s' => String (ToLowerByte a) (ToLower s')
  end.

(** [strings.Split(s, sep)] for a one-byte separator: the pieces of [s]
    around every occurrence of [sep]; a string without [sep] (the empty
    string too) gives the one-element slice holding it. *)
Fixpoint Split (s : string) (sep : ascii) : list string :=
  match s with
  | EmptyString => [EmptyString]
  | String a s' =>
      if Ascii.eqb a sep then EmptyString :: Split s' sep
      else match Split s' sep with
           | [] => [String a EmptyString]
           | piece :: pieces => String a piece :: pieces
           end
  end.

(** [strings.Join(elems, sep)]. *)
Fixpoint Join (elems : list string) (sep : string) : string :=
  match elems with
  | [] => EmptyString
  | [e] => e
  | e :: rest => e +:+ sep +:+ Join rest sep
  end.

(** [strings.Split(hostName, ".")[0]]: indexing is in range because
    [Split] never returns an empty slice (lemma [Split_nonempty]). *)
Definition firstPiece (pieces : list string) : string :=
  match pieces with
  | [] => EmptyString
  | piece :: _ => piece
  end.

(** Occurrence of a byte in a string, used to state what [Split] cuts at. *)
Fixpoint occurs (a : ascii) (s : string) : bool :=
  match s with
  | EmptyString => false
  | String b s' => Ascii.eqb b a || occurs a s'
  end.

(* ===================================================================== *)
(** ** Status conditions (the [condition] package of lib-common) *)
(* ===================================================================== *)

Inductive ConditionStatus := ConditionTrue | ConditionFalse | ConditionUnknown.

(** Modelled from the spec: the condition types, reasons, severities and
    messages are constants declared outside the source files at hand
    ([api/v1beta1] and lib-common); they are kept as distinct names. *)
Inductive CondType :=
| ReadyCondition
| NodeSetIPReservationReadyCondition
| NodeSetDNSDataReadyCondition
| OtherCondition (name : string).

Inductive Reason :=
| ReadyReason | RequestedReason | ErrorReason | InitReason
| OtherReason (name : string).

Inductive Severity := SeverityError | SeverityWarning | SeverityInfo | SeverityNone.

Inductive Message :=
| NodeSetIPReservationReadyMessage
| NodeSetIPReservationReadyWaitingMessage
| NodeSetIPReservationReadyErrorMessage
| NodeSetDNSDataReadyMessage
| NodeSetDNSDataReadyWaitingMessage
| NodeSetDNSDataReadyErrorMessage
| MessageText (text : string).

#[global] Instance ConditionStatus_eq_dec : EqDecision ConditionStatus.
Proof. solve_decision. Defined.
#[global] Instance CondType_eq_dec : EqDecision CondType.
Proof. solve_decision. Defined.
#[global] Instance Reason_eq_dec : EqDecision Reason.
Proof. solve_decision. Defined.
#[global] Instance Severity_eq_dec : EqDecision Severity.
Proof. solve_decision. Defined.
#[global] Instance Message_eq_dec : EqDecision Message.
Proof. solve_decision. Defined.

Record Condition := mkCondition {
  cond_Type : CondType;
  cond_Status : ConditionStatus;
  cond_Reason : Reason;
  cond_Severity : Severity;
  cond_Message : Message
}.

(** A condition list is keyed by type: [SetCondition] replaces the entry
    of the same type or appends a new one.  Time stamps, and the sort that
    lib-common applies for display, are not modelled: every read below is
    a lookup by type. *)
Definition Conditions := list Condition.

Definition hasType (t : CondType) (c : Condition) : bool :=
  bool_decide (cond_Type c = t).

Definition Get (conditions : Conditions) (t : CondType) : option Condition :=
  List.find (hasType t) conditions.

Fixpoint SetCondition (conditions : Conditions) (c : Condition) : Conditions :=
  match conditions with
  | [] => [c]
  | existing :: rest =>
      if hasType (cond_Type c) existing then c :: rest
      else existing :: SetCondition rest c
  end.

Definition TrueCondition (t : CondType) (m : Message) : Condition :=
  mkCondition t ConditionTrue ReadyReason SeverityNone m.

Definition FalseCondition (t : CondType) (r : Reason) (s : Severity)
    (m : Message) : Condition :=
  mkCondition t ConditionFalse r s m.

Definition MarkTrue (conditions : Conditions) (t : CondType) (m : Message)
    : Conditions :=
  SetCondition conditions (TrueCondition t m).

Definition MarkFalse (conditions : Conditions) (t : CondType) (r : Reason)
    (s : Severity) (m : Message) : Conditions :=
  SetCondition conditions (FalseCondition t r s m).

Definition Remove (conditions : Conditions) (t : CondType) : Conditions :=
  List.filter (fun c => negb (hasType t c)) conditions.

Definition IsTrue (conditions : Conditions) (t : CondType) : bool :=
  match Get conditions t with
  | Some c => bool_decide (cond_Status c = ConditionTrue)
  | None => false
  end.

Definition IsFalse (conditions : Conditions) (t : CondType) : bool :=
  match Get conditions t with
  | Some c => bool_decide (cond_Status c = ConditionFalse)
  | None => false
  end.

(** The four outcomes the specification distinguishes for a named
    condition of the parent: absent is [NotApplicable]; [True] is [Ready];
    [False] is [Waiting] when requested and [Error] when an error. *)
Inductive ConditionState := Ready | Waiting | Error | NotApplicable.

Definition conditionState (conditions : Conditions) (t : CondType)
    : option ConditionState :=
  match Get conditions t with
  | None => Some NotApplicable
  | Some c =>
      match cond_Status c, cond_Reason c with
      | ConditionTrue, _ => Some Ready
      | ConditionFalse, RequestedReason => Some Waiting
      | ConditionFalse, ErrorReason => Some Error
      | _, _ => None
      end
  end.

(* ===================================================================== *)
(** ** Resources *)
(* ===================================================================== *)

(** Go's [error]: [None] of [option error] is the [nil] error. *)
Record error := ErrorString { error_text : string }.

Inductive Result (A : Type) :=
| Ok (value : A)
| Err (err : error).
Arguments Ok {A} value.
Arguments Err {A} err.

(** A requested network attachment ([infranetworkv1.IPSetNetwork]). *)
Record IPSetNetwork := mkIPSetNetwork {
  net_Name : string;
  net_FixedIP : option string
}.

(** One allocated address ([infranetworkv1.IPSetReservation]). *)
Record IPSetReservation := mkIPSetReservation {
  res_Network : string;
  res_Address : string;
  res_DNSDomain : string
}.

Record IPSet := mkIPSet {
  ipset_Namespace : string;
  ipset_Name : string;
  ipset_Spec_Networks : list IPSetNetwork;
  ipset_Status_Reservation : list IPSetReservation;
  ipset_Status_Conditions : Conditions
}.

Record NetConfig := mkNetConfig { netconfig_Name : string }.

(** A DNSMasq service resource; [dnsmasq_IsReady] is what its [IsReady()]
    method answers. *)
Record DNSMasq := mkDNSMasq {
  dnsmasq_IsReady : bool;
  dnsmasq_Status_DNSClusterAddresses : option (list string);
  dnsmasq_Status_DNSAddresses : option (list string)
}.

Record DNSHost := mkDNSHost {
  dnshost_IP : string;
  dnshost_Hostnames : list string
}.

(** A DNSData resource as read back; [dnsdata_IsReady] is what its
    [IsReady()] method answers. *)
Record DNSData := mkDNSData {
  dnsdata_Spec_Hosts : list DNSHost;
  dnsdata_Spec_DNSDataLabelSelectorValue : string;
  dnsdata_IsReady : bool
}.

Record NodeSection := mkNodeSection {
  HostName : string;
  Networks : list IPSetNetwork
}.

(** The parent object.  [Spec_Nodes] lists the nodes in the order in which
    the [range] statements visit them. *)
Record OpenStackDataPlaneNodeSet := mkNodeSet {
  Namespace : string;
  Name : string;
  Spec_Nodes : list NodeSection;
  Spec_NodeTemplate_Networks : list IPSetNetwork;
  Status_Conditions : Conditions
}.

Definition GetNamespace (instance : OpenStackDataPlaneNodeSet) : string :=
  Namespace instance.

Definition withConditions (instance : OpenStackDataPlaneNodeSet)
    (conditions : Conditions) : OpenStackDataPlaneNodeSet :=
  mkNodeSet (Namespace instance) (Name instance) (Spec_Nodes instance)
    (Spec_NodeTemplate_Networks instance) conditions.

(* ===================================================================== *)
(** ** The object store *)
(* ===================================================================== *)

(** The calls the code makes on [helper.GetClient()]. *)
Inductive Call :=
| CallList_NetConfig (namespace : string)
| CallCreateOrPatch_IPSet (namespace name : string) (nets : list IPSetNetwork)
| CallList_DNSMasq (namespace : string)
| CallCreateOrPatch_DNSData (namespace name : string) (hosts : list DNSHost)
    (labelSelectorValue : string)
| CallGet_DNSData (namespace name : string).

(** What the store answers, given the calls made before.  For
    [CreateOrPatch] of an IPSet the answer on success is the object as the
    call leaves it in [ipSet]. *)
Record Client := mkClient {
  answer_List_NetConfig : list Call -> string -> Result (list NetConfig);
  answer_CreateOrPatch_IPSet :
    list Call -> string -> string -> list IPSetNetwork -> Result IPSet;
  answer_List_DNSMasq : list Call -> string -> Result (list DNSMasq);
  answer_CreateOrPatch_DNSData :
    list Call -> string -> string -> list DNSHost -> string -> option error;
  answer_Get_DNSData : list Call -> string -> string -> Result DNSData
}.

(* ===================================================================== *)
(** ** One reconciliation pass as a state monad *)
(* ===================================================================== *)

Record State := mkState {
  st_instance : OpenStackDataPlaneNodeSet;
  st_calls : list Call
}.

Definition M (A : Type) : Type := State -> A * State.

Definition ret {A : Type} (a : A) : M A := fun s => (a, s).

Definition bind {A B : Type} (m : M A) (k : A -> M B) : M B :=
  fun s => let (a, s') := m s in k a s'.

Declare Scope pass_scope.
Delimit Scope pass_scope with pass.
Notation "x <- m ;; k" := (bind m (fun x => k))
  (at level 100, m at next level, right associativity) : pass_scope.
Notation "m ;;; k" := (bind m (fun _ => k))
  (at level 100, right associativity) : pass_scope.
Open Scope pass_scope.

Definition getInstance : M OpenStackDataPlaneNodeSet :=
  fun s => (st_instance s, s).

Definition modifyConditions (f : Conditions -> Conditions) : M unit :=
  fun s =>
    (tt, mkState (withConditions (st_instance s)
                    (f (Status_Conditions (st_instance s))))
                 (st_calls s)).

Definition instance_MarkTrue (t : CondType) (m : Message) : M unit :=
  modifyConditions (fun conditions => MarkTrue conditions t m).

Definition instance_MarkFalse (t : CondType) (r : Reason) (sv : Severity)
    (m : Message) : M unit :=
  modifyConditions (fun conditions => MarkFalse conditions t r sv m).

Definition instance_Remove (t : CondType) : M unit :=
  modifyConditions (fun conditions => Remove conditions t).

(** A store call: answered from the calls so far, then logged. *)
Definition call {A : Type} (c : Call) (answer : list Call -> A) : M A :=
  fun s => (answer (st_calls s), mkState (st_instance s) (st_calls s ++ [c])).

Definition List_NetConfig (client : Client) (namespace : string)
    : M (Result (list NetConfig)) :=
  call (CallList_NetConfig namespace)
       (fun before => answer_List_NetConfig client before namespace).

Definition CreateOrPatch_IPSet (client : Client) (namespace name : string)
    (nets : list IPSetNetwork) : M (Result IPSet) :=
  call (CallCreateOrPatch_IPSet namespace name nets)
       (fun before => answer_CreateOrPatch_IPSet client before namespace name nets).

Definition List_DNSMasq (client : Client) (namespace : string)
    : M (Result (list DNSMasq)) :=
  call (CallList_DNSMasq namespace)
       (fun before => answer_List_DNSMasq client before namespace).

Definition CreateOrPatch_DNSData (client : Client) (namespace name : string)
    (hosts : list DNSHost) (labelSelectorValue : string) : M (option error) :=
  call (CallCreateOrPatch_DNSData namespace name hosts labelSelectorValue)
       (fun before =>
          answer_CreateOrPatch_DNSData client before namespace name hosts
            labelSelectorValue).

Definition Get_DNSData (client : Client) (namespace name : string)
    : M (Result DNSData) :=
  call (CallGet_DNSData namespace name)
       (fun before => answer_Get_DNSData client before namespace name).

(* ===================================================================== *)
(** ** [reserveIPs] and [EnsureIPSets] *)
(* ===================================================================== *)

(** The attachments requested for a node: its own, or the template's when
    it has none. *)
Definition netsOf (instance : OpenStackDataPlaneNodeSet) (node : NodeSection)
    : list IPSetNetwork :=
  if length (Networks node) =? 0 then Spec_NodeTemplate_Networks instance
  else Networks node.

(** The loop of [reserveIPs] over [instance.Spec.Nodes]; [Err] is the
    early [return nil, err]. *)
Fixpoint reserveIPs_range (client : Client)
    (instance : OpenStackDataPlaneNodeSet) (nodes : list NodeSection)
    (ipamUsed : bool) (allIPSets : gmap string IPSet)
    : M (Result (bool * gmap string IPSet)) :=
  match nodes with
  | [] => ret (Ok (ipamUsed, allIPSets))
  | node :: rest =>
      let nets := netsOf instance node in
      let hostName := HostName node in
      if 0 <? length nets then
        r <- CreateOrPatch_IPSet client (Namespace instance) hostName nets ;;
        match r with
        | Err err => ret (Err err)
        | Ok ipSet =>
            reserveIPs_range client instance rest true
              (<[hostName := ipSet]> allIPSets)
        end
      else reserveIPs_range client instance rest ipamUsed allIPSets
  end.

(** [reserveIPs]: [Ok None] is the [nil] map returned when no NetConfig
    exists. *)
Definition reserveIPs (client : Client)
    : M (Result (option (gmap string IPSet))) :=
  instance <- getInstance ;;
  r <- List_NetConfig client (GetNamespace instance) ;;
  match r with
  | Err err => ret (Err err)
  | Ok items =>
      if length items =? 0 then
        instance_Remove NodeSetIPReservationReadyCondition ;;;
        ret (Ok None)
      else
        r <- reserveIPs_range client instance (Spec_Nodes instance) false ∅ ;;
        match r with
        | Err err => ret (Err err)
        | Ok (ipamUsed, allIPSets) =>
            (if negb ipamUsed
             then instance_Remove NodeSetIPReservationReadyCondition
             else ret tt) ;;;
            ret (Ok (Some allIPSets))
        end
  end.

(** [len] of a possibly [nil] map. *)
Definition len_map (m : option (gmap string IPSet)) : nat :=
  match m with
  | None => 0
  | Some m => size m
  end.

(** What [EnsureIPSets] returns: the map ([None] is [nil]), the flag and
    the error. *)
Definition IPSetsResult : Type :=
  option (gmap string IPSet) * bool * option error.

(** The readiness scan of [EnsureIPSets]; [Some] is the early return. *)
Fixpoint EnsureIPSets_range (sets : list (string * IPSet))
    : M (option IPSetsResult) :=
  match sets with
  | [] => ret None
  | (_, s) :: rest =>
      if negb (IsTrue (ipset_Status_Conditions s) ReadyCondition) then
        instance_MarkFalse NodeSetIPReservationReadyCondition
          RequestedReason SeverityInfo
          NodeSetIPReservationReadyWaitingMessage ;;;
        ret (Some (None, false, None))
      else EnsureIPSets_range rest
  end.

(** [EnsureIPSets].  [rangeOver] is the order in which [range allIPSets]
    yields the entries of the map, which Go leaves unspecified. *)
Definition EnsureIPSets
    (rangeOver : gmap string IPSet -> list (string * IPSet))
    (client : Client) : M IPSetsResult :=
  r <- reserveIPs client ;;
  match r with
  | Err err =>
      instance_MarkFalse NodeSetIPReservationReadyCondition
        ErrorReason SeverityError NodeSetIPReservationReadyErrorMessage ;;;
      ret (None, false, Some err)
  | Ok allIPSets =>
      if len_map allIPSets =? 0 then ret (None, true, None)
      else
        early <- EnsureIPSets_range
                   (match allIPSets with
                    | Some m => rangeOver m
                    | None => []
                    end) ;;
        match early with
        | Some result => ret result
        | None =>
            instance_MarkTrue NodeSetIPReservationReadyCondition
              NodeSetIPReservationReadyMessage ;;;
            ret (allIPSets, true, None)
        end
  end.

(* ===================================================================== *)
(** ** [DataplaneDNSData] and the DNS functions *)
(* ===================================================================== *)

Record DataplaneDNSData := mkDNS {
  ServerAddresses : option (list string);
  ClusterAddresses : option (list string);
  CtlplaneSearchDomain : string;
  DNSReady : bool;
  Hostnames : gmap string (gmap string string);
  AllIPs : gmap string (gmap string string)
}.

(** Go's zero value [DataplaneDNSData{}]. *)
Definition zeroDNS : DataplaneDNSData := mkDNS None None EmptyString false ∅ ∅.

Definition setServerAddresses (dns : DataplaneDNSData) (v : option (list string)) :=
  mkDNS v (ClusterAddresses dns) (CtlplaneSearchDomain dns) (DNSReady dns)
    (Hostnames dns) (AllIPs dns).
Definition setClusterAddresses (dns : DataplaneDNSData) (v : option (list string)) :=
  mkDNS (ServerAddresses dns) v (CtlplaneSearchDomain dns) (DNSReady dns)
    (Hostnames dns) (AllIPs dns).
Definition setCtlplaneSearchDomain (dns : DataplaneDNSData) (v : string) :=
  mkDNS (ServerAddresses dns) (ClusterAddresses dns) v (DNSReady dns)
    (Hostnames dns) (AllIPs dns).
Definition setReady (dns : DataplaneDNSData) (v : bool) :=
  mkDNS (ServerAddresses dns) (ClusterAddresses dns) (CtlplaneSearchDomain dns) v
    (Hostnames dns) (AllIPs dns).
Definition setHostnames (dns : DataplaneDNSData) (v : gmap string (gmap string string)) :=
  mkDNS (ServerAddresses dns) (ClusterAddresses dns) (CtlplaneSearchDomain dns)
    (DNSReady dns) v (AllIPs dns).
Definition setAllIPs (dns : DataplaneDNSData) (v : gmap string (gmap string string)) :=
  mkDNS (ServerAddresses dns) (ClusterAddresses dns) (CtlplaneSearchDomain dns)
    (DNSReady dns) (Hostnames dns) v.

(** [m[hostName][net] = value] on a map of maps.  The code runs it only
    after [m[hostName]] was set in the same iteration, so the inner map is
    there. *)
Definition setInner (m : gmap string (gmap string string))
    (hostName net value : string) : gmap string (gmap string string) :=
  alter (fun inner => <[net := value]> inner) hostName m.

(** Modelled from the spec: the constant [CtlPlaneNetwork] is declared in
    another file of the package; the specification names the control-plane
    network [ctlplane]. *)
Definition CtlPlaneNetwork : string := "ctlplane".

(** [CheckDNSService].  Only the last branch assigns the address fields. *)
Definition CheckDNSService (client : Client) (dns : DataplaneDNSData)
    : M (DataplaneDNSData * option error) :=
  instance <- getInstance ;;
  r <- List_DNSMasq client (GetNamespace instance) ;;
  match r with
  | Err err => ret (setReady dns false, Some err)
  | Ok items =>
      match items with
      | [] => ret (setReady dns true, None)
      | first :: _ =>
          if negb (dnsmasq_IsReady first) then ret (setReady dns false, None)
          else
            let dns := setClusterAddresses dns
                         (dnsmasq_Status_DNSClusterAddresses first) in
            let dns := setServerAddresses dns
                         (dnsmasq_Status_DNSAddresses first) in
            ret (setReady dns true, None)
      end
  end.

(** The variables [createOrPatchDNSData] carries through its loops: the
    receiver, the slice [allDNSRecords] and the local
    [ctlplaneSearchDomain]. *)
Record BuildState := mkBuild {
  bs_dns : DataplaneDNSData;
  bs_allDNSRecords : list DNSHost;
  bs_ctlplaneSearchDomain : string
}.

Definition isNil {A : Type} (o : option A) : bool :=
  match o with
  | None => true
  | Some _ => false
  end.

Definition isErr (o : option error) : bool := negb (isNil o).

(** [allIPSets[hostName]] on a possibly [nil] map. *)
Definition lookupIPSet (allIPSets : option (gmap string IPSet))
    (hostName : string) : option IPSet :=
  match allIPSets with
  | None => None
  | Some m => m !! hostName
  end.

Section DNS.

(** [dataplanev1.NodeHostNameIsFQDN] is declared outside the source files
    at hand; the functions are parametric in it. *)
Variable NodeHostNameIsFQDN : string -> bool.

(** The body of the loop over [ipSet.Status.Reservation]. *)
Definition reservationBody (hostName shortName : string) (st : BuildState)
    (res : IPSetReservation) : BuildState :=
  let dns := bs_dns st in
  let fqdnNames : list string := [] in
  let netLower := ToLower (res_Network res) in
  let fqdnName := Join [shortName; res_DNSDomain res] "." in
  let '(fqdnNames, dns) :=
    if negb (String.eqb fqdnName hostName) then
      (fqdnNames ++ [fqdnName],
       setHostnames dns (setInner (Hostnames dns) hostName netLower fqdnName))
    else (fqdnNames, dns) in
  let '(fqdnNames, dns) :=
    if NodeHostNameIsFQDN hostName && String.eqb netLower CtlPlaneNetwork then
      (fqdnNames ++ [hostName],
       setHostnames dns (setInner (Hostnames dns) hostName netLower hostName))
    else (fqdnNames, dns) in
  let dns := setAllIPs dns (setInner (AllIPs dns) hostName netLower (res_Address res)) in
  let dnsRecord := mkDNSHost (res_Address res) fqdnNames in
  let allDNSRecords := bs_allDNSRecords st ++ [dnsRecord] in
  let dns :=
    if String.eqb netLower CtlPlaneNetwork
       && String.eqb (bs_ctlplaneSearchDomain st) EmptyString
    then setCtlplaneSearchDomain dns (res_DNSDomain res)
    else dns in
  mkBuild dns allDNSRecords (bs_ctlplaneSearchDomain st).

(** The body of the loop over [instance.Spec.Nodes]. *)
Definition nodeBody (instance : OpenStackDataPlaneNodeSet)
    (allIPSets : option (gmap string IPSet)) (st : BuildState)
    (node : NodeSection) : BuildState :=
  let hostName := HostName node in
  let dns := bs_dns st in
  let dns := setHostnames dns (<[hostName := ∅]> (Hostnames dns)) in
  let dns := setAllIPs dns (<[hostName := ∅]> (AllIPs dns)) in
  let st := mkBuild dns (bs_allDNSRecords st) (bs_ctlplaneSearchDomain st) in
  let shortName := firstPiece (Split hostName ".") in
  let nets := netsOf instance node in
  if 0 <? length nets then
    match lookupIPSet allIPSets hostName with
    | Some ipSet =>
        fold_left (reservationBody hostName shortName)
          (ipset_Status_Reservation ipSet) st
    | None => st
    end
  else st.

(** The two nested loops of [createOrPatchDNSData], from the declarations
    at its top to the end of the loop over the nodes. *)
Definition buildDNSData (instance : OpenStackDataPlaneNodeSet)
    (allIPSets : option (gmap string IPSet)) (dns : DataplaneDNSData)
    : BuildState :=
  let allDNSRecords : list DNSHost := [] in
  let ctlplaneSearchDomain := EmptyString in
  let dns := setHostnames dns ∅ in
  let dns := setAllIPs dns ∅ in
  fold_left (nodeBody instance allIPSets) (Spec_Nodes instance)
    (mkBuild dns allDNSRecords ctlplaneSearchDomain).

Definition createOrPatchDNSData (client : Client)
    (allIPSets : option (gmap string IPSet)) (dns : DataplaneDNSData)
    : M (DataplaneDNSData * option error) :=
  instance <- getInstance ;;
  let st := buildDNSData instance allIPSets dns in
  err <- CreateOrPatch_DNSData client (Namespace instance) (Name instance)
           (bs_allDNSRecords st) "dnsdata" ;;
  ret (bs_dns st, err).

(** [EnsureDNSData]. *)
Definition EnsureDNSData (client : Client)
    (allIPSets : option (gmap string IPSet)) (dns : DataplaneDNSData)
    : M (DataplaneDNSData * option error) :=
  checked <- CheckDNSService client dns ;;
  let '(dns, err) := checked in
  if isErr err || negb (DNSReady dns) || isNil (ClusterAddresses dns) then
    (if isErr err then
       instance_MarkFalse NodeSetDNSDataReadyCondition
         ErrorReason SeverityError NodeSetDNSDataReadyErrorMessage
     else ret tt) ;;;
    (if negb (DNSReady dns) then
       instance_MarkFalse NodeSetDNSDataReadyCondition
         RequestedReason SeverityInfo NodeSetDNSDataReadyWaitingMessage
     else ret tt) ;;;
    (if isNil (ClusterAddresses dns) then
       instance_Remove NodeSetDNSDataReadyCondition
     else ret tt) ;;;
    ret (dns, err)
  else
    built <- createOrPatchDNSData client allIPSets dns ;;
    let '(dns, err) := built in
    match err with
    | Some err =>
        instance_MarkFalse NodeSetDNSDataReadyCondition
          ErrorReason SeverityError NodeSetDNSDataReadyErrorMessage ;;;
        ret (dns, Some err)
    | None =>
        instance <- getInstance ;;
        r <- Get_DNSData client (Namespace instance) (Name instance) ;;
        match r with
        | Err err =>
            instance_MarkFalse NodeSetDNSDataReadyCondition
              ErrorReason SeverityError NodeSetDNSDataReadyErrorMessage ;;;
            ret (dns, Some err)
        | Ok dnsData =>
            if negb (dnsdata_IsReady dnsData) then
              instance_MarkFalse NodeSetDNSDataReadyCondition
                RequestedReason SeverityInfo
                NodeSetDNSDataReadyWaitingMessage ;;;
              ret (setReady dns false, None)
            else
              instance_MarkTrue NodeSetDNSDataReadyCondition
                NodeSetDNSDataReadyMessage ;;;
              ret (setReady dns true, None)
        end
    end.

End DNS.

(* ===================================================================== *)
(** ** The earlier revision of the file *)
(* ===================================================================== *)

(** The second copy of the package file among the sources is an earlier
    revision of the same functions.  Its readiness scan and its
    record-building loops are embedded here, next to the current ones, to
    compare the two. *)
Module PriorRevision.

(** The readiness scan: a member stops the scan only when its Ready
    condition [IsFalse]. *)
Fixpoint EnsureIPSets_range (sets : list (string * IPSet))
    : M (option IPSetsResult) :=
  match sets with
  | [] => ret None
  | (_, s) :: rest =>
      if IsFalse (ipset_Status_Conditions s) ReadyCondition then
        instance_MarkFalse NodeSetIPReservationReadyCondition
          RequestedReason SeverityInfo
          NodeSetIPReservationReadyWaitingMessage ;;;
        ret (Some (None, false, None))
      else EnsureIPSets_range rest
  end.

(** The loop over [ipSet.Status.Reservation]: the state is the slice
    [allDNSRecords] and the local [ctlplaneSearchDomain], which this
    revision assigns. *)
Definition reservationBody (nodeName : string)
    (st : list DNSHost * string) (res : IPSetReservation)
    : list DNSHost * string :=
  let '(allDNSRecords, ctlplaneSearchDomain) := st in
  let fqdnNames : list string := [] in
  let fqdnName := Join [nodeName; res_DNSDomain res] "." in
  let fqdnNames := fqdnNames ++ [fqdnName] in
  let dnsRecord := mkDNSHost (res_Address res) fqdnNames in
  let allDNSRecords := allDNSRecords ++ [dnsRecord] in
  let ctlplaneSearchDomain :=
    if String.eqb (res_Network res) CtlPlaneNetwork
       && String.eqb ctlplaneSearchDomain EmptyString
    then res_DNSDomain res
    else ctlplaneSearchDomain in
  (allDNSRecords, ctlplaneSearchDomain).

(** The loop over [instance.Spec.NodeTemplate.Nodes], a map from node name
    to node, given as the entries in the order [range] yields them. *)
Definition nodeBody (templateNetworks : list IPSetNetwork)
    (allIPSets : option (gmap string IPSet))
    (st : list DNSHost * string) (entry : string * NodeSection)
    : list DNSHost * string :=
  let '(nodeName, node) := entry in
  let nets := if length (Networks node) =? 0 then templateNetworks
              else Networks node in
  if 0 <? length nets then
    match lookupIPSet allIPSets nodeName with
    | Some ipSet =>
        fold_left (reservationBody nodeName) (ipset_Status_Reservation ipSet) st
    | None => st
    end
  else st.

Definition buildDNSData (templateNetworks : list IPSetNetwork)
    (nodes : list (string * NodeSection))
    (allIPSets : option (gmap string IPSet)) : list DNSHost * string :=
  fold_left (nodeBody templateNetworks allIPSets) nodes ([], EmptyString).

(** The rest of this revision.  Its parent object keeps the nodes in the
    map [instance.Spec.NodeTemplate.Nodes], from node name to node; the
    functions below take the entries of that map, in the order [range]
    yields them, as the argument [nodes], and read everything else from
    [instance]. *)
Definition templateNets (instance : OpenStackDataPlaneNodeSet)
    (node : NodeSection) : list IPSetNetwork :=
  if length (Networks node) =? 0 then Spec_NodeTemplate_Networks instance
  else Networks node.

(** The loop of [reserveIPs]; this revision keeps no [ipamUsed] flag. *)
Fixpoint reserveIPs_range (client : Client)
    (instance : OpenStackDataPlaneNodeSet) (nodes : list (string * NodeSection))
    (allIPSets : gmap string IPSet) : M (Result (gmap string IPSet)) :=
  match nodes with
  | [] => ret (Ok allIPSets)
  | (nodeName, node) :: rest =>
      let nets := templateNets instance node in
      if 0 <? length nets then
        r <- CreateOrPatch_IPSet client (Namespace instance) nodeName nets ;;
        match r with
        | Err err => ret (Err err)
        | Ok ipSet =>
            reserveIPs_range client instance rest (<[nodeName := ipSet]> allIPSets)
        end
      else reserveIPs_range client instance rest allIPSets
  end.

Definition reserveIPs (client : Client) (nodes : list (string * NodeSection))
    : M (Result (option (gmap string IPSet))) :=
  instance <- getInstance ;;
  r <- List_NetConfig client (GetNamespace instance) ;;
  match r with
  | Err err => ret (Err err)
  | Ok items =>
      if length items =? 0 then
        instance_Remove NodeSetIPReservationReadyCondition ;;;
        ret (Ok None)
      else
        r <- reserveIPs_range client instance nodes ∅ ;;
        match r with
        | Err err => ret (Err err)
        | Ok allIPSets => ret (Ok (Some allIPSets))
        end
  end.

Definition EnsureIPSets
    (rangeOver : gmap string IPSet -> list (string * IPSet))
    (client : Client) (nodes : list (string * NodeSection)) : M IPSetsResult :=
  r <- reserveIPs client nodes ;;
  match r with
  | Err err =>
      instance_MarkFalse NodeSetIPReservationReadyCondition
        ErrorReason SeverityError NodeSetIPReservationReadyErrorMessage ;;;
      ret (None, false, Some err)
  | Ok allIPSets =>
      if len_map allIPSets =? 0 then ret (None, true, None)
      else
        early <- EnsureIPSets_range
                   (match allIPSets with
                    | Some m => rangeOver m
                    | None => []
                    end) ;;
        match early with
        | Some result => ret result
        | None =>
            instance_MarkTrue NodeSetIPReservationReadyCondition
              NodeSetIPReservationReadyMessage ;;;
            ret (allIPSets, true, None)
        end
  end.

(** What [checkDNSService] returns: the server addresses, the cluster
    addresses, the readiness and the error. *)
Definition DNSServiceResult : Type :=
  option (list string) * option (list string) * bool * option error.

Definition checkDNSService (client : Client) : M DNSServiceResult :=
  instance <- getInstance ;;
  r <- List_DNSMasq client (GetNamespace instance) ;;
  match r with
  | Err err => ret (None, None, false, Some err)
  | Ok items =>
      match items with
      | [] => ret (None, None, true, None)
      | first :: _ =>
          if negb (dnsmasq_IsReady first) then ret (None, None, false, None)
          else
            let dnsClusterAddresses := dnsmasq_Status_DNSClusterAddresses first in
            let dnsAddresses := dnsmasq_Status_DNSAddresses first in
            ret (dnsAddresses, dnsClusterAddresses, true, None)
      end
  end.

Definition createOrPatchDNSData (client : Client)
    (nodes : list (string * NodeSection))
    (allIPSets : option (gmap string IPSet)) : M (string * option error) :=
  instance <- getInstance ;;
  let built := buildDNSData (Spec_NodeTemplate_Networks instance) nodes allIPSets in
  err <- CreateOrPatch_DNSData client (Namespace instance) (Name instance)
           (fst built) "dnsdata" ;;
  match err with
  | Some err => ret (EmptyString, Some err)
  | None => ret (snd built, None)
  end.

(** What [EnsureDNSData] returns: the server addresses, the cluster
    addresses, the search domain, the readiness and the error. *)
Definition DNSDataResult : Type :=
  option (list string) * option (list string) * string * bool * option error.

Definition EnsureDNSData (client : Client)
    (nodes : list (string * NodeSection))
    (allIPSets : option (gmap string IPSet)) : M DNSDataResult :=
  checked <- checkDNSService client ;;
  let '(dnsAddresses, dnsClusterAddresses, isReady, err) := checked in
  if isErr err || negb isReady || isNil dnsAddresses then
    (if isErr err then
       instance_MarkFalse NodeSetDNSDataReadyCondition
         ErrorReason SeverityError NodeSetDNSDataReadyErrorMessage
     else ret tt) ;;;
    (if negb isReady then
       instance_MarkFalse NodeSetDNSDataReadyCondition
         RequestedReason SeverityInfo NodeSetDNSDataReadyWaitingMessage
     else ret tt) ;;;
    (if isNil dnsAddresses then
       instance_Remove NodeSetDNSDataReadyCondition
     else ret tt) ;;;
    ret (None, None, EmptyString, isReady, err)
  else
    built <- createOrPatchDNSData client nodes allIPSets ;;
    let '(ctlplaneSearchDomain, err) := built in
    match err with
    | Some err =>
        instance_MarkFalse NodeSetDNSDataReadyCondition
          ErrorReason SeverityError NodeSetDNSDataReadyErrorMessage ;;;
        ret (None, None, EmptyString, false, Some err)
    | None =>
        instance <- getInstance ;;
        r <- Get_DNSData client (Namespace instance) (Name instance) ;;
        match r with
        | Err err =>
            instance_MarkFalse NodeSetDNSDataReadyCondition
              ErrorReason SeverityError NodeSetDNSDataReadyErrorMessage ;;;
            ret (None, None, EmptyString, false, Some err)
        | Ok dnsData =>
            if negb (dnsdata_IsReady dnsData) then
              instance_MarkFalse NodeSetDNSDataReadyCondition
                RequestedReason SeverityInfo
                NodeSetDNSDataReadyWaitingMessage ;;;
              ret (None, None, EmptyString, false, None)
            else
              instance_MarkTrue NodeSetDNSDataReadyCondition
                NodeSetDNSDataReadyMessage ;;;
              ret (dnsAddresses, dnsClusterAddresses, ctlplaneSearchDomain,
                   true, None)
        end
    end.

End PriorRevision.

(* ===================================================================== *)
(** ** Declarative counterparts used in the statements *)
(* ===================================================================== *)

(** A node participates when it requests at least one attachment. *)
Definition participates (instance : OpenStackDataPlaneNodeSet)
    (node : NodeSection) : bool :=
  0 <? length (netsOf instance node).

(** The reservations the builder visits for a node. *)
Definition reservationsOf (instance : OpenStackDataPlaneNodeSet)
    (allIPSets : option (gmap string IPSet)) (node : NodeSection)
    : list IPSetReservation :=
  if participates instance node then
    match lookupIPSet allIPSets (HostName node) with
    | Some ipSet => ipset_Status_Reservation ipSet
    | None => []
    end
  else [].

Definition shortNameOf (hostName : string) : string :=
  firstPiece (Split hostName ".").

Definition fqdnOf (hostName : string) (res : IPSetReservation) : string :=
  shortNameOf hostName +:+ "." +:+ res_DNSDomain res.

Definition onCtlPlane (res : IPSetReservation) : bool :=
  String.eqb (ToLower (res_Network res)) CtlPlaneNetwork.

(** The aliases of the record built for one reservation. *)
Definition aliasesOf (NodeHostNameIsFQDN : string -> bool)
    (hostName : string) (res : IPSetReservation) : list string :=
  (if String.eqb (fqdnOf hostName res) hostName then []
   else [fqdnOf hostName res])
  ++ (if NodeHostNameIsFQDN hostName && onCtlPlane res then [hostName]
      else []).

Definition recordOf (NodeHostNameIsFQDN : string -> bool)
    (hostName : string) (res : IPSetReservation) : DNSHost :=
  mkDNSHost (res_Address res) (aliasesOf NodeHostNameIsFQDN hostName res).

Definition recordsOfNode (NodeHostNameIsFQDN : string -> bool)
    (instance : OpenStackDataPlaneNodeSet)
    (allIPSets : option (gmap string IPSet)) (node : NodeSection)
    : list DNSHost :=
  map (recordOf NodeHostNameIsFQDN (HostName node))
      (reservationsOf instance allIPSets node).

(** All reservations in the order the builder visits them, and the DNS
    domains of those on the control-plane network. *)
Definition visited (instance : OpenStackDataPlaneNodeSet)
    (allIPSets : option (gmap string IPSet)) : list IPSetReservation :=
  flat_map (reservationsOf instance allIPSets) (Spec_Nodes instance).

Definition ctlplaneDomains (reservations : list IPSetReservation)
    : list string :=
  map res_DNSDomain (List.filter onCtlPlane reservations).

(** The portion of a string before the first occurrence of a byte. *)
Definition isPrefixBefore (sep : ascii) (prefix s : string) : Prop :=
  occurs sep prefix = false
  /\ (s = prefix \/ exists rest, s = prefix +:+ String sep rest).

(** Every member's Ready condition is confirmed [True]. *)
Definition allReady (sets : list (string * IPSet)) : bool :=
  forallb (fun entry => IsTrue (ipset_Status_Conditions (snd entry)) ReadyCondition)
          sets.

(* ===================================================================== *)
(** ** States and conditions named in the statements *)
(* ===================================================================== *)

(** The state of the two conditions of the parent after a pass. *)
Definition reservationState (s : State) : option ConditionState :=
  conditionState (Status_Conditions (st_instance s))
    NodeSetIPReservationReadyCondition.

Definition dnsState (s : State) : option ConditionState :=
  conditionState (Status_Conditions (st_instance s))
    NodeSetDNSDataReadyCondition.

Definition markWaiting (s : State) : State :=
  mkState
    (withConditions (st_instance s)
       (MarkFalse (Status_Conditions (st_instance s))
          NodeSetIPReservationReadyCondition RequestedReason SeverityInfo
          NodeSetIPReservationReadyWaitingMessage))
    (st_calls s).

Definition markReady (s : State) : State :=
  mkState
    (withConditions (st_instance s)
       (MarkTrue (Status_Conditions (st_instance s))
          NodeSetIPReservationReadyCondition NodeSetIPReservationReadyMessage))
    (st_calls s).

Definition markError (s : State) : State :=
  mkState
    (withConditions (st_instance s)
       (MarkFalse (Status_Conditions (st_instance s))
          NodeSetIPReservationReadyCondition ErrorReason SeverityError
          NodeSetIPReservationReadyErrorMessage))
    (st_calls s).

Definition removeReservationCondition (s : State) : State :=
  mkState
    (withConditions (st_instance s)
       (Remove (Status_Conditions (st_instance s))
          NodeSetIPReservationReadyCondition))
    (st_calls s).

(** Every member of the map has its Ready condition [True]. *)
Definition everyReady (m : gmap string IPSet) : Prop :=
  map_Forall
    (fun _ ipSet => IsTrue (ipset_Status_Conditions ipSet) ReadyCondition = true)
    m.

(** No attachment anywhere: every node's list and the template's are
    empty. *)
Definition noAttachments (instance : OpenStackDataPlaneNodeSet) : Prop :=
  Forall (fun node => Networks node = []) (Spec_Nodes instance)
  /\ Spec_NodeTemplate_Networks instance = [].

(** [m[hostName][net]] read back from a map of maps. *)
Definition registered (m : gmap string (gmap string string))
    (hostName net : string) : option string :=
  match m !! hostName with
  | Some inner => inner !! net
  | None => None
  end.

Definition withDNSConditions (s : State) (f : Conditions -> Conditions)
    : State :=
  mkState (withConditions (st_instance s) (f (Status_Conditions (st_instance s))))
    (st_calls s).

(** What the three tests at the top of [EnsureDNSData] do, in order, to
    the conditions of the parent. *)
Definition gateConditions (err : option error) (dns : DataplaneDNSData)
    (conditions : Conditions) : Conditions :=
  let conditions :=
    if isErr err then
      MarkFalse conditions NodeSetDNSDataReadyCondition ErrorReason
        SeverityError NodeSetDNSDataReadyErrorMessage
    else conditions in
  let conditions :=
    if negb (DNSReady dns) then
      MarkFalse conditions NodeSetDNSDataReadyCondition RequestedReason
        SeverityInfo NodeSetDNSDataReadyWaitingMessage
    else conditions in
  if isNil (ClusterAddresses dns) then
    Remove conditions NodeSetDNSDataReadyCondition
  else conditions.

Definition gateClosed (err : option error) (dns : DataplaneDNSData) : bool :=
  isErr err || negb (DNSReady dns) || isNil (ClusterAddresses dns).

(** The receiver as the ready branch of [CheckDNSService] leaves it. *)
Definition readFrom (first : DNSMasq) (dns : DataplaneDNSData)
    : DataplaneDNSData :=
  setReady
    (setServerAddresses
       (setClusterAddresses dns (dnsmasq_Status_DNSClusterAddresses first))
       (dnsmasq_Status_DNSAddresses first))
    true.

(* ===================================================================== *)
(** ** Concrete stores, node sets and receivers *)
(* ===================================================================== *)

Definition ctlplaneNet : IPSetNetwork := mkIPSetNetwork "ctlplane" None.

Definition sampleReservation : IPSetReservation :=
  mkIPSetReservation "ctlplane" "172.20.0.10" "ctlplane.example.com".

(** An IPSet as a store hands it back once its controller has allocated
    an address and marked it ready. *)
Definition readyIPSet (namespace name : string) (nets : list IPSetNetwork)
    : IPSet :=
  mkIPSet namespace name nets [sampleReservation]
    [TrueCondition ReadyCondition (MessageText "ready")].

Definition readyDNSMasq : DNSMasq :=
  mkDNSMasq true (Some ["10.217.4.53"]) (Some ["192.168.122.80"]).

(** A store in which everything exists, succeeds and is ready. *)
Definition storeAllReady : Client :=
  mkClient
    (fun _ _ => Ok [mkNetConfig "netconfig"])
    (fun _ namespace name nets => Ok (readyIPSet namespace name nets))
    (fun _ _ => Ok [readyDNSMasq])
    (fun _ _ _ _ _ => None)
    (fun _ _ _ => Ok (mkDNSData [] "dnsdata" true)).

(** The same store, except that the upsert of the IPSet [edpm-1] fails. *)
Definition storeConflict : Client :=
  mkClient
    (answer_List_NetConfig storeAllReady)
    (fun _ namespace name nets =>
       if String.eqb name "edpm-1" then Err (ErrorString "conflict")
       else Ok (readyIPSet namespace name nets))
    (answer_List_DNSMasq storeAllReady)
    (answer_CreateOrPatch_DNSData storeAllReady)
    (answer_Get_DNSData storeAllReady).

(** The same store, except that listing the NetConfigs fails. *)
Definition storeListFails : Client :=
  mkClient
    (fun _ _ => Err (ErrorString "list failed"))
    (answer_CreateOrPatch_IPSet storeAllReady)
    (answer_List_DNSMasq storeAllReady)
    (answer_CreateOrPatch_DNSData storeAllReady)
    (answer_Get_DNSData storeAllReady).

Definition oneNode : OpenStackDataPlaneNodeSet :=
  mkNodeSet "openstack" "edpm" [mkNodeSection "edpm-0" [ctlplaneNet]] [] [].

Definition threeNodes : OpenStackDataPlaneNodeSet :=
  mkNodeSet "openstack" "edpm"
    [mkNodeSection "edpm-0" []; mkNodeSection "edpm-1" [];
     mkNodeSection "edpm-2" []]
    [ctlplaneNet] [].

Definition bareNodes : OpenStackDataPlaneNodeSet :=
  mkNodeSet "openstack" "edpm"
    [mkNodeSection "edpm-0" []; mkNodeSection "edpm-1" []] [] [].

Definition oneNodeSets : gmap string IPSet :=
  <["edpm-0" := readyIPSet "openstack" "edpm-0" [ctlplaneNet]]> ∅.

(** A stand-in for [NodeHostNameIsFQDN] in the concrete passes: a host
    name with a domain part. *)
Definition hasDomainPart (hostName : string) : bool := occurs "." hostName.

Definition storageNet : IPSetNetwork := mkIPSetNetwork "storage" None.

Definition storageReservation : IPSetReservation :=
  mkIPSetReservation "storage" "172.18.0.10" "storage.example.com".

(** A node declared by a name that is already the one derived for its
    storage network. *)
Definition storageNode : OpenStackDataPlaneNodeSet :=
  mkNodeSet "openstack" "edpm"
    [mkNodeSection "edpm-0.storage.example.com" [storageNet]] [] [].

Definition storageSets : gmap string IPSet :=
  <["edpm-0.storage.example.com" :=
      mkIPSet "openstack" "edpm-0.storage.example.com" [storageNet]
        [storageReservation]
        [TrueCondition ReadyCondition (MessageText "ready")]]> ∅.

(** Two nodes whose control-plane reservations come from two sites with
    distinct DNS domains. *)
Definition twoSites : OpenStackDataPlaneNodeSet :=
  mkNodeSet "openstack" "edpm"
    [mkNodeSection "edpm-0" []; mkNodeSection "edpm-1" []] [ctlplaneNet] [].

Definition twoSiteSets : gmap string IPSet :=
  <["edpm-0" :=
      mkIPSet "openstack" "edpm-0" [ctlplaneNet]
        [mkIPSetReservation "ctlplane" "172.20.0.10" "ctlplane.example.com"]
        [TrueCondition ReadyCondition (MessageText "ready")]]>
  (<["edpm-1" :=
      mkIPSet "openstack" "edpm-1" [ctlplaneNet]
        [mkIPSetReservation "ctlplane" "172.20.1.10" "ctlplane.site2.example.com"]
        [TrueCondition ReadyCondition (MessageText "ready")]]> ∅).

(** The store with one DNSMasq that is not ready yet. *)
Definition storeServiceNotReady : Client :=
  mkClient
    (answer_List_NetConfig storeAllReady)
    (answer_CreateOrPatch_IPSet storeAllReady)
    (fun _ _ => Ok [mkDNSMasq false None None])
    (answer_CreateOrPatch_DNSData storeAllReady)
    (answer_Get_DNSData storeAllReady).

(** The store with no DNSMasq. *)
Definition storeNoService : Client :=
  mkClient
    (answer_List_NetConfig storeAllReady)
    (answer_CreateOrPatch_IPSet storeAllReady)
    (fun _ _ => Ok [])
    (answer_CreateOrPatch_DNSData storeAllReady)
    (answer_Get_DNSData storeAllReady).

(** The store in which the DNSData, just written, is not ready yet. *)
Definition storeDNSDataPending : Client :=
  mkClient
    (answer_List_NetConfig storeAllReady)
    (answer_CreateOrPatch_IPSet storeAllReady)
    (answer_List_DNSMasq storeAllReady)
    (answer_CreateOrPatch_DNSData storeAllReady)
    (fun _ _ _ => Ok (mkDNSData [] "dnsdata" false)).

(** A receiver that still holds the addresses of an earlier pass. *)
Definition keptDNS : DataplaneDNSData :=
  mkDNS (Some ["192.168.122.80"]) (Some ["10.217.4.53"]) EmptyString true ∅ ∅.

(** The parent with its DNS condition Waiting. *)
Definition oneNodeWaiting : OpenStackDataPlaneNodeSet :=
  withConditions oneNode
    [FalseCondition NodeSetDNSDataReadyCondition RequestedReason SeverityInfo
       NodeSetDNSDataReadyWaitingMessage].

(* ===================================================================== *)
(** ** Further definitions used in the statements *)
(* ===================================================================== *)

(** The upsert [reserveIPs] makes for a node. *)
Definition upsertCall (instance : OpenStackDataPlaneNodeSet)
    (node : NodeSection) : Call :=
  CallCreateOrPatch_IPSet (Namespace instance) (HostName node)
    (netsOf instance node).

(** The participating nodes, in order. *)
Definition participating (instance : OpenStackDataPlaneNodeSet)
    : list NodeSection :=
  List.filter (participates instance) (Spec_Nodes instance).

Definition hostNames (nodes : list NodeSection) : gset string :=
  list_to_set (map HostName nodes).

(** Two parents that differ at most in their conditions. *)
Definition sameSpec (a b : OpenStackDataPlaneNodeSet) : Prop :=
  Namespace a = Namespace b
  /\ Name a = Name b
  /\ Spec_Nodes a = Spec_Nodes b
  /\ Spec_NodeTemplate_Networks a = Spec_NodeTemplate_Networks b.

(** A pass that, of the parent, changes at most the condition [t]. *)
Definition touchesOnly (t : CondType) (before after : State) : Prop :=
  sameSpec (st_instance before) (st_instance after)
  /\ forall t' : CondType,
       t' <> t ->
       Get (Status_Conditions (st_instance after)) t'
       = Get (Status_Conditions (st_instance before)) t'.

(** Two receivers with the same readiness and addresses. *)
Definition sameService (a b : DataplaneDNSData) : Prop :=
  DNSReady a = DNSReady b
  /\ ServerAddresses a = ServerAddresses b
  /\ ClusterAddresses a = ClusterAddresses b.

(** [dns.AllIPs[hostName][netLower] = res.Address] for one reservation. *)
Definition recordIP (hostName : string)
    (m : gmap string (gmap string string)) (res : IPSetReservation)
    : gmap string (gmap string string) :=
  setInner m hostName (ToLower (res_Network res)) (res_Address res).

(** The reservations of the earlier revision's builder for one entry, and
    its control-plane test (the network name as it is, not lower-cased). *)
Definition priorReservationsOf (templateNetworks : list IPSetNetwork)
    (allIPSets : option (gmap string IPSet)) (entry : string * NodeSection)
    : list (string * IPSetReservation) :=
  let nets := if length (Networks (snd entry)) =? 0 then templateNetworks
              else Networks (snd entry) in
  if 0 <? length nets then
    match lookupIPSet allIPSets (fst entry) with
    | Some ipSet => map (pair (fst entry)) (ipset_Status_Reservation ipSet)
    | None => []
    end
  else [].

Definition priorOnCtlPlane (res : IPSetReservation) : bool :=
  String.eqb (res_Network res) CtlPlaneNetwork.

(** The first non-empty string of a list; the empty string when there is
    none. *)
Fixpoint firstNonEmpty (l : list string) : string :=
  match l with
  | [] => EmptyString
  | d :: rest => if String.eqb d EmptyString then firstNonEmpty rest else d
  end.

(** More stores for the concrete passes. *)
Definition storeNoNetConfig : Client :=
  mkClient
    (fun _ _ => Ok [])
    (answer_CreateOrPatch_IPSet storeAllReady)
    (answer_List_DNSMasq storeAllReady)
    (answer_CreateOrPatch_DNSData storeAllReady)
    (answer_Get_DNSData storeAllReady).

Definition storeServiceListFails : Client :=
  mkClient
    (answer_List_NetConfig storeAllReady)
    (answer_CreateOrPatch_IPSet storeAllReady)
    (fun _ _ => Err (ErrorString "list failed"))
    (answer_CreateOrPatch_DNSData storeAllReady)
    (answer_Get_DNSData storeAllReady).

Definition storeDNSDataConflict : Client :=
  mkClient
    (answer_List_NetConfig storeAllReady)
    (answer_CreateOrPatch_IPSet storeAllReady)
    (answer_List_DNSMasq storeAllReady)
    (fun _ _ _ _ _ => Some (ErrorString "conflict"))
    (answer_Get_DNSData storeAllReady).

Definition storeGetFails : Client :=
  mkClient
    (answer_List_NetConfig storeAllReady)
    (answer_CreateOrPatch_IPSet storeAllReady)
    (answer_List_DNSMasq storeAllReady)
    (answer_CreateOrPatch_DNSData storeAllReady)
    (fun _ _ _ => Err (ErrorString "not found")).

(** The store whose DNSMasq is ready and advertises server addresses but
    no cluster addresses. *)
Definition storeNoClusterAddresses : Client :=
  mkClient
    (answer_List_NetConfig storeAllReady)
    (answer_CreateOrPatch_IPSet storeAllReady)
    (fun _ _ => Ok [mkDNSMasq true None (Some ["192.168.122.80"])])
    (answer_CreateOrPatch_DNSData storeAllReady)
    (answer_Get_DNSData storeAllReady).

(** The store whose DNSMasq is ready and advertises cluster addresses but
    no server addresses. *)
Definition storeNoServerAddresses : Client :=
  mkClient
    (answer_List_NetConfig storeAllReady)
    (answer_CreateOrPatch_IPSet storeAllReady)
    (fun _ _ => Ok [mkDNSMasq true (Some ["10.217.4.53"]) None])
    (answer_CreateOrPatch_DNSData storeAllReady)
    (answer_Get_DNSData storeAllReady).

(** The parent with a reservation condition left by an earlier pass. *)
Definition bareNodesReady : OpenStackDataPlaneNodeSet :=
  withConditions bareNodes
    [TrueCondition NodeSetIPReservationReadyCondition
       NodeSetIPReservationReadyMessage].

(** A reservation whose Ready condition is still False. *)
Definition pendingIPSet (namespace name : string) (nets : list IPSetNetwork)
  : IPSet :=
  mkIPSet namespace name nets []
    [FalseCondition ReadyCondition RequestedReason SeverityInfo
       (MessageText "pending")].

(** A store like [storeAllReady] in which the reservation of "edpm-1" is
    still pending. *)
Definition storeOnePending : Client :=
  mkClient (answer_List_NetConfig storeAllReady)
    (fun _ namespace name nets =>
       if String.eqb name "edpm-1"
       then Ok (pendingIPSet namespace name nets)
       else Ok (readyIPSet namespace name nets))
    (answer_List_DNSMasq storeAllReady)
    (answer_CreateOrPatch_DNSData storeAllReady)
    (answer_Get_DNSData storeAllReady).

(** The reservations [storeOnePending] hands out for [threeNodes]. *)
Definition threeSetsOnePending : gmap string IPSet :=
  <["edpm-2" := readyIPSet "openstack" "edpm-2" [ctlplaneNet]]>
    (<["edpm-1" := pendingIPSet "openstack" "edpm-1" [ctlplaneNet]]>
       (<["edpm-0" := readyIPSet "openstack" "edpm-0" [ctlplaneNet]]> ∅)).

(** The calls of a reservation pass over [threeNodes]. *)
Definition threeNodesCalls : list Call :=
  [CallList_NetConfig "openstack";
   CallCreateOrPatch_IPSet "openstack" "edpm-0" [ctlplaneNet];
   CallCreateOrPatch_IPSet "openstack" "edpm-1" [ctlplaneNet];
   CallCreateOrPatch_IPSet "openstack" "edpm-2" [ctlplaneNet]].

(** The nodes of [threeNodes] as the earlier revision receives them. *)
Definition threeNodeEntries : list (string * NodeSection) :=
  [("edpm-0", mkNodeSection "edpm-0" []);
   ("edpm-1", mkNodeSection "edpm-1" []);
   ("edpm-2", mkNodeSection "edpm-2" [])].

(* ===================================================================== *)
(** ** Facts about the string functions *)
(* ===================================================================== *)

Lemma Split_nonempty (s : string) (sep : ascii) : Split s sep <> [].
Proof.
  destruct s as [|a s']; simpl; [discriminate|].
  destruct (Ascii.eqb a sep); [discriminate|].
  destruct (Split s' sep); discriminate.
Qed.

Lemma firstPiece_Split (s : string) (sep : ascii) :
  isPrefixBefore sep (firstPiece (Split s sep)) s.
Proof.
  induction s as [|a s' IH]; simpl.
  - split; [reflexivity | left; reflexivity].
  - destruct (Ascii.eqb a sep) eqn:Ha; simpl.
    + apply Ascii.eqb_eq in Ha. subst a.
      split; [reflexivity | right; exists s'; reflexivity].
    + destruct (Split s' sep) as [|piece pieces] eqn:Hs.
      * exfalso. exact (Split_nonempty s' sep Hs).
      * simpl in *. destruct IH as [Hocc Hcut]. split.
        -- simpl. rewrite Ha. exact Hocc.
        -- destruct Hcut as [-> | [rest ->]]; [left; reflexivity|].
           right. exists rest. reflexivity.
Qed.

Lemma Join_pair (a b sep : string) : Join [a; b] sep = a +:+ sep +:+ b.
Proof. reflexivity. Qed.

(* ===================================================================== *)
(** ** Facts about condition lists *)
(* ===================================================================== *)

Lemma hasType_refl (c : Condition) : hasType (cond_Type c) c = true.
Proof. unfold hasType. apply bool_decide_eq_true. reflexivity. Qed.

Lemma Get_SetCondition (conditions : Conditions) (c : Condition) :
  Get (SetCondition conditions c) (cond_Type c) = Some c.
Proof.
  unfold Get. induction conditions as [|existing rest IH]; simpl.
  - rewrite hasType_refl. reflexivity.
  - destruct (hasType (cond_Type c) existing) eqn:Hx; simpl.
    + rewrite hasType_refl. reflexivity.
    + rewrite Hx. exact IH.
Qed.

Lemma Get_Remove (conditions : Conditions) (t : CondType) :
  Get (Remove conditions t) t = None.
Proof.
  unfold Get, Remove. induction conditions as [|existing rest IH]; simpl.
  - reflexivity.
  - destruct (hasType t existing) eqn:Hx; simpl; [exact IH|].
    rewrite Hx. exact IH.
Qed.

Lemma Get_MarkTrue (conditions : Conditions) (t : CondType) (m : Message) :
  Get (MarkTrue conditions t m) t = Some (TrueCondition t m).
Proof. exact (Get_SetCondition conditions (TrueCondition t m)). Qed.

Lemma Get_MarkFalse (conditions : Conditions) (t : CondType) (r : Reason)
    (sv : Severity) (m : Message) :
  Get (MarkFalse conditions t r sv m) t = Some (FalseCondition t r sv m).
Proof. exact (Get_SetCondition conditions (FalseCondition t r sv m)). Qed.

Lemma state_MarkTrue (conditions : Conditions) (t : CondType) (m : Message) :
  conditionState (MarkTrue conditions t m) t = Some Ready.
Proof. unfold conditionState. rewrite Get_MarkTrue. reflexivity. Qed.

Lemma state_MarkFalse_Requested (conditions : Conditions) (t : CondType)
    (sv : Severity) (m : Message) :
  conditionState (MarkFalse conditions t RequestedReason sv m) t = Some Waiting.
Proof. unfold conditionState. rewrite Get_MarkFalse. reflexivity. Qed.

Lemma state_MarkFalse_Error (conditions : Conditions) (t : CondType)
    (sv : Severity) (m : Message) :
  conditionState (MarkFalse conditions t ErrorReason sv m) t = Some Error.
Proof. unfold conditionState. rewrite Get_MarkFalse. reflexivity. Qed.

Lemma state_Remove (conditions : Conditions) (t : CondType) :
  conditionState (Remove conditions t) t = Some NotApplicable.
Proof. unfold conditionState. rewrite Get_Remove. reflexivity. Qed.

(** Removing a condition undoes a mark made just before. *)
Lemma Remove_SetCondition (conditions : Conditions) (c : Condition) :
  Remove (SetCondition conditions c) (cond_Type c)
  = Remove conditions (cond_Type c).
Proof.
  unfold Remove. induction conditions as [|existing rest IH]; simpl.
  - rewrite hasType_refl. reflexivity.
  - destruct (hasType (cond_Type c) existing) eqn:Hx; simpl.
    + rewrite hasType_refl. reflexivity.
    + rewrite Hx. simpl. f_equal. exact IH.
Qed.

(* ===================================================================== *)
(** ** Facts about the readiness scan *)
(* ===================================================================== *)

Lemma EnsureIPSets_range_spec (sets : list (string * IPSet)) (s : State) :
  EnsureIPSets_range sets s
  = if allReady sets then (None, s)
    else (Some (None, false, None), markWaiting s).
Proof.
  induction sets as [|[name ipSet] rest IH]; simpl; [reflexivity|].
  destruct (IsTrue (ipset_Status_Conditions ipSet) ReadyCondition); simpl.
  - exact IH.
  - reflexivity.
Qed.

Lemma allReady_Permutation (sets sets' : list (string * IPSet)) :
  sets ≡ₚ sets' -> allReady sets = allReady sets'.
Proof.
  unfold allReady. induction 1 as [|x l l' _ IH|x y l|l l' l'' _ IH1 _ IH2]; simpl.
  - reflexivity.
  - rewrite IH. reflexivity.
  - destruct (IsTrue (ipset_Status_Conditions (snd x)) ReadyCondition),
             (IsTrue (ipset_Status_Conditions (snd y)) ReadyCondition);
      reflexivity.
  - congruence.
Qed.

Lemma allReady_map_Forall (m : gmap string IPSet) :
  allReady (map_to_list m) = true
  <-> map_Forall
        (fun _ ipSet => IsTrue (ipset_Status_Conditions ipSet) ReadyCondition = true)
        m.
Proof.
  rewrite map_Forall_to_list. unfold allReady.
  induction (map_to_list m) as [|[name ipSet] rest IH]; simpl.
  - split; [constructor | reflexivity].
  - rewrite andb_true_iff, IH. split.
    + intros [H1 H2]. constructor; assumption.
    + intros H. inversion H; subst. split; assumption.
Qed.

(* ===================================================================== *)
(** ** Facts about [reserveIPs] *)
(* ===================================================================== *)

(** With no participating node the loop makes no call and changes
    nothing. *)
Lemma reserveIPs_range_idle (client : Client)
    (instance : OpenStackDataPlaneNodeSet) (nodes : list NodeSection)
    (ipamUsed : bool) (allIPSets : gmap string IPSet) (s : State) :
  Forall (fun node => participates instance node = false) nodes ->
  reserveIPs_range client instance nodes ipamUsed allIPSets s
  = (Ok (ipamUsed, allIPSets), s).
Proof.
  induction 1 as [|node rest Hnode _ IH]; simpl; [reflexivity|].
  unfold participates in Hnode. rewrite Hnode. exact IH.
Qed.

(** The log of the loop: it only grows, by upserts of IPSets, and an
    upsert answered with an error is the last entry and is what the loop
    returns. *)
Lemma reserveIPs_range_log (client : Client)
    (instance : OpenStackDataPlaneNodeSet) (nodes : list NodeSection) :
  forall (ipamUsed : bool) (allIPSets : gmap string IPSet) (s : State),
  exists delta,
    snd (reserveIPs_range client instance nodes ipamUsed allIPSets s)
    = mkState (st_instance s) (st_calls s ++ delta)
    /\ forall d1 c d2, delta = d1 ++ c :: d2 ->
       exists name nets,
         c = CallCreateOrPatch_IPSet (Namespace instance) name nets
         /\ forall e,
              answer_CreateOrPatch_IPSet client (st_calls s ++ d1)
                (Namespace instance) name nets = Err e ->
              d2 = []
              /\ fst (reserveIPs_range client instance nodes ipamUsed allIPSets s)
                 = Err e.
Proof.
  induction nodes as [|node rest IH]; intros ipamUsed allIPSets s; simpl.
  - exists []. split.
    + rewrite app_nil_r. destruct s; reflexivity.
    + intros d1 c d2 H. destruct d1; discriminate.
  - destruct (0 <? length (netsOf instance node)); [|apply IH].
    unfold bind, CreateOrPatch_IPSet, call; simpl.
    set (c0 := CallCreateOrPatch_IPSet (Namespace instance) (HostName node)
                 (netsOf instance node)).
    destruct (answer_CreateOrPatch_IPSet client (st_calls s) (Namespace instance)
                (HostName node) (netsOf instance node)) as [ipSet|err] eqn:Hans.
    + destruct (IH true (<[HostName node := ipSet]> allIPSets)
                  (mkState (st_instance s) (st_calls s ++ [c0])))
        as [delta [Hst Hlog]].
      exists (c0 :: delta). split.
      * rewrite Hst. simpl. rewrite <- app_assoc. reflexivity.
      * intros d1 c d2 Hsplit. destruct d1 as [|c1 d1']; simpl in Hsplit.
        -- injection Hsplit as <- <-. exists (HostName node), (netsOf instance node).
           split; [reflexivity|]. intros e He.
           rewrite app_nil_r, Hans in He. discriminate.
        -- injection Hsplit as <- ->.
           destruct (Hlog d1' c d2 eq_refl) as [name [nets [Hc Herr]]].
           exists name, nets. split; [exact Hc|]. intros e He.
           apply Herr. simpl. rewrite <- app_assoc. exact He.
    + exists [c0]. unfold ret; simpl. split; [reflexivity|].
      intros d1 c d2 Hsplit. destruct d1 as [|c1 d1']; simpl in Hsplit.
      * injection Hsplit as <- <-. exists (HostName node), (netsOf instance node).
        split; [reflexivity|]. intros e He.
        rewrite app_nil_r, Hans in He. injection He as <-. split; reflexivity.
      * injection Hsplit as _ Hrest. destruct d1'; discriminate.
Qed.

(** [reserveIPs] when listing the NetConfigs fails. *)
Lemma reserveIPs_list_error (client : Client) (s : State) (err : error) :
  answer_List_NetConfig client (st_calls s) (Namespace (st_instance s)) = Err err ->
  reserveIPs client s
  = (Err err,
     mkState (st_instance s)
       (st_calls s ++ [CallList_NetConfig (Namespace (st_instance s))])).
Proof.
  intros H. unfold reserveIPs, bind, getInstance, List_NetConfig, call, GetNamespace.
  simpl. rewrite H. reflexivity.
Qed.

(** [reserveIPs] when no node participates and the listing succeeds. *)
Lemma reserveIPs_idle (client : Client) (s : State) (items : list NetConfig) :
  answer_List_NetConfig client (st_calls s) (Namespace (st_instance s)) = Ok items ->
  Forall (fun node => participates (st_instance s) node = false)
         (Spec_Nodes (st_instance s)) ->
  exists allIPSets,
    len_map allIPSets = 0
    /\ reserveIPs client s
       = (Ok allIPSets,
          removeReservationCondition
            (mkState (st_instance s)
               (st_calls s ++ [CallList_NetConfig (Namespace (st_instance s))]))).
Proof.
  intros Hlist Hidle.
  unfold reserveIPs, bind, getInstance, List_NetConfig, call, GetNamespace.
  simpl. rewrite Hlist.
  destruct (length items =? 0).
  - exists None. split; reflexivity.
  - rewrite (reserveIPs_range_idle client _ _ false ∅ _ Hidle). simpl.
    exists (Some ∅). split; [apply map_size_empty | reflexivity].
Qed.

(** The log of [reserveIPs]: the listing, then upserts; a failed upsert
    is the last entry, is what is returned, and leaves [instance] as it
    was. *)
Lemma reserveIPs_log (client : Client) (s : State) :
  exists delta,
    st_calls (snd (reserveIPs client s))
    = st_calls s ++ CallList_NetConfig (Namespace (st_instance s)) :: delta
    /\ forall d1 c d2, delta = d1 ++ c :: d2 ->
       exists name nets,
         c = CallCreateOrPatch_IPSet (Namespace (st_instance s)) name nets
         /\ forall e,
              answer_CreateOrPatch_IPSet client
                (st_calls s ++ CallList_NetConfig (Namespace (st_instance s)) :: d1)
                (Namespace (st_instance s)) name nets = Err e ->
              d2 = []
              /\ fst (reserveIPs client s) = Err e
              /\ st_instance (snd (reserveIPs client s)) = st_instance s.
Proof.
  unfold reserveIPs, bind, getInstance, List_NetConfig, call, GetNamespace.
  simpl.
  set (c0 := CallList_NetConfig (Namespace (st_instance s))).
  destruct (answer_List_NetConfig client (st_calls s) (Namespace (st_instance s)))
    as [items|err].
  2:{ exists []. split; [reflexivity|]. intros d1 c d2 H. destruct d1; discriminate. }
  destruct (length items =? 0).
  { exists []. split; [reflexivity|]. intros d1 c d2 H. destruct d1; discriminate. }
  destruct (reserveIPs_range_log client (st_instance s) (Spec_Nodes (st_instance s))
              false ∅ (mkState (st_instance s) (st_calls s ++ [c0])))
    as [delta [Hst Hlog]].
  destruct (reserveIPs_range client (st_instance s) (Spec_Nodes (st_instance s))
              false ∅ (mkState (st_instance s) (st_calls s ++ [c0])))
    as [r s1] eqn:Hrun.
  simpl in Hst, Hlog. subst s1. exists delta. split.
  - destruct r as [[ipamUsed allIPSets]|err]; simpl.
    + destruct ipamUsed; simpl; rewrite <- app_assoc; reflexivity.
    + rewrite <- app_assoc; reflexivity.
  - intros d1 c d2 Hsplit.
    destruct (Hlog d1 c d2 Hsplit) as [name [nets [Hc Herr]]].
    exists name, nets. split; [exact Hc|]. intros e He.
    rewrite <- app_assoc in Herr. simpl in Herr.
    destruct (Herr e He) as [Hd2 Hr]. subst r. simpl.
    split; [exact Hd2 | split; reflexivity].
Qed.

(* ===================================================================== *)
(** ** Reservation readiness *)
(* ===================================================================== *)

(** [EnsureIPSets] once [reserveIPs] has handed back a non-empty map. *)
Lemma EnsureIPSets_after_sync
    (rangeOver : gmap string IPSet -> list (string * IPSet))
    (client : Client) (s0 s1 : State) (m : gmap string IPSet) :
  reserveIPs client s0 = (Ok (Some m), s1) ->
  m <> ∅ ->
  EnsureIPSets rangeOver client s0
  = if allReady (rangeOver m) then ((Some m, true, None), markReady s1)
    else ((None, false, None), markWaiting s1).
Proof.
  intros Hsync Hne. unfold EnsureIPSets, bind. rewrite Hsync. simpl.
  destruct (size m =? 0) eqn:Hsize.
  - apply Nat.eqb_eq in Hsize. apply map_size_empty_iff in Hsize. exact (False_ind _ (Hne Hsize)).
  - rewrite EnsureIPSets_range_spec. destruct (allReady (rangeOver m)); reflexivity.
Qed.

(** C1. For every non-empty map of IPSets that [reserveIPs] hands back,
    [EnsureIPSets] returns the full map with [true], and marks the
    reservation condition True (Ready), if and only if the Ready condition
    of every member is True; otherwise it returns [nil, false, nil] with
    the condition marked Waiting.  No further store call is made, and the
    outcome is the same for every order in which the map is ranged
    over. *)
Theorem C1_aggregate_ready_iff_every_member_ready
    (rangeOver rangeOver' : gmap string IPSet -> list (string * IPSet))
    (client : Client) (s0 s1 : State) (m : gmap string IPSet) :
  reserveIPs client s0 = (Ok (Some m), s1) ->
  m <> ∅ ->
  rangeOver m ≡ₚ map_to_list m ->
  rangeOver' m ≡ₚ map_to_list m ->
  let run := EnsureIPSets rangeOver client s0 in
  (everyReady m <->
     fst run = (Some m, true, None) /\ reservationState (snd run) = Some Ready)
  /\ (~ everyReady m ->
     fst run = (None, false, None) /\ reservationState (snd run) = Some Waiting)
  /\ (everyReady m <-> snd (fst (fst run)) = true)
  /\ st_calls (snd run) = st_calls s1
  /\ EnsureIPSets rangeOver' client s0 = run.
Proof.
  intros Hsync Hne Hperm Hperm' run.
  assert (Hrun : run = if allReady (map_to_list m)
                       then ((Some m, true, None), markReady s1)
                       else ((None, false, None), markWaiting s1)).
  { unfold run. rewrite (EnsureIPSets_after_sync _ _ _ _ _ Hsync Hne).
    rewrite (allReady_Permutation _ _ Hperm). reflexivity. }
  assert (Hrun' : EnsureIPSets rangeOver' client s0 = run).
  { rewrite Hrun. rewrite (EnsureIPSets_after_sync _ _ _ _ _ Hsync Hne).
    rewrite (allReady_Permutation _ _ Hperm'). reflexivity. }
  pose proof (allReady_map_Forall m) as Hall. fold (everyReady m) in Hall.
  rewrite Hrun.
  destruct (allReady (map_to_list m)) eqn:Hready; simpl.
  - assert (Hevery : everyReady m) by (apply Hall; reflexivity).
    split.
    { split; [intros _; split; [reflexivity | apply state_MarkTrue]
             | intros _; exact Hevery]. }
    split. { intros Hnot. contradiction. }
    split. { split; [reflexivity | intros _; exact Hevery]. }
    split. { reflexivity. }
    rewrite <- Hrun. exact Hrun'.
  - assert (Hnot : ~ everyReady m).
    { intros Hevery. apply Hall in Hevery. discriminate. }
    split.
    { split; [intros Hevery; contradiction | intros [Hres _]; discriminate]. }
    split. { intros _. split; [reflexivity | apply state_MarkFalse_Requested]. }
    split. { split; [intros Hevery; contradiction | intros Habs; discriminate]. }
    split. { reflexivity. }
    rewrite <- Hrun. exact Hrun'.
Qed.

(** A failed upsert stops [EnsureIPSets] at once. *)
Lemma EnsureIPSets_reserve_error
    (rangeOver : gmap string IPSet -> list (string * IPSet))
    (client : Client) (s0 s1 : State) (err : error) :
  reserveIPs client s0 = (Err err, s1) ->
  EnsureIPSets rangeOver client s0 = ((None, false, Some err), markError s1).
Proof.
  intros H. unfold EnsureIPSets, bind. rewrite H. reflexivity.
Qed.

Lemma EnsureIPSets_calls
    (rangeOver : gmap string IPSet -> list (string * IPSet))
    (client : Client) (s0 : State) :
  st_calls (snd (EnsureIPSets rangeOver client s0))
  = st_calls (snd (reserveIPs client s0)).
Proof.
  unfold EnsureIPSets, bind.
  destruct (reserveIPs client s0) as [[allIPSets|err] s1]; simpl; [|reflexivity].
  destruct (len_map allIPSets =? 0); [reflexivity|].
  rewrite EnsureIPSets_range_spec.
  destruct (allReady _); reflexivity.
Qed.

(** C8. When the store answers the upsert of some node's IPSet with an
    error, that call is the last one of the pass (no later node is
    upserted and nothing is undone), [EnsureIPSets] returns
    [nil, false] and that very error, and the reservation condition is
    marked False with the error reason (Error). *)
Theorem C8_upsert_failure_is_fail_fast
    (rangeOver : gmap string IPSet -> list (string * IPSet))
    (client : Client) (s0 : State)
    (d1 d2 : list Call) (namespace name : string) (nets : list IPSetNetwork)
    (e : error) :
  let run := EnsureIPSets rangeOver client s0 in
  st_calls (snd run)
  = st_calls s0 ++ d1 ++ CallCreateOrPatch_IPSet namespace name nets :: d2 ->
  answer_CreateOrPatch_IPSet client (st_calls s0 ++ d1) namespace name nets
  = Err e ->
  d2 = []
  /\ fst run = (None, false, Some e)
  /\ Status_Conditions (st_instance (snd run))
     = MarkFalse (Status_Conditions (st_instance s0))
         NodeSetIPReservationReadyCondition ErrorReason SeverityError
         NodeSetIPReservationReadyErrorMessage
  /\ reservationState (snd run) = Some Error.
Proof.
  intros run Hcalls Hans. unfold run in *.
  rewrite EnsureIPSets_calls in Hcalls.
  destruct (reserveIPs_log client s0) as [delta [Hlog Hfail]].
  rewrite Hlog in Hcalls. apply app_inv_head in Hcalls.
  destruct d1 as [|c1 d1']; simpl in Hcalls; [discriminate|].
  injection Hcalls as <- Hdelta.
  destruct (Hfail d1' _ d2 Hdelta) as [name' [nets' [Hc Herr]]].
  injection Hc as -> <- <-.
  destruct (Herr e Hans) as [Hd2 [Hres Hinst]].
  destruct (reserveIPs client s0) as [r s1] eqn:Hrun. simpl in Hres, Hinst.
  subst r. rewrite (EnsureIPSets_reserve_error _ _ _ _ _ Hrun). simpl.
  rewrite Hinst. repeat split; try assumption; try reflexivity.
  unfold reservationState. simpl. rewrite Hinst. apply state_MarkFalse_Error.
Qed.

Lemma noAttachments_idle (instance : OpenStackDataPlaneNodeSet) :
  noAttachments instance ->
  Forall (fun node => participates instance node = false) (Spec_Nodes instance).
Proof.
  intros [Hnodes Htemplate]. eapply Forall_impl; [exact Hnodes|].
  intros node Hnode. unfold participates, netsOf. simpl in Hnode.
  rewrite Hnode, Htemplate. reflexivity.
Qed.

(** C7, amended. When no node and not the template has an attachment,
    the pass makes no call besides the listing of the NetConfigs (no
    CreateOrPatch, so no IPSet is created), whatever that listing answers;
    and when the listing succeeds, [EnsureIPSets] returns
    [nil, true, nil] and the reservation condition is removed
    (NotApplicable). *)
Theorem C7_no_attachments_not_applicable
    (rangeOver : gmap string IPSet -> list (string * IPSet))
    (client : Client) (s0 : State) :
  noAttachments (st_instance s0) ->
  let run := EnsureIPSets rangeOver client s0 in
  st_calls (snd run)
  = st_calls s0 ++ [CallList_NetConfig (Namespace (st_instance s0))]
  /\ (forall call, In call (st_calls (snd run)) ->
      In call (st_calls s0)
      \/ call = CallList_NetConfig (Namespace (st_instance s0)))
  /\ (forall items : list NetConfig,
      answer_List_NetConfig client (st_calls s0) (Namespace (st_instance s0))
      = Ok items ->
      fst run = (None, true, None)
      /\ Status_Conditions (st_instance (snd run))
         = Remove (Status_Conditions (st_instance s0))
             NodeSetIPReservationReadyCondition
      /\ reservationState (snd run) = Some NotApplicable).
Proof.
  intros Hnone run.
  assert (Hcalls : st_calls (snd run)
                   = st_calls s0
                     ++ [CallList_NetConfig (Namespace (st_instance s0))]).
  { unfold run. rewrite EnsureIPSets_calls.
    destruct (answer_List_NetConfig client (st_calls s0)
                (Namespace (st_instance s0))) as [items|err] eqn:Hlist.
    - destruct (reserveIPs_idle client s0 items Hlist
                  (noAttachments_idle _ Hnone)) as [allIPSets [_ Hrun]].
      rewrite Hrun. reflexivity.
    - rewrite (reserveIPs_list_error client s0 err Hlist). reflexivity. }
  split; [exact Hcalls|]. split.
  - intros call Hin. rewrite Hcalls in Hin. apply in_app_or in Hin.
    destruct Hin as [Hin|[Hin|[]]]; [left; exact Hin | right; symmetry; exact Hin].
  - intros items Hlist.
    destruct (reserveIPs_idle client s0 items Hlist (noAttachments_idle _ Hnone))
      as [allIPSets [Hlen Hrun]].
    unfold run, EnsureIPSets, bind. rewrite Hrun, Hlen. simpl.
    repeat split. unfold reservationState. simpl. apply state_Remove.
Qed.

(* ===================================================================== *)
(** ** Concrete passes over the reservation pipeline *)
(* ===================================================================== *)

Lemma C1_witness :
  reverse (map_to_list threeSetsOnePending) <> map_to_list threeSetsOnePending
  /\ ~ everyReady threeSetsOnePending
  /\ fst (EnsureIPSets map_to_list storeOnePending (mkState threeNodes []))
     = (None, false, None)
  /\ reservationState
       (snd (EnsureIPSets map_to_list storeOnePending (mkState threeNodes [])))
     = Some Waiting
  /\ st_calls
       (snd (EnsureIPSets map_to_list storeOnePending (mkState threeNodes [])))
     = threeNodesCalls
  /\ EnsureIPSets (fun m => reverse (map_to_list m)) storeOnePending
       (mkState threeNodes [])
     = EnsureIPSets map_to_list storeOnePending (mkState threeNodes []).
Proof.
  assert (Hrun : reserveIPs storeOnePending (mkState threeNodes [])
                 = (Ok (Some threeSetsOnePending),
                    mkState threeNodes threeNodesCalls)).
  { vm_compute. reflexivity. }
  assert (Hne : threeSetsOnePending <> ∅).
  { apply insert_non_empty. }
  assert (Hpending : ~ everyReady threeSetsOnePending).
  { intros Hall. apply allReady_map_Forall in Hall.
    vm_compute in Hall. discriminate Hall. }
  destruct (C1_aggregate_ready_iff_every_member_ready
              map_to_list (fun m => reverse (map_to_list m)) storeOnePending
              (mkState threeNodes []) (mkState threeNodes threeNodesCalls)
              threeSetsOnePending Hrun Hne
              (Permutation_refl _) (reverse_Permutation _))
    as (_ & Hwaiting & _ & Hcalls & Horder).
  split.
  { vm_compute. intros Hsame. discriminate Hsame. }
  split; [exact Hpending|].
  split; [exact (proj1 (Hwaiting Hpending))|].
  split; [exact (proj2 (Hwaiting Hpending))|].
  split; [exact Hcalls | exact Horder].
Defined.

Lemma C8_witness :
  fst (EnsureIPSets map_to_list storeConflict (mkState threeNodes []))
  = (None, false, Some (ErrorString "conflict")).
Proof.
  refine (proj1 (proj2
    (C8_upsert_failure_is_fail_fast map_to_list storeConflict
       (mkState threeNodes [])
       [CallList_NetConfig "openstack";
        CallCreateOrPatch_IPSet "openstack" "edpm-0" [ctlplaneNet]]
       [] "openstack" "edpm-1" [ctlplaneNet] (ErrorString "conflict") _ _))).
  - vm_compute. reflexivity.
  - vm_compute. reflexivity.
Defined.

Lemma C7_witness :
  st_calls (snd (EnsureIPSets map_to_list storeListFails (mkState bareNodes [])))
  = [CallList_NetConfig "openstack"]
  /\ st_calls (snd (EnsureIPSets map_to_list storeAllReady (mkState bareNodes [])))
     = [CallList_NetConfig "openstack"]
  /\ fst (EnsureIPSets map_to_list storeAllReady (mkState bareNodes []))
     = (None, true, None)
  /\ reservationState
       (snd (EnsureIPSets map_to_list storeAllReady (mkState bareNodes [])))
     = Some NotApplicable.
Proof.
  assert (Hnone : noAttachments bareNodes).
  { split; [repeat constructor | reflexivity]. }
  assert (Hlist : answer_List_NetConfig storeAllReady [] "openstack"
                  = Ok [mkNetConfig "netconfig"]).
  { vm_compute. reflexivity. }
  split.
  { exact (proj1 (C7_no_attachments_not_applicable map_to_list storeListFails
                    (mkState bareNodes []) Hnone)). }
  destruct (C7_no_attachments_not_applicable map_to_list storeAllReady
              (mkState bareNodes []) Hnone) as (Hcalls & _ & Hok).
  split; [exact Hcalls|].
  destruct (Hok [mkNetConfig "netconfig"] Hlist) as (Hresult & _ & Hstate).
  split; [exact Hresult | exact Hstate].
Defined.

(** C7 as stated fails when the listing of the NetConfigs fails: no node
    has an attachment, and yet [EnsureIPSets] returns the error with the
    reservation condition marked Error. *)
Lemma C7_counterexample :
  noAttachments bareNodes
  /\ fst (EnsureIPSets map_to_list storeListFails (mkState bareNodes []))
     = (None, false, Some (ErrorString "list failed"))
  /\ reservationState
       (snd (EnsureIPSets map_to_list storeListFails (mkState bareNodes [])))
     = Some Error.
Proof.
  split; [split; [repeat constructor | reflexivity]|].
  split; vm_compute; reflexivity.
Qed.

(* ===================================================================== *)
(** ** Facts about the record builder *)
(* ===================================================================== *)

Section Builder.

Variable NodeHostNameIsFQDN : string -> bool.

Lemma reservationBody_records (hostName : string) (st : BuildState)
    (res : IPSetReservation) :
  bs_allDNSRecords
    (reservationBody NodeHostNameIsFQDN hostName (shortNameOf hostName) st res)
  = bs_allDNSRecords st ++ [recordOf NodeHostNameIsFQDN hostName res].
Proof.
  unfold reservationBody, recordOf, aliasesOf, fqdnOf, onCtlPlane.
  rewrite Join_pair.
  destruct (String.eqb (shortNameOf hostName +:+ "." +:+ res_DNSDomain res) hostName);
    destruct (NodeHostNameIsFQDN hostName
              && String.eqb (ToLower (res_Network res)) CtlPlaneNetwork);
    reflexivity.
Qed.

Lemma reservationBody_local (hostName shortName : string) (st : BuildState)
    (res : IPSetReservation) :
  bs_ctlplaneSearchDomain
    (reservationBody NodeHostNameIsFQDN hostName shortName st res)
  = bs_ctlplaneSearchDomain st.
Proof.
  unfold reservationBody.
  destruct (negb _); destruct (NodeHostNameIsFQDN hostName && _); reflexivity.
Qed.

Lemma reservationBody_searchDomain (hostName shortName : string)
    (st : BuildState) (res : IPSetReservation) :
  CtlplaneSearchDomain
    (bs_dns (reservationBody NodeHostNameIsFQDN hostName shortName st res))
  = if onCtlPlane res && String.eqb (bs_ctlplaneSearchDomain st) EmptyString
    then res_DNSDomain res
    else CtlplaneSearchDomain (bs_dns st).
Proof.
  unfold reservationBody, onCtlPlane.
  destruct (negb _); destruct (NodeHostNameIsFQDN hostName && _);
    destruct (String.eqb (ToLower (res_Network res)) CtlPlaneNetwork && _);
    reflexivity.
Qed.

Lemma fold_reservationBody_records (hostName : string)
    (reservations : list IPSetReservation) :
  forall st : BuildState,
  bs_allDNSRecords
    (fold_left (reservationBody NodeHostNameIsFQDN hostName (shortNameOf hostName))
       reservations st)
  = bs_allDNSRecords st ++ map (recordOf NodeHostNameIsFQDN hostName) reservations.
Proof.
  induction reservations as [|res rest IH]; intros st; simpl.
  - rewrite app_nil_r. reflexivity.
  - rewrite IH, reservationBody_records, <- app_assoc. reflexivity.
Qed.

Lemma fold_reservationBody_local (hostName shortName : string)
    (reservations : list IPSetReservation) :
  forall st : BuildState,
  bs_ctlplaneSearchDomain
    (fold_left (reservationBody NodeHostNameIsFQDN hostName shortName)
       reservations st)
  = bs_ctlplaneSearchDomain st.
Proof.
  induction reservations as [|res rest IH]; intros st; simpl; [reflexivity|].
  rewrite IH. apply reservationBody_local.
Qed.

Lemma last_cons_default (l : list string) :
  forall (x d d' : string), List.last (x :: l) d = List.last (x :: l) d'.
Proof.
  induction l as [|y l IH]; intros x d d'; [reflexivity|].
  change (List.last (y :: l) d = List.last (y :: l) d'). apply IH.
Qed.

Lemma last_app_default (a b : list string) (d : string) :
  List.last (a ++ b) d = List.last b (List.last a d).
Proof.
  induction a as [|x a IH]; [reflexivity|].
  destruct a as [|y a].
  - destruct b as [|z b]; [reflexivity|].
    change (List.last (z :: b) d = List.last (z :: b) x).
    apply last_cons_default.
  - exact IH.
Qed.

Lemma ctlplaneDomains_app (a b : list IPSetReservation) :
  ctlplaneDomains (a ++ b) = ctlplaneDomains a ++ ctlplaneDomains b.
Proof.
  unfold ctlplaneDomains. rewrite List.filter_app, List.map_app. reflexivity.
Qed.

(** While the local [ctlplaneSearchDomain] is empty, every control-plane
    reservation overwrites the field of the receiver. *)
Lemma fold_reservationBody_searchDomain (hostName shortName : string)
    (reservations : list IPSetReservation) :
  forall st : BuildState,
  bs_ctlplaneSearchDomain st = EmptyString ->
  CtlplaneSearchDomain
    (bs_dns (fold_left (reservationBody NodeHostNameIsFQDN hostName shortName)
               reservations st))
  = List.last (ctlplaneDomains reservations) (CtlplaneSearchDomain (bs_dns st)).
Proof.
  induction reservations as [|res rest IH]; intros st Hlocal; [reflexivity|].
  cbn [fold_left]. rewrite IH by (rewrite reservationBody_local; exact Hlocal).
  rewrite reservationBody_searchDomain, Hlocal. simpl String.eqb.
  rewrite andb_true_r.
  change (res :: rest) with ([res] ++ rest).
  rewrite ctlplaneDomains_app, last_app_default.
  f_equal. unfold ctlplaneDomains. simpl.
  destruct (onCtlPlane res); reflexivity.
Qed.

Lemma nodeBody_records (instance : OpenStackDataPlaneNodeSet)
    (allIPSets : option (gmap string IPSet)) (st : BuildState)
    (node : NodeSection) :
  bs_allDNSRecords (nodeBody NodeHostNameIsFQDN instance allIPSets st node)
  = bs_allDNSRecords st
    ++ recordsOfNode NodeHostNameIsFQDN instance allIPSets node.
Proof.
  unfold nodeBody, recordsOfNode, reservationsOf, participates.
  destruct (0 <? length (netsOf instance node)); simpl.
  2:{ rewrite app_nil_r. reflexivity. }
  destruct (lookupIPSet allIPSets (HostName node)) as [ipSet|]; simpl.
  - fold (shortNameOf (HostName node)).
    rewrite fold_reservationBody_records. reflexivity.
  - rewrite app_nil_r. reflexivity.
Qed.

Lemma nodeBody_local (instance : OpenStackDataPlaneNodeSet)
    (allIPSets : option (gmap string IPSet)) (st : BuildState)
    (node : NodeSection) :
  bs_ctlplaneSearchDomain (nodeBody NodeHostNameIsFQDN instance allIPSets st node)
  = bs_ctlplaneSearchDomain st.
Proof.
  unfold nodeBody.
  destruct (0 <? length (netsOf instance node)); [|reflexivity].
  destruct (lookupIPSet allIPSets (HostName node)); [|reflexivity].
  rewrite fold_reservationBody_local. reflexivity.
Qed.

Lemma nodeBody_searchDomain (instance : OpenStackDataPlaneNodeSet)
    (allIPSets : option (gmap string IPSet)) (st : BuildState)
    (node : NodeSection) :
  bs_ctlplaneSearchDomain st = EmptyString ->
  CtlplaneSearchDomain
    (bs_dns (nodeBody NodeHostNameIsFQDN instance allIPSets st node))
  = List.last (ctlplaneDomains (reservationsOf instance allIPSets node))
      (CtlplaneSearchDomain (bs_dns st)).
Proof.
  intros Hlocal. unfold nodeBody, reservationsOf, participates.
  destruct (0 <? length (netsOf instance node)); [|reflexivity].
  destruct (lookupIPSet allIPSets (HostName node)) as [ipSet|]; [|reflexivity].
  rewrite fold_reservationBody_searchDomain by exact Hlocal. reflexivity.
Qed.

Lemma fold_nodeBody_records (instance : OpenStackDataPlaneNodeSet)
    (allIPSets : option (gmap string IPSet)) (nodes : list NodeSection) :
  forall st : BuildState,
  bs_allDNSRecords
    (fold_left (nodeBody NodeHostNameIsFQDN instance allIPSets) nodes st)
  = bs_allDNSRecords st
    ++ flat_map (recordsOfNode NodeHostNameIsFQDN instance allIPSets) nodes.
Proof.
  induction nodes as [|node rest IH]; intros st; simpl.
  - rewrite app_nil_r. reflexivity.
  - rewrite IH, nodeBody_records, <- app_assoc. reflexivity.
Qed.

Lemma fold_nodeBody_searchDomain (instance : OpenStackDataPlaneNodeSet)
    (allIPSets : option (gmap string IPSet)) (nodes : list NodeSection) :
  forall st : BuildState,
  bs_ctlplaneSearchDomain st = EmptyString ->
  CtlplaneSearchDomain
    (bs_dns (fold_left (nodeBody NodeHostNameIsFQDN instance allIPSets) nodes st))
  = List.last
      (ctlplaneDomains (flat_map (reservationsOf instance allIPSets) nodes))
      (CtlplaneSearchDomain (bs_dns st)).
Proof.
  induction nodes as [|node rest IH]; intros st Hlocal; [reflexivity|].
  cbn [fold_left flat_map].
  rewrite IH by (rewrite nodeBody_local; exact Hlocal).
  rewrite nodeBody_searchDomain by exact Hlocal.
  rewrite ctlplaneDomains_app, last_app_default. reflexivity.
Qed.

(** The records handed to the upsert: one per visited reservation, in
    order. *)
Lemma buildDNSData_records (instance : OpenStackDataPlaneNodeSet)
    (allIPSets : option (gmap string IPSet)) (dns : DataplaneDNSData) :
  bs_allDNSRecords (buildDNSData NodeHostNameIsFQDN instance allIPSets dns)
  = flat_map (recordsOfNode NodeHostNameIsFQDN instance allIPSets)
      (Spec_Nodes instance).
Proof. unfold buildDNSData. rewrite fold_nodeBody_records. reflexivity. Qed.

(** The search domain the builder leaves in the receiver: the DNS domain
    of the last control-plane reservation visited; the value it had on
    entry when there is none. *)
Lemma buildDNSData_searchDomain (instance : OpenStackDataPlaneNodeSet)
    (allIPSets : option (gmap string IPSet)) (dns : DataplaneDNSData) :
  CtlplaneSearchDomain
    (bs_dns (buildDNSData NodeHostNameIsFQDN instance allIPSets dns))
  = List.last (ctlplaneDomains (visited instance allIPSets))
      (CtlplaneSearchDomain dns).
Proof.
  unfold buildDNSData, visited.
  rewrite fold_nodeBody_searchDomain by reflexivity. reflexivity.
Qed.

Lemma createOrPatchDNSData_run (client : Client)
    (allIPSets : option (gmap string IPSet)) (dns : DataplaneDNSData)
    (s : State) :
  let st := buildDNSData NodeHostNameIsFQDN (st_instance s) allIPSets dns in
  createOrPatchDNSData NodeHostNameIsFQDN client allIPSets dns s
  = ((bs_dns st,
      answer_CreateOrPatch_DNSData client (st_calls s)
        (Namespace (st_instance s)) (Name (st_instance s))
        (bs_allDNSRecords st) "dnsdata"),
     mkState (st_instance s)
       (st_calls s
        ++ [CallCreateOrPatch_DNSData (Namespace (st_instance s))
              (Name (st_instance s)) (bs_allDNSRecords st) "dnsdata"])).
Proof. reflexivity. Qed.

End Builder.

(* ===================================================================== *)
(** ** Aliases and records *)
(* ===================================================================== *)

Lemma registered_setInner (m : gmap string (gmap string string))
    (hostName net value : string) :
  is_Some (m !! hostName) ->
  registered (setInner m hostName net value) hostName net = Some value.
Proof.
  intros [inner Hinner]. unfold registered, setInner.
  rewrite lookup_alter_eq, Hinner. simpl. apply lookup_insert_eq.
Qed.

Lemma setInner_keeps_key (m : gmap string (gmap string string))
    (hostName net value : string) :
  is_Some (m !! hostName) -> is_Some (setInner m hostName net value !! hostName).
Proof.
  intros [inner Hinner]. unfold setInner.
  rewrite lookup_alter_eq, Hinner. simpl. eexists. reflexivity.
Qed.

(** What one reservation leaves in [dns.Hostnames] for its node and
    network: the host name itself when that is fully qualified and the
    network is the control plane, else the derived name when it differs
    from the host name, else what was there. *)
Lemma reservationBody_Hostnames (NodeHostNameIsFQDN : string -> bool)
    (hostName : string) (st : BuildState) (res : IPSetReservation) :
  is_Some (Hostnames (bs_dns st) !! hostName) ->
  registered
    (Hostnames
       (bs_dns (reservationBody NodeHostNameIsFQDN hostName
                  (shortNameOf hostName) st res)))
    hostName (ToLower (res_Network res))
  = if NodeHostNameIsFQDN hostName && onCtlPlane res then Some hostName
    else if String.eqb (fqdnOf hostName res) hostName
         then registered (Hostnames (bs_dns st)) hostName
                (ToLower (res_Network res))
         else Some (fqdnOf hostName res).
Proof.
  intros Hkey. unfold reservationBody, fqdnOf, onCtlPlane.
  rewrite Join_pair.
  destruct (String.eqb (shortNameOf hostName +:+ "." +:+ res_DNSDomain res) hostName);
    destruct (NodeHostNameIsFQDN hostName
              && String.eqb (ToLower (res_Network res)) CtlPlaneNetwork) eqn:Hctl;
    simpl;
    destruct (String.eqb (ToLower (res_Network res)) CtlPlaneNetwork
              && String.eqb (bs_ctlplaneSearchDomain st) EmptyString);
    simpl;
    try reflexivity;
    try (apply registered_setInner; try apply setInner_keeps_key; exact Hkey).
Qed.

Lemma aliasesOf_NoDup (NodeHostNameIsFQDN : string -> bool)
    (hostName : string) (res : IPSetReservation) :
  List.NoDup (aliasesOf NodeHostNameIsFQDN hostName res).
Proof.
  unfold aliasesOf.
  destruct (String.eqb (fqdnOf hostName res) hostName) eqn:Heq;
    destruct (NodeHostNameIsFQDN hostName && onCtlPlane res); simpl.
  - constructor; [intros []| constructor].
  - constructor.
  - apply String.eqb_neq in Heq.
    constructor; [| constructor; [intros []| constructor]].
    intros [H|[]]. apply Heq. symmetry. exact H.
  - constructor; [intros []| constructor].
Qed.

(** A reservation of a participating node has its record among those
    handed to the upsert. *)
Lemma record_persisted (NodeHostNameIsFQDN : string -> bool)
    (instance : OpenStackDataPlaneNodeSet)
    (allIPSets : option (gmap string IPSet)) (dns : DataplaneDNSData)
    (node : NodeSection) (ipSet : IPSet) (res : IPSetReservation) :
  In node (Spec_Nodes instance) ->
  participates instance node = true ->
  lookupIPSet allIPSets (HostName node) = Some ipSet ->
  In res (ipset_Status_Reservation ipSet) ->
  In (recordOf NodeHostNameIsFQDN (HostName node) res)
     (bs_allDNSRecords (buildDNSData NodeHostNameIsFQDN instance allIPSets dns)).
Proof.
  intros Hnode Hpart Hset Hres. rewrite buildDNSData_records.
  apply in_flat_map. exists node. split; [exact Hnode|].
  unfold recordsOfNode, reservationsOf. rewrite Hpart, Hset.
  apply in_map. exact Hres.
Qed.

(** The worked example: host [edpm-0] with one control-plane
    reservation. *)
Lemma edpm0_alias (NodeHostNameIsFQDN : string -> bool) :
  In "edpm-0.ctlplane.example.com"
     (aliasesOf NodeHostNameIsFQDN "edpm-0" sampleReservation).
Proof.
  unfold aliasesOf. apply in_or_app. left. vm_compute. left. reflexivity.
Qed.

Lemma edpm0_example (NodeHostNameIsFQDN : string -> bool) (client : Client)
    (dns : DataplaneDNSData) (calls : list Call) :
  exists hosts record,
    st_calls (snd (createOrPatchDNSData NodeHostNameIsFQDN client
                     (Some oneNodeSets) dns (mkState oneNode calls)))
    = calls ++ [CallCreateOrPatch_DNSData "openstack" "edpm" hosts "dnsdata"]
    /\ In record hosts
    /\ dnshost_IP record = "172.20.0.10"
    /\ In "edpm-0.ctlplane.example.com" (dnshost_Hostnames record).
Proof.
  rewrite createOrPatchDNSData_run. simpl snd. simpl st_calls.
  eexists. exists (recordOf NodeHostNameIsFQDN "edpm-0" sampleReservation).
  split; [reflexivity|]. split.
  - apply (record_persisted NodeHostNameIsFQDN oneNode (Some oneNodeSets) dns
             (mkNodeSection "edpm-0" [ctlplaneNet])
             (readyIPSet "openstack" "edpm-0" [ctlplaneNet]) sampleReservation).
    + left. reflexivity.
    + reflexivity.
    + vm_compute. reflexivity.
    + left. reflexivity.
  - split; [reflexivity | apply edpm0_alias].
Qed.

(** C4. For a node with host name [h] and a reservation belonging to it,
    the builder takes as short name the part of [h] before its first dot,
    derives the name [shortName.dnsDomain], and hands to the upsert a
    record with the reservation's address whose aliases are: the derived
    name exactly when it differs from [h], followed by [h] itself when
    [h] is fully qualified and the network is the control plane; no alias
    occurs twice.  In [dns.Hostnames] the entry for the node and network
    is set accordingly, the host name last.  For host [edpm-0] with the
    reservation {ctlplane, 172.20.0.10, ctlplane.example.com} the record
    carries the alias [edpm-0.ctlplane.example.com]. *)
Theorem C4_aliases_of_a_reservation
    (NodeHostNameIsFQDN : string -> bool) (client : Client)
    (allIPSets : option (gmap string IPSet)) (dns : DataplaneDNSData)
    (s0 : State) (node : NodeSection) (ipSet : IPSet)
    (res : IPSetReservation) :
  let instance := st_instance s0 in
  let h := HostName node in
  let shortName := firstPiece (Split h ".") in
  let fqdn := shortName +:+ "." +:+ res_DNSDomain res in
  let net := ToLower (res_Network res) in
  let ctlplane := String.eqb net CtlPlaneNetwork in
  let aliases :=
    (if String.eqb fqdn h then [] else [fqdn])
    ++ (if NodeHostNameIsFQDN h && ctlplane then [h] else []) in
  In node (Spec_Nodes instance) ->
  participates instance node = true ->
  lookupIPSet allIPSets h = Some ipSet ->
  In res (ipset_Status_Reservation ipSet) ->
  isPrefixBefore "." shortName h
  /\ (exists hosts,
        st_calls (snd (createOrPatchDNSData NodeHostNameIsFQDN client
                         allIPSets dns s0))
        = st_calls s0
          ++ [CallCreateOrPatch_DNSData (Namespace instance) (Name instance)
                hosts "dnsdata"]
        /\ In (mkDNSHost (res_Address res) aliases) hosts)
  /\ List.NoDup aliases
  /\ (forall st : BuildState,
        is_Some (Hostnames (bs_dns st) !! h) ->
        registered
          (Hostnames
             (bs_dns (reservationBody NodeHostNameIsFQDN h shortName st res)))
          h net
        = if NodeHostNameIsFQDN h && ctlplane then Some h
          else if String.eqb fqdn h
               then registered (Hostnames (bs_dns st)) h net
               else Some fqdn)
  /\ (exists hosts record,
        st_calls (snd (createOrPatchDNSData NodeHostNameIsFQDN client
                         (Some oneNodeSets) dns
                         (mkState oneNode (st_calls s0))))
        = st_calls s0
          ++ [CallCreateOrPatch_DNSData "openstack" "edpm" hosts "dnsdata"]
        /\ In record hosts
        /\ dnshost_IP record = "172.20.0.10"
        /\ In "edpm-0.ctlplane.example.com" (dnshost_Hostnames record)).
Proof.
  intros instance h shortName fqdn net ctlplane aliases Hnode Hpart Hset Hres.
  split; [apply firstPiece_Split|].
  split.
  { rewrite createOrPatchDNSData_run. simpl snd. simpl st_calls.
    eexists. split; [reflexivity|].
    exact (record_persisted NodeHostNameIsFQDN instance allIPSets dns node
             ipSet res Hnode Hpart Hset Hres). }
  split; [exact (aliasesOf_NoDup NodeHostNameIsFQDN h res)|].
  split; [intros st Hkey;
          exact (reservationBody_Hostnames NodeHostNameIsFQDN h st res Hkey)|].
  apply edpm0_example.
Qed.

Lemma C4_witness :
  exists hosts,
    st_calls (snd (createOrPatchDNSData hasDomainPart storeAllReady
                     (Some oneNodeSets) zeroDNS (mkState oneNode [])))
    = [] ++ [CallCreateOrPatch_DNSData "openstack" "edpm" hosts "dnsdata"]
    /\ In (mkDNSHost "172.20.0.10" ["edpm-0.ctlplane.example.com"]) hosts.
Proof.
  refine (proj1 (proj2
    (C4_aliases_of_a_reservation hasDomainPart storeAllReady (Some oneNodeSets)
       zeroDNS (mkState oneNode []) (mkNodeSection "edpm-0" [ctlplaneNet])
       (readyIPSet "openstack" "edpm-0" [ctlplaneNet]) sampleReservation
       _ _ _ _))).
  - left. reflexivity.
  - vm_compute. reflexivity.
  - vm_compute. reflexivity.
  - left. reflexivity.
Defined.

(** A host name that is already the name derived for the control plane is
    registered once. *)
Example fqdn_host_registered_once :
  aliasesOf hasDomainPart "edpm-0.ctlplane.example.com" sampleReservation
  = ["edpm-0.ctlplane.example.com"].
Proof. vm_compute. reflexivity. Qed.

(** C10. When the name derived for a reservation equals the node's host
    name and the network is not the control plane, the builder still
    hands to the upsert a record with the reservation's address and an
    empty list of host names. *)
Theorem C10_record_without_hostnames
    (NodeHostNameIsFQDN : string -> bool) (client : Client)
    (allIPSets : option (gmap string IPSet)) (dns : DataplaneDNSData)
    (s0 : State) (node : NodeSection) (ipSet : IPSet)
    (res : IPSetReservation) :
  let instance := st_instance s0 in
  let h := HostName node in
  In node (Spec_Nodes instance) ->
  participates instance node = true ->
  lookupIPSet allIPSets h = Some ipSet ->
  In res (ipset_Status_Reservation ipSet) ->
  firstPiece (Split h ".") +:+ "." +:+ res_DNSDomain res = h ->
  String.eqb (ToLower (res_Network res)) CtlPlaneNetwork = false ->
  exists hosts,
    st_calls (snd (createOrPatchDNSData NodeHostNameIsFQDN client allIPSets
                     dns s0))
    = st_calls s0
      ++ [CallCreateOrPatch_DNSData (Namespace instance) (Name instance)
            hosts "dnsdata"]
    /\ In (mkDNSHost (res_Address res) []) hosts.
Proof.
  intros instance h Hnode Hpart Hset Hres Hsame Hnet.
  rewrite createOrPatchDNSData_run. simpl snd. simpl st_calls.
  eexists. split; [reflexivity|].
  pose proof (record_persisted NodeHostNameIsFQDN instance allIPSets dns node
                ipSet res Hnode Hpart Hset Hres) as Hin.
  unfold recordOf, aliasesOf, fqdnOf, shortNameOf, onCtlPlane in Hin.
  fold h in Hin. rewrite Hsame, String.eqb_refl, Hnet, andb_false_r in Hin.
  exact Hin.
Qed.

Lemma C10_witness :
  exists hosts,
    st_calls (snd (createOrPatchDNSData hasDomainPart storeAllReady
                     (Some storageSets) zeroDNS (mkState storageNode [])))
    = [] ++ [CallCreateOrPatch_DNSData "openstack" "edpm" hosts "dnsdata"]
    /\ In (mkDNSHost "172.18.0.10" []) hosts.
Proof.
  refine (C10_record_without_hostnames hasDomainPart storeAllReady
            (Some storageSets) zeroDNS (mkState storageNode [])
            (mkNodeSection "edpm-0.storage.example.com" [storageNet])
            (mkIPSet "openstack" "edpm-0.storage.example.com" [storageNet]
               [storageReservation]
               [TrueCondition ReadyCondition (MessageText "ready")])
            storageReservation _ _ _ _ _ _).
  - left. reflexivity.
  - vm_compute. reflexivity.
  - vm_compute. reflexivity.
  - left. reflexivity.
  - vm_compute. reflexivity.
  - vm_compute. reflexivity.
Defined.

(** C2, the code at a node set with two control-plane reservations of
    distinct DNS domains: the search domain left in the receiver is the
    domain of the one visited last, not of the one visited first. *)
Theorem C2_search_domain_is_the_last_visited
    (NodeHostNameIsFQDN : string -> bool) (client : Client)
    (dns : DataplaneDNSData) (calls : list Call) :
  ctlplaneDomains (visited twoSites (Some twoSiteSets))
  = ["ctlplane.example.com"; "ctlplane.site2.example.com"]
  /\ CtlplaneSearchDomain
       (fst (fst (createOrPatchDNSData NodeHostNameIsFQDN client
                    (Some twoSiteSets) dns (mkState twoSites calls))))
     = "ctlplane.site2.example.com".
Proof.
  split; [vm_compute; reflexivity|].
  rewrite createOrPatchDNSData_run. simpl fst.
  rewrite buildDNSData_searchDomain. vm_compute. reflexivity.
Qed.

(** The earlier revision, on the same input, keeps the first domain. *)
Lemma PriorRevision_search_domain_is_the_first_visited :
  snd (PriorRevision.buildDNSData [ctlplaneNet]
         [("edpm-0", mkNodeSection "edpm-0" []);
          ("edpm-1", mkNodeSection "edpm-1" [])]
         (Some twoSiteSets))
  = "ctlplane.example.com".
Proof. vm_compute. reflexivity. Qed.

(* ===================================================================== *)
(** ** The DNS service gate *)
(* ===================================================================== *)

Lemma CheckDNSService_run (client : Client) (dns : DataplaneDNSData)
    (s : State) :
  CheckDNSService client dns s
  = (match answer_List_DNSMasq client (st_calls s) (Namespace (st_instance s)) with
     | Err err => (setReady dns false, Some err)
     | Ok [] => (setReady dns true, None)
     | Ok (first :: _) =>
         if dnsmasq_IsReady first then (readFrom first dns, None)
         else (setReady dns false, None)
     end,
     mkState (st_instance s)
       (st_calls s ++ [CallList_DNSMasq (Namespace (st_instance s))])).
Proof.
  unfold CheckDNSService, bind, getInstance, List_DNSMasq, call, GetNamespace.
  simpl.
  destruct (answer_List_DNSMasq client (st_calls s) (Namespace (st_instance s)))
    as [[|first rest]|err]; try reflexivity.
  destruct (dnsmasq_IsReady first); reflexivity.
Qed.

(** [CheckDNSService] touches the readiness and the addresses only. *)
Lemma CheckDNSService_derived (client : Client) (dns : DataplaneDNSData)
    (s : State) :
  let dns' := fst (fst (CheckDNSService client dns s)) in
  Hostnames dns' = Hostnames dns
  /\ AllIPs dns' = AllIPs dns
  /\ CtlplaneSearchDomain dns' = CtlplaneSearchDomain dns.
Proof.
  rewrite CheckDNSService_run. simpl.
  destruct (answer_List_DNSMasq client (st_calls s) (Namespace (st_instance s)))
    as [[|first rest]|err]; simpl; try (repeat split; reflexivity).
  destruct (dnsmasq_IsReady first); repeat split; reflexivity.
Qed.

(** With the gate closed [EnsureDNSData] returns what the check returned,
    after the three tests, and calls nothing more. *)
Lemma EnsureDNSData_closed (NodeHostNameIsFQDN : string -> bool)
    (client : Client) (allIPSets : option (gmap string IPSet))
    (dns dns' : DataplaneDNSData) (err : option error) (s s' : State) :
  CheckDNSService client dns s = ((dns', err), s') ->
  gateClosed err dns' = true ->
  EnsureDNSData NodeHostNameIsFQDN client allIPSets dns s
  = ((dns', err), withDNSConditions s' (gateConditions err dns')).
Proof.
  intros Hcheck Hgate. unfold EnsureDNSData, bind. rewrite Hcheck.
  unfold gateClosed in Hgate. rewrite Hgate.
  unfold gateConditions, withDNSConditions, instance_MarkFalse, instance_Remove,
    modifyConditions, ret.
  destruct (isErr err); destruct (negb (DNSReady dns'));
    destruct (isNil (ClusterAddresses dns')); try discriminate Hgate;
    reflexivity.
Qed.

(** With the gate open the builder runs next. *)
Lemma EnsureDNSData_open (NodeHostNameIsFQDN : string -> bool)
    (client : Client) (allIPSets : option (gmap string IPSet))
    (dns dns' : DataplaneDNSData) (err : option error) (s s' : State) :
  CheckDNSService client dns s = ((dns', err), s') ->
  gateClosed err dns' = false ->
  let st := buildDNSData NodeHostNameIsFQDN (st_instance s') allIPSets dns' in
  let upsert :=
    CallCreateOrPatch_DNSData (Namespace (st_instance s'))
      (Name (st_instance s')) (bs_allDNSRecords st) "dnsdata" in
  let get :=
    CallGet_DNSData (Namespace (st_instance s')) (Name (st_instance s')) in
  EnsureDNSData NodeHostNameIsFQDN client allIPSets dns s
  = match answer_CreateOrPatch_DNSData client (st_calls s')
            (Namespace (st_instance s')) (Name (st_instance s'))
            (bs_allDNSRecords st) "dnsdata" with
    | Some err' =>
        ((bs_dns st, Some err'),
         withDNSConditions (mkState (st_instance s') (st_calls s' ++ [upsert]))
           (fun conditions =>
              MarkFalse conditions NodeSetDNSDataReadyCondition ErrorReason
                SeverityError NodeSetDNSDataReadyErrorMessage))
    | None =>
        match answer_Get_DNSData client (st_calls s' ++ [upsert])
                (Namespace (st_instance s')) (Name (st_instance s')) with
        | Err err' =>
            ((bs_dns st, Some err'),
             withDNSConditions
               (mkState (st_instance s') ((st_calls s' ++ [upsert]) ++ [get]))
               (fun conditions =>
                  MarkFalse conditions NodeSetDNSDataReadyCondition ErrorReason
                    SeverityError NodeSetDNSDataReadyErrorMessage))
        | Ok dnsData =>
            if dnsdata_IsReady dnsData then
              ((setReady (bs_dns st) true, None),
               withDNSConditions
                 (mkState (st_instance s') ((st_calls s' ++ [upsert]) ++ [get]))
                 (fun conditions =>
                    MarkTrue conditions NodeSetDNSDataReadyCondition
                      NodeSetDNSDataReadyMessage))
            else
              ((setReady (bs_dns st) false, None),
               withDNSConditions
                 (mkState (st_instance s') ((st_calls s' ++ [upsert]) ++ [get]))
                 (fun conditions =>
                    MarkFalse conditions NodeSetDNSDataReadyCondition
                      RequestedReason SeverityInfo
                      NodeSetDNSDataReadyWaitingMessage))
        end
    end.
Proof.
  intros Hcheck Hgate st upsert get. unfold EnsureDNSData, bind at 1.
  rewrite Hcheck. unfold gateClosed in Hgate. rewrite Hgate.
  unfold bind at 1. rewrite createOrPatchDNSData_run. fold st. fold upsert.
  destruct (answer_CreateOrPatch_DNSData client (st_calls s')
              (Namespace (st_instance s')) (Name (st_instance s'))
              (bs_allDNSRecords st) "dnsdata") as [err'|]; [reflexivity|].
  unfold bind, getInstance, Get_DNSData, call. simpl.
  fold get.
  destruct (answer_Get_DNSData client (st_calls s' ++ [upsert])
              (Namespace (st_instance s')) (Name (st_instance s')))
    as [dnsData|err']; [|reflexivity].
  destruct (dnsdata_IsReady dnsData); reflexivity.
Qed.

Lemma CheckDNSService_state (client : Client) (dns : DataplaneDNSData)
    (s : State) :
  snd (CheckDNSService client dns s)
  = mkState (st_instance s)
      (st_calls s ++ [CallList_DNSMasq (Namespace (st_instance s))]).
Proof. rewrite CheckDNSService_run. reflexivity. Qed.

Lemma gateClosed_false (err : option error) (dns : DataplaneDNSData) :
  gateClosed err dns = false
  <-> err = None /\ DNSReady dns = true /\ ClusterAddresses dns <> None.
Proof.
  unfold gateClosed.
  destruct err as [e|]; destruct (DNSReady dns);
    destruct (ClusterAddresses dns) as [addresses|]; simpl;
    split; try discriminate; try (intros _; repeat split; discriminate);
    intros [H1 [H2 H3]]; try discriminate; try contradiction; reflexivity.
Qed.

Lemma gateClosed_true (err : option error) (dns : DataplaneDNSData) :
  gateClosed err dns = true
  <-> err <> None \/ DNSReady dns = false \/ ClusterAddresses dns = None.
Proof.
  split.
  - intros Hclosed.
    destruct err as [e|]; [left; discriminate|].
    destruct (DNSReady dns) eqn:Hready; [|right; left; reflexivity].
    destruct (ClusterAddresses dns) eqn:Haddr; [|right; right; reflexivity].
    unfold gateClosed in Hclosed. rewrite Hready, Haddr in Hclosed.
    discriminate.
  - intros Hor. destruct (gateClosed err dns) eqn:Hgate; [reflexivity|].
    apply gateClosed_false in Hgate. destruct Hgate as [He [Hr Ha]].
    destruct Hor as [H|[H|H]]; [contradiction | congruence | contradiction].
Qed.

Lemma single_call_split (c c' : Call) (before after : list Call) :
  [c] = before ++ c' :: after -> c = c' /\ before = [] /\ after = [].
Proof.
  destruct before as [|b before]; simpl; intros H.
  - injection H as -> <-. repeat split.
  - injection H as _ H. destruct before; discriminate.
Qed.

(** C5. The builder's upsert of the DNSData appears in a pass of
    [EnsureDNSData] only when the service check returned no error, left
    the receiver ready and left its cluster addresses non-nil.  When the
    check returned an error, or left the receiver not ready, or left the
    cluster addresses nil, the pass returns what the check returned, its
    only call is the listing of the DNSMasqs, and the derived fields of
    the receiver are as on entry. *)
Theorem C5_builder_runs_only_behind_the_gate
    (NodeHostNameIsFQDN : string -> bool) (client : Client)
    (allIPSets : option (gmap string IPSet)) (dns : DataplaneDNSData)
    (s0 : State) :
  let check := CheckDNSService client dns s0 in
  let dns' := fst (fst check) in
  let err := snd (fst check) in
  let run := EnsureDNSData NodeHostNameIsFQDN client allIPSets dns s0 in
  let instance := st_instance s0 in
  let listed := CallList_DNSMasq (Namespace instance) in
  ((err <> None \/ DNSReady dns' = false \/ ClusterAddresses dns' = None) ->
     fst run = (dns', err)
     /\ st_calls (snd run) = st_calls s0 ++ [listed]
     /\ Hostnames (fst (fst run)) = Hostnames dns
     /\ AllIPs (fst (fst run)) = AllIPs dns
     /\ CtlplaneSearchDomain (fst (fst run)) = CtlplaneSearchDomain dns)
  /\ (forall before namespace name hosts label after,
        st_calls (snd run)
        = st_calls s0
          ++ before ++ CallCreateOrPatch_DNSData namespace name hosts label :: after ->
        err = None /\ DNSReady dns' = true /\ ClusterAddresses dns' <> None)
  /\ (err = None -> DNSReady dns' = true -> ClusterAddresses dns' <> None ->
      exists after,
        st_calls (snd run)
        = st_calls s0
          ++ listed
             :: CallCreateOrPatch_DNSData (Namespace instance) (Name instance)
                  (bs_allDNSRecords
                     (buildDNSData NodeHostNameIsFQDN instance allIPSets dns'))
                  "dnsdata"
             :: after).
Proof.
  intros check dns' err run instance listed.
  pose proof (CheckDNSService_state client dns s0) as Hstate.
  pose proof (CheckDNSService_derived client dns s0) as Hderived.
  fold check in Hstate, Hderived. simpl in Hderived. fold dns' in Hderived.
  destruct check as [[dns1 err1] s1] eqn:Hcheck.
  simpl in Hstate, dns', err. subst s1 dns' err.
  destruct (gateClosed err1 dns1) eqn:Hgate.
  - pose proof (EnsureDNSData_closed NodeHostNameIsFQDN client allIPSets dns dns1
                  err1 s0 _ Hcheck Hgate) as Hrun.
    fold run in Hrun. rewrite Hrun. simpl.
    split; [intros _; repeat split; apply Hderived|].
    split.
    + intros before namespace name hosts label after Hcalls.
      apply app_inv_head in Hcalls.
      apply single_call_split in Hcalls. destruct Hcalls as [Habs _].
      discriminate.
    + intros He Hr Ha.
      assert (Hopen : gateClosed err1 dns1 = false)
        by (apply gateClosed_false; repeat split; assumption).
      congruence.
  - pose proof (EnsureDNSData_open NodeHostNameIsFQDN client allIPSets dns dns1
                  err1 s0 _ Hcheck Hgate) as Hrun.
    fold run in Hrun. simpl in Hrun.
    apply gateClosed_false in Hgate.
    split.
    { intros Hor. apply gateClosed_true in Hor.
      destruct Hgate as [He [Hr Ha]].
      assert (gateClosed err1 dns1 = false)
        by (apply gateClosed_false; repeat split; assumption).
      congruence. }
    split; [intros; exact Hgate|].
    intros _ _ _. rewrite Hrun. fold instance. fold listed.
    destruct (answer_CreateOrPatch_DNSData client (st_calls s0 ++ [listed])
                (Namespace instance) (Name instance) _ "dnsdata") as [err'|].
    { exists []. simpl. rewrite <- app_assoc. reflexivity. }
    destruct (answer_Get_DNSData client _ (Namespace instance) (Name instance))
      as [dnsData|err'].
    + exists [CallGet_DNSData (Namespace instance) (Name instance)].
      destruct (dnsdata_IsReady dnsData); simpl;
        rewrite <- !app_assoc; reflexivity.
    + exists [CallGet_DNSData (Namespace instance) (Name instance)].
      simpl. rewrite <- !app_assoc. reflexivity.
Qed.

(** C3, what the code does.  With one DNSMasq that is not ready and a
    receiver whose cluster addresses are nil (a fresh one), the check
    returns not ready, nil addresses and no error, the builder is not
    called, and the DNS condition, marked Waiting by the second test, is
    removed by the third: the pass ends with the condition absent. *)
Theorem C3_not_ready_service_leaves_condition_removed
    (NodeHostNameIsFQDN : string -> bool) (client : Client)
    (allIPSets : option (gmap string IPSet)) (dns : DataplaneDNSData)
    (s0 : State) (service : DNSMasq) :
  let instance := st_instance s0 in
  let run := EnsureDNSData NodeHostNameIsFQDN client allIPSets dns s0 in
  answer_List_DNSMasq client (st_calls s0) (Namespace instance) = Ok [service] ->
  dnsmasq_IsReady service = false ->
  ClusterAddresses dns = None ->
  fst (CheckDNSService client dns s0) = (setReady dns false, None)
  /\ fst run = (setReady dns false, None)
  /\ st_calls (snd run) = st_calls s0 ++ [CallList_DNSMasq (Namespace instance)]
  /\ Status_Conditions (st_instance (snd run))
     = Remove (Status_Conditions instance) NodeSetDNSDataReadyCondition
  /\ dnsState (snd run) = Some NotApplicable.
Proof.
  intros instance run Hlist Hready Haddr.
  assert (Hcheck : CheckDNSService client dns s0
                   = ((setReady dns false, None),
                      mkState instance
                        (st_calls s0 ++ [CallList_DNSMasq (Namespace instance)]))).
  { rewrite CheckDNSService_run. fold instance. rewrite Hlist, Hready.
    reflexivity. }
  assert (Hgate : gateClosed None (setReady dns false) = true) by reflexivity.
  pose proof (EnsureDNSData_closed NodeHostNameIsFQDN client allIPSets dns _ _
                s0 _ Hcheck Hgate) as Hrun.
  fold run in Hrun. rewrite Hrun, Hcheck.
  unfold dnsState, withDNSConditions, gateConditions. simpl. rewrite Haddr. simpl.
  assert (Hremove :
    Remove
      (MarkFalse (Status_Conditions instance) NodeSetDNSDataReadyCondition
         RequestedReason SeverityInfo NodeSetDNSDataReadyWaitingMessage)
      NodeSetDNSDataReadyCondition
    = Remove (Status_Conditions instance) NodeSetDNSDataReadyCondition).
  { exact (Remove_SetCondition (Status_Conditions instance)
             (FalseCondition NodeSetDNSDataReadyCondition RequestedReason
                SeverityInfo NodeSetDNSDataReadyWaitingMessage)). }
  rewrite Hremove. repeat split. apply state_Remove.
Qed.

(** With a receiver that already holds cluster addresses the condition
    does end Waiting, but then the addresses after the check are not
    nil. *)
Lemma not_ready_service_with_kept_addresses
    (NodeHostNameIsFQDN : string -> bool) (client : Client)
    (allIPSets : option (gmap string IPSet)) (dns : DataplaneDNSData)
    (s0 : State) (service : DNSMasq) (addresses : list string) :
  let run := EnsureDNSData NodeHostNameIsFQDN client allIPSets dns s0 in
  answer_List_DNSMasq client (st_calls s0) (Namespace (st_instance s0))
  = Ok [service] ->
  dnsmasq_IsReady service = false ->
  ClusterAddresses dns = Some addresses ->
  ClusterAddresses (fst (fst run)) = Some addresses
  /\ dnsState (snd run) = Some Waiting.
Proof.
  intros run Hlist Hready Haddr.
  assert (Hcheck : CheckDNSService client dns s0
                   = ((setReady dns false, None),
                      mkState (st_instance s0)
                        (st_calls s0
                         ++ [CallList_DNSMasq (Namespace (st_instance s0))]))).
  { rewrite CheckDNSService_run. rewrite Hlist, Hready. reflexivity. }
  assert (Hgate : gateClosed None (setReady dns false) = true) by reflexivity.
  pose proof (EnsureDNSData_closed NodeHostNameIsFQDN client allIPSets dns _ _
                s0 _ Hcheck Hgate) as Hrun.
  fold run in Hrun. rewrite Hrun.
  unfold dnsState, withDNSConditions, gateConditions. simpl. rewrite Haddr. simpl.
  split; [reflexivity | apply state_MarkFalse_Requested].
Qed.

(** C6, amended. With no DNSMasq in the namespace and a receiver whose
    server and cluster addresses are nil on entry, [CheckDNSService]
    leaves the receiver ready with both addresses nil and returns no
    error; [EnsureDNSData] then removes the DNS condition (NotApplicable)
    and returns, having called nothing but the listing: no DNSData is
    written. *)
Theorem C6_no_service_not_applicable
    (NodeHostNameIsFQDN : string -> bool) (client : Client)
    (allIPSets : option (gmap string IPSet)) (dns : DataplaneDNSData)
    (s0 : State) :
  let instance := st_instance s0 in
  let check := CheckDNSService client dns s0 in
  let run := EnsureDNSData NodeHostNameIsFQDN client allIPSets dns s0 in
  answer_List_DNSMasq client (st_calls s0) (Namespace instance) = Ok [] ->
  ServerAddresses dns = None ->
  ClusterAddresses dns = None ->
  (DNSReady (fst (fst check)) = true
   /\ ServerAddresses (fst (fst check)) = None
   /\ ClusterAddresses (fst (fst check)) = None
   /\ snd (fst check) = None)
  /\ fst run = (setReady dns true, None)
  /\ st_calls (snd run) = st_calls s0 ++ [CallList_DNSMasq (Namespace instance)]
  /\ Status_Conditions (st_instance (snd run))
     = Remove (Status_Conditions instance) NodeSetDNSDataReadyCondition
  /\ dnsState (snd run) = Some NotApplicable.
Proof.
  intros instance check run Hlist Hserver Hcluster.
  assert (Hcheck : check
                   = ((setReady dns true, None),
                      mkState instance
                        (st_calls s0 ++ [CallList_DNSMasq (Namespace instance)]))).
  { unfold check. rewrite CheckDNSService_run. fold instance. rewrite Hlist.
    reflexivity. }
  assert (Hgate : gateClosed None (setReady dns true) = true).
  { unfold gateClosed. simpl. rewrite Hcluster. reflexivity. }
  pose proof (EnsureDNSData_closed NodeHostNameIsFQDN client allIPSets dns _ _
                s0 _ Hcheck Hgate) as Hrun.
  fold run in Hrun. rewrite Hrun, Hcheck.
  unfold dnsState, withDNSConditions, gateConditions. simpl.
  rewrite Hcluster, Hserver. simpl.
  repeat split. apply state_Remove.
Qed.

(** C9, amended. When the DNS service is ready with non-nil cluster
    addresses, the upsert of the DNSData returns no error and the Get that
    follows succeeds, the pass ends with the DNS condition Ready if the
    DNSData read back is ready, and Waiting if it is not; the readiness
    left in the receiver is that of the DNSData. *)
Theorem C9_ready_when_persisted_and_read_back_ready
    (NodeHostNameIsFQDN : string -> bool) (client : Client)
    (allIPSets : option (gmap string IPSet)) (dns : DataplaneDNSData)
    (s0 : State) (first : DNSMasq) (rest : list DNSMasq)
    (addresses : list string) (dnsData : DNSData) :
  let instance := st_instance s0 in
  let listed := CallList_DNSMasq (Namespace instance) in
  let st := buildDNSData NodeHostNameIsFQDN instance allIPSets
              (readFrom first dns) in
  let upsert :=
    CallCreateOrPatch_DNSData (Namespace instance) (Name instance)
      (bs_allDNSRecords st) "dnsdata" in
  let get := CallGet_DNSData (Namespace instance) (Name instance) in
  let run := EnsureDNSData NodeHostNameIsFQDN client allIPSets dns s0 in
  answer_List_DNSMasq client (st_calls s0) (Namespace instance)
  = Ok (first :: rest) ->
  dnsmasq_IsReady first = true ->
  dnsmasq_Status_DNSClusterAddresses first = Some addresses ->
  answer_CreateOrPatch_DNSData client (st_calls s0 ++ [listed])
    (Namespace instance) (Name instance) (bs_allDNSRecords st) "dnsdata"
  = None ->
  answer_Get_DNSData client (st_calls s0 ++ [listed; upsert])
    (Namespace instance) (Name instance)
  = Ok dnsData ->
  fst run = (setReady (bs_dns st) (dnsdata_IsReady dnsData), None)
  /\ st_calls (snd run) = st_calls s0 ++ [listed; upsert; get]
  /\ Status_Conditions (st_instance (snd run))
     = (if dnsdata_IsReady dnsData
        then MarkTrue (Status_Conditions instance)
               NodeSetDNSDataReadyCondition NodeSetDNSDataReadyMessage
        else MarkFalse (Status_Conditions instance)
               NodeSetDNSDataReadyCondition RequestedReason SeverityInfo
               NodeSetDNSDataReadyWaitingMessage)
  /\ dnsState (snd run)
     = Some (if dnsdata_IsReady dnsData then Ready else Waiting).
Proof.
  intros instance listed st upsert get run Hlist Hready Haddr Hupsert Hget.
  assert (Hcheck : CheckDNSService client dns s0
                   = ((readFrom first dns, None),
                      mkState instance (st_calls s0 ++ [listed]))).
  { rewrite CheckDNSService_run. fold instance. rewrite Hlist, Hready.
    reflexivity. }
  assert (Hgate : gateClosed None (readFrom first dns) = false).
  { unfold gateClosed. simpl. rewrite Haddr. reflexivity. }
  pose proof (EnsureDNSData_open NodeHostNameIsFQDN client allIPSets dns _ _
                s0 _ Hcheck Hgate) as Hrun.
  fold run in Hrun. simpl in Hrun. fold instance st in Hrun.
  rewrite Hupsert in Hrun. fold upsert in Hrun.
  replace ((st_calls s0 ++ [listed]) ++ [upsert])
    with (st_calls s0 ++ [listed; upsert]) in Hrun
    by (rewrite <- app_assoc; reflexivity).
  rewrite Hget in Hrun. rewrite Hrun.
  unfold dnsState, withDNSConditions.
  destruct (dnsdata_IsReady dnsData); simpl.
  - split; [reflexivity|].
    split; [rewrite <- app_assoc; reflexivity|].
    split; [reflexivity | apply state_MarkTrue].
  - split; [reflexivity|].
    split; [rewrite <- app_assoc; reflexivity|].
    split; [reflexivity | apply state_MarkFalse_Requested].
Qed.

(* ===================================================================== *)
(** ** Concrete passes over the DNS pipeline *)
(* ===================================================================== *)

Lemma C3_witness :
  dnsState
    (snd (EnsureDNSData hasDomainPart storeServiceNotReady (Some oneNodeSets)
            zeroDNS (mkState oneNodeWaiting [])))
  = Some NotApplicable.
Proof.
  refine (proj2 (proj2 (proj2 (proj2
    (C3_not_ready_service_leaves_condition_removed hasDomainPart
       storeServiceNotReady (Some oneNodeSets) zeroDNS
       (mkState oneNodeWaiting []) (mkDNSMasq false None None) _ _ _))))).
  - vm_compute. reflexivity.
  - reflexivity.
  - reflexivity.
Defined.

Lemma C5_witness :
  st_calls
    (snd (EnsureDNSData hasDomainPart storeServiceNotReady (Some oneNodeSets)
            zeroDNS (mkState oneNode [])))
  = [] ++ [CallList_DNSMasq "openstack"].
Proof.
  refine (proj1 (proj2 (proj1
    (C5_builder_runs_only_behind_the_gate hasDomainPart storeServiceNotReady
       (Some oneNodeSets) zeroDNS (mkState oneNode [])) _))).
  right. left. vm_compute. reflexivity.
Defined.

Lemma C6_witness :
  dnsState
    (snd (EnsureDNSData hasDomainPart storeNoService (Some oneNodeSets)
            zeroDNS (mkState oneNodeWaiting [])))
  = Some NotApplicable.
Proof.
  refine (proj2 (proj2 (proj2 (proj2
    (C6_no_service_not_applicable hasDomainPart storeNoService
       (Some oneNodeSets) zeroDNS (mkState oneNodeWaiting []) _ _ _))))).
  - vm_compute. reflexivity.
  - reflexivity.
  - reflexivity.
Defined.

(** C6 as stated fails on a receiver that holds cluster addresses on
    entry: with no DNSMasq in the namespace the check leaves those
    addresses in place, the gate is open, the DNSData is written and the
    DNS condition ends Ready. *)
Lemma C6_counterexample :
  answer_List_DNSMasq storeNoService [] "openstack" = Ok []
  /\ ClusterAddresses
       (fst (fst (CheckDNSService storeNoService keptDNS (mkState oneNode []))))
     = Some ["10.217.4.53"]
  /\ st_calls
       (snd (EnsureDNSData hasDomainPart storeNoService (Some oneNodeSets)
               keptDNS (mkState oneNode [])))
     = [CallList_DNSMasq "openstack";
        CallCreateOrPatch_DNSData "openstack" "edpm"
          [mkDNSHost "172.20.0.10" ["edpm-0.ctlplane.example.com"]] "dnsdata";
        CallGet_DNSData "openstack" "edpm"]
  /\ dnsState
       (snd (EnsureDNSData hasDomainPart storeNoService (Some oneNodeSets)
               keptDNS (mkState oneNode [])))
     = Some Ready.
Proof. repeat split; vm_compute; reflexivity. Qed.

Lemma C9_witness :
  dnsState
    (snd (EnsureDNSData hasDomainPart storeAllReady (Some oneNodeSets)
            zeroDNS (mkState oneNodeWaiting [])))
  = Some Ready.
Proof.
  refine (proj2 (proj2 (proj2
    (C9_ready_when_persisted_and_read_back_ready hasDomainPart storeAllReady
       (Some oneNodeSets) zeroDNS (mkState oneNodeWaiting []) readyDNSMasq []
       ["10.217.4.53"] (mkDNSData [] "dnsdata" true) _ _ _ _ _)))).
  - vm_compute. reflexivity.
  - reflexivity.
  - reflexivity.
  - vm_compute. reflexivity.
  - vm_compute. reflexivity.
Defined.

(** C9 as stated fails when the DNSData read back is not ready yet: the
    service is ready with addresses, every IPSet is ready, the upsert of
    the DNSData returns no error, and the DNS condition, Waiting before
    the pass, is Waiting after it. *)
Lemma C9_counterexample :
  dnsState (mkState oneNodeWaiting []) = Some Waiting
  /\ fst (CheckDNSService storeDNSDataPending zeroDNS (mkState oneNodeWaiting []))
     = (readFrom readyDNSMasq zeroDNS, None)
  /\ allReady (map_to_list oneNodeSets) = true
  /\ answer_CreateOrPatch_DNSData storeDNSDataPending
       [CallList_DNSMasq "openstack"] "openstack" "edpm"
       [mkDNSHost "172.20.0.10" ["edpm-0.ctlplane.example.com"]] "dnsdata"
     = None
  /\ st_calls
       (snd (EnsureDNSData hasDomainPart storeDNSDataPending (Some oneNodeSets)
               zeroDNS (mkState oneNodeWaiting [])))
     = [CallList_DNSMasq "openstack";
        CallCreateOrPatch_DNSData "openstack" "edpm"
          [mkDNSHost "172.20.0.10" ["edpm-0.ctlplane.example.com"]] "dnsdata";
        CallGet_DNSData "openstack" "edpm"]
  /\ dnsState
       (snd (EnsureDNSData hasDomainPart storeDNSDataPending (Some oneNodeSets)
               zeroDNS (mkState oneNodeWaiting [])))
     = Some Waiting.
Proof. repeat split; vm_compute; reflexivity. Qed.

(** The earlier revision's scan lets a member pass whose Ready condition
    is unset or Unknown; the current one does not. *)
Lemma PriorRevision_scan_passes_unset_condition :
  let unset := [("edpm-0", mkIPSet "openstack" "edpm-0" [ctlplaneNet] [] [])] in
  fst (PriorRevision.EnsureIPSets_range unset (mkState oneNode [])) = None
  /\ fst (EnsureIPSets_range unset (mkState oneNode []))
     = Some (None, false, None).
Proof. split; vm_compute; reflexivity. Qed.


(* ===================================================================== *)
(** ** Conditions other than the one a pass writes *)
(* ===================================================================== *)

Lemma hasType_false (t : CondType) (c : Condition) :
  cond_Type c <> t -> hasType t c = false.
Proof. intros H. unfold hasType. apply bool_decide_eq_false. exact H. Qed.

Lemma hasType_true (t : CondType) (c : Condition) :
  hasType t c = true -> cond_Type c = t.
Proof. unfold hasType. intros H. apply bool_decide_eq_true in H. exact H. Qed.

Lemma Get_SetCondition_ne (conditions : Conditions) (c : Condition)
    (t : CondType) :
  cond_Type c <> t -> Get (SetCondition conditions c) t = Get conditions t.
Proof.
  intros Hne. unfold Get.
  induction conditions as [|existing rest IH]; simpl.
  - rewrite (hasType_false t c Hne). reflexivity.
  - destruct (hasType (cond_Type c) existing) eqn:Hx; simpl.
    + apply hasType_true in Hx.
      rewrite (hasType_false t c Hne).
      rewrite (hasType_false t existing) by congruence. reflexivity.
    + destruct (hasType t existing); [reflexivity | exact IH].
Qed.

Lemma Get_Remove_ne (conditions : Conditions) (t' t : CondType) :
  t' <> t -> Get (Remove conditions t') t = Get conditions t.
Proof.
  intros Hne. unfold Get, Remove.
  induction conditions as [|existing rest IH]; simpl; [reflexivity|].
  destruct (hasType t' existing) eqn:Hx; simpl.
  - apply hasType_true in Hx.
    rewrite (hasType_false t existing) by congruence. exact IH.
  - destruct (hasType t existing); [reflexivity | exact IH].
Qed.

Lemma sameSpec_refl (a : OpenStackDataPlaneNodeSet) : sameSpec a a.
Proof. repeat split. Qed.

Lemma sameSpec_withConditions (a : OpenStackDataPlaneNodeSet)
    (conditions : Conditions) : sameSpec a (withConditions a conditions).
Proof. repeat split. Qed.

Lemma touchesOnly_refl (t : CondType) (s : State) : touchesOnly t s s.
Proof. split; [apply sameSpec_refl | reflexivity]. Qed.

Lemma touchesOnly_calls (t : CondType) (s : State) (calls : list Call) :
  touchesOnly t s (mkState (st_instance s) calls).
Proof. split; [apply sameSpec_refl | reflexivity]. Qed.

Lemma touchesOnly_trans (t : CondType) (a b c : State) :
  touchesOnly t a b -> touchesOnly t b c -> touchesOnly t a c.
Proof.
  intros [[H1 [H2 [H3 H4]]] Hab] [[K1 [K2 [K3 K4]]] Hbc]. split.
  - repeat split; congruence.
  - intros t' Hne. rewrite (Hbc t' Hne). apply Hab. exact Hne.
Qed.

Lemma touchesOnly_MarkFalse (t : CondType) (r : Reason) (sv : Severity)
    (m : Message) (s : State) (calls : list Call) :
  touchesOnly t s
    (mkState
       (withConditions (st_instance s)
          (MarkFalse (Status_Conditions (st_instance s)) t r sv m))
       calls).
Proof.
  split; [apply sameSpec_withConditions|].
  intros t' Hne. simpl. apply Get_SetCondition_ne. simpl. congruence.
Qed.

Lemma touchesOnly_MarkTrue (t : CondType) (m : Message) (s : State)
    (calls : list Call) :
  touchesOnly t s
    (mkState
       (withConditions (st_instance s)
          (MarkTrue (Status_Conditions (st_instance s)) t m))
       calls).
Proof.
  split; [apply sameSpec_withConditions|].
  intros t' Hne. simpl. apply Get_SetCondition_ne. simpl. congruence.
Qed.

Lemma touchesOnly_Remove (t : CondType) (s : State) (calls : list Call) :
  touchesOnly t s
    (mkState
       (withConditions (st_instance s)
          (Remove (Status_Conditions (st_instance s)) t))
       calls).
Proof.
  split; [apply sameSpec_withConditions|].
  intros t' Hne. simpl. apply Get_Remove_ne. congruence.
Qed.

(* ===================================================================== *)
(** ** What a successful [reserveIPs] leaves behind *)
(* ===================================================================== *)

Lemma existsb_filter_nil (instance : OpenStackDataPlaneNodeSet)
    (nodes : list NodeSection) :
  existsb (participates instance) nodes = false
  <-> List.filter (participates instance) nodes = [].
Proof.
  induction nodes as [|node rest IH]; simpl; [tauto|].
  destruct (participates instance node); simpl; [|exact IH].
  split; discriminate.
Qed.

(** The loop, when it runs to its end: one upsert per participating node,
    in order; the flag; the keys of the map. *)
Lemma reserveIPs_range_success (client : Client)
    (instance : OpenStackDataPlaneNodeSet) (nodes : list NodeSection) :
  forall (ipamUsed : bool) (allIPSets : gmap string IPSet) (s : State)
         (ipamUsed' : bool) (allIPSets' : gmap string IPSet),
  fst (reserveIPs_range client instance nodes ipamUsed allIPSets s)
  = Ok (ipamUsed', allIPSets') ->
  snd (reserveIPs_range client instance nodes ipamUsed allIPSets s)
  = mkState (st_instance s)
      (st_calls s
       ++ map (upsertCall instance) (List.filter (participates instance) nodes))
  /\ ipamUsed' = ipamUsed || existsb (participates instance) nodes
  /\ dom allIPSets'
     = dom allIPSets ∪ hostNames (List.filter (participates instance) nodes).
Proof.
  induction nodes as [|node rest IH]; intros u m s u' m' Hrun; simpl in *.
  - unfold ret in Hrun. simpl in Hrun. injection Hrun as <- <-.
    rewrite app_nil_r, orb_false_r. unfold hostNames. simpl.
    split; [destruct s; reflexivity|]. split; [reflexivity|].
    rewrite union_empty_r_L. reflexivity.
  - change (0 <? length (netsOf instance node))
      with (participates instance node) in *.
    destruct (participates instance node) eqn:Hpart; simpl.
    2:{ apply IH. exact Hrun. }
    revert Hrun. unfold bind, CreateOrPatch_IPSet, call. simpl.
    destruct (answer_CreateOrPatch_IPSet client (st_calls s) (Namespace instance)
                (HostName node) (netsOf instance node)) as [ipSet|err];
      [|discriminate].
    intros Hrun. destruct (IH _ _ _ _ _ Hrun) as [Hst [Hu Hdom]].
    rewrite Hst. simpl. rewrite <- app_assoc. simpl.
    split; [reflexivity|]. split; [rewrite orb_true_r; exact Hu|].
    rewrite Hdom, dom_insert_L. unfold hostNames. simpl.
    apply set_eq. intros x. rewrite !elem_of_union. tauto.
Qed.

(** A host name no participating node carries keeps its entry. *)
Lemma reserveIPs_range_other (client : Client)
    (instance : OpenStackDataPlaneNodeSet) (name : string)
    (nodes : list NodeSection) :
  forall (ipamUsed : bool) (allIPSets : gmap string IPSet) (s : State)
         (ipamUsed' : bool) (allIPSets' : gmap string IPSet),
  fst (reserveIPs_range client instance nodes ipamUsed allIPSets s)
  = Ok (ipamUsed', allIPSets') ->
  (forall node, In node (List.filter (participates instance) nodes) ->
                HostName node <> name) ->
  allIPSets' !! name = allIPSets !! name.
Proof.
  induction nodes as [|node rest IH]; intros u m s u' m' Hrun Hother;
    simpl in *.
  - unfold ret in Hrun. simpl in Hrun. injection Hrun as <- <-. reflexivity.
  - change (0 <? length (netsOf instance node))
      with (participates instance node) in *.
    destruct (participates instance node) eqn:Hpart; simpl in *.
    2:{ eapply IH; eassumption. }
    revert Hrun. unfold bind, CreateOrPatch_IPSet, call. simpl.
    destruct (answer_CreateOrPatch_IPSet client (st_calls s) (Namespace instance)
                (HostName node) (netsOf instance node)) as [ipSet|err];
      [|discriminate].
    intros Hrun.
    rewrite (IH _ _ _ _ _ Hrun (fun n Hn => Hother n (or_intror Hn))).
    apply lookup_insert_ne. apply Hother. left. reflexivity.
Qed.

(** Under the host name of a participating node the map holds what the
    store answered to the last upsert made under that name. *)
Lemma reserveIPs_range_content (client : Client)
    (instance : OpenStackDataPlaneNodeSet) (nodes : list NodeSection) :
  forall (ipamUsed : bool) (allIPSets : gmap string IPSet) (s : State)
         (ipamUsed' : bool) (allIPSets' : gmap string IPSet)
         (pre post : list NodeSection) (node : NodeSection),
  fst (reserveIPs_range client instance nodes ipamUsed allIPSets s)
  = Ok (ipamUsed', allIPSets') ->
  List.filter (participates instance) nodes = pre ++ node :: post ->
  (forall later, In later post -> HostName later <> HostName node) ->
  exists ipSet,
    answer_CreateOrPatch_IPSet client
      (st_calls s ++ map (upsertCall instance) pre)
      (Namespace instance) (HostName node) (netsOf instance node)
    = Ok ipSet
    /\ allIPSets' !! HostName node = Some ipSet.
Proof.
  induction nodes as [|node0 rest IH];
    intros u m s u' m' pre post node Hrun Hsplit Hlast; simpl in *.
  - destruct pre; discriminate.
  - change (0 <? length (netsOf instance node0))
      with (participates instance node0) in *.
    destruct (participates instance node0) eqn:Hpart; simpl in *.
    2:{ eapply IH; eassumption. }
    revert Hrun. unfold bind, CreateOrPatch_IPSet, call. simpl.
    destruct (answer_CreateOrPatch_IPSet client (st_calls s) (Namespace instance)
                (HostName node0) (netsOf instance node0)) as [ipSet0|err] eqn:Hans;
      [|discriminate].
    intros Hrun. destruct pre as [|p pre']; simpl in Hsplit.
    + injection Hsplit as <- Hpost. exists ipSet0. simpl. rewrite app_nil_r.
      split; [exact Hans|].
      rewrite (reserveIPs_range_other client instance (HostName node0) rest
                 _ _ _ _ _ Hrun).
      * apply lookup_insert_eq.
      * intros n Hn. apply Hlast. rewrite <- Hpost. exact Hn.
    + injection Hsplit as <- Hrest.
      destruct (IH _ _ _ _ _ pre' post node Hrun Hrest Hlast)
        as [ipSet [Hans' Hlook]].
      exists ipSet. split; [|exact Hlook].
      simpl in Hans'. rewrite <- app_assoc in Hans'. exact Hans'.
Qed.

(** [reserveIPs] returns a non-nil map only after the loop has run. *)
Lemma reserveIPs_some (client : Client) (s0 : State) (m : gmap string IPSet) :
  fst (reserveIPs client s0) = Ok (Some m) ->
  exists ipamUsed,
    reserveIPs_range client (st_instance s0) (Spec_Nodes (st_instance s0))
      false ∅
      (mkState (st_instance s0)
         (st_calls s0 ++ [CallList_NetConfig (Namespace (st_instance s0))]))
    = (Ok (ipamUsed, m),
       mkState (st_instance s0)
         (st_calls s0
          ++ CallList_NetConfig (Namespace (st_instance s0))
             :: map (upsertCall (st_instance s0)) (participating (st_instance s0))))
    /\ ipamUsed = negb (bool_decide (participating (st_instance s0) = []))
    /\ snd (reserveIPs client s0)
       = mkState
           (withConditions (st_instance s0)
              (if ipamUsed then Status_Conditions (st_instance s0)
               else Remove (Status_Conditions (st_instance s0))
                      NodeSetIPReservationReadyCondition))
           (st_calls s0
            ++ CallList_NetConfig (Namespace (st_instance s0))
               :: map (upsertCall (st_instance s0))
                    (participating (st_instance s0))).
Proof.
  unfold reserveIPs, bind, getInstance, List_NetConfig, call, GetNamespace.
  simpl.
  destruct (answer_List_NetConfig client (st_calls s0) (Namespace (st_instance s0)))
    as [items|err]; [|discriminate].
  destruct (length items =? 0); [discriminate|].
  set (s' := mkState (st_instance s0)
               (st_calls s0 ++ [CallList_NetConfig (Namespace (st_instance s0))])).
  destruct (reserveIPs_range client (st_instance s0) (Spec_Nodes (st_instance s0))
              false ∅ s') as [[[u m']|err] s1] eqn:Hrun; [|discriminate].
  pose proof (reserveIPs_range_success client (st_instance s0)
                (Spec_Nodes (st_instance s0)) false ∅ s' u m') as Hok.
  rewrite Hrun in Hok. destruct (Hok eq_refl) as [Hst [Hu _]].
  simpl in Hst, Hu. subst s1.
  intros Hm.
  assert (m' = m) by (destruct u; simpl in Hm; injection Hm as ->; reflexivity).
  subst m'. exists u. unfold participating.
  rewrite <- app_assoc. simpl.
  split; [reflexivity|].
  assert (Hflag : u = negb (bool_decide
                    (List.filter (participates (st_instance s0))
                       (Spec_Nodes (st_instance s0)) = []))).
  { rewrite Hu. destruct (existsb _ _) eqn:Hex.
    - symmetry. apply negb_true_iff, bool_decide_eq_false.
      intros Hnil. apply existsb_filter_nil in Hnil. congruence.
    - symmetry. apply negb_false_iff, bool_decide_eq_true.
      apply existsb_filter_nil. exact Hex. }
  split; [exact Hflag|].
  destruct u; simpl; [|reflexivity].
  destruct (st_instance s0); reflexivity.
Qed.

Lemma reserveIPs_touchesOnly (client : Client) (s : State) :
  touchesOnly NodeSetIPReservationReadyCondition s (snd (reserveIPs client s)).
Proof.
  unfold reserveIPs, bind, getInstance, List_NetConfig, call, GetNamespace.
  simpl.
  destruct (answer_List_NetConfig client (st_calls s) (Namespace (st_instance s)))
    as [items|err]; [|exact (touchesOnly_calls _ s _)].
  destruct (length items =? 0); [exact (touchesOnly_Remove _ s _)|].
  set (s' := mkState (st_instance s)
               (st_calls s ++ [CallList_NetConfig (Namespace (st_instance s))])).
  destruct (reserveIPs_range_log client (st_instance s) (Spec_Nodes (st_instance s))
              false ∅ s') as [delta [Hst _]].
  destruct (reserveIPs_range client (st_instance s) (Spec_Nodes (st_instance s))
              false ∅ s') as [[[u m]|err] s1]; simpl in Hst; subst s1; simpl.
  - destruct u; simpl; [exact (touchesOnly_calls _ s _) | exact (touchesOnly_Remove _ s _)].
  - exact (touchesOnly_calls _ s _).
Qed.

Lemma EnsureIPSets_from_reserve
    (rangeOver : gmap string IPSet -> list (string * IPSet))
    (client : Client) (s0 : State) (m : gmap string IPSet) (ready : bool)
    (err : option error) :
  fst (EnsureIPSets rangeOver client s0) = (Some m, ready, err) ->
  fst (reserveIPs client s0) = Ok (Some m)
  /\ ready = true /\ err = None
  /\ allReady (rangeOver m) = true
  /\ m <> ∅
  /\ snd (EnsureIPSets rangeOver client s0) = markReady (snd (reserveIPs client s0)).
Proof.
  unfold EnsureIPSets, bind.
  destruct (reserveIPs client s0) as [[allIPSets|e] s1]; simpl; [|discriminate].
  destruct (len_map allIPSets =? 0) eqn:Hlen; [discriminate|].
  rewrite EnsureIPSets_range_spec.
  destruct allIPSets as [m'|]; [|discriminate].
  destruct (allReady (rangeOver m')) eqn:Hall; simpl; [|discriminate].
  intros H. injection H as -> <- <-.
  repeat split; try assumption; try reflexivity.
  intros ->. simpl in Hlen. rewrite map_size_empty in Hlen. discriminate.
Qed.

(* ===================================================================== *)
(** ** Further properties of the reservation pipeline *)
(* ===================================================================== *)

(** X1. When the namespace holds no NetConfig, [EnsureIPSets] makes no
    upsert, whatever attachments the nodes request: its only call is the
    listing, it returns [nil, true, nil], and the reservation condition is
    removed. *)
Theorem X1_no_NetConfig_nothing_reserved
    (rangeOver : gmap string IPSet -> list (string * IPSet))
    (client : Client) (s0 : State) :
  answer_List_NetConfig client (st_calls s0) (Namespace (st_instance s0))
  = Ok [] ->
  let run := EnsureIPSets rangeOver client s0 in
  fst run = (None, true, None)
  /\ st_calls (snd run)
     = st_calls s0 ++ [CallList_NetConfig (Namespace (st_instance s0))]
  /\ Status_Conditions (st_instance (snd run))
     = Remove (Status_Conditions (st_instance s0))
         NodeSetIPReservationReadyCondition
  /\ reservationState (snd run) = Some NotApplicable.
Proof.
  intros Hlist run. unfold run, EnsureIPSets, reserveIPs, bind, getInstance,
    List_NetConfig, call, GetNamespace. simpl. rewrite Hlist. simpl.
  repeat split. unfold reservationState. simpl. apply state_Remove.
Qed.

Lemma X1_witness :
  st_calls (snd (EnsureIPSets map_to_list storeNoNetConfig (mkState threeNodes [])))
  = [] ++ [CallList_NetConfig "openstack"].
Proof.
  refine (proj1 (proj2
    (X1_no_NetConfig_nothing_reserved map_to_list storeNoNetConfig
       (mkState threeNodes []) _))).
  vm_compute. reflexivity.
Defined.

(** X2. When [reserveIPs] returns a map, its calls are the listing of the
    NetConfigs followed by exactly one upsert per participating node, in
    the order of the nodes, each under the node's host name with the
    node's own attachments or, when it has none, the template's; nodes
    without attachments are skipped.  The reservation condition is
    removed when no node participates and is left as it was otherwise. *)
Theorem X2_one_upsert_per_participating_node
    (client : Client) (s0 : State) (m : gmap string IPSet) :
  fst (reserveIPs client s0) = Ok (Some m) ->
  let instance := st_instance s0 in
  let after := snd (reserveIPs client s0) in
  st_calls after
  = st_calls s0
    ++ CallList_NetConfig (Namespace instance)
       :: map (upsertCall instance) (participating instance)
  /\ Status_Conditions (st_instance after)
     = (if bool_decide (participating instance = [])
        then Remove (Status_Conditions instance)
               NodeSetIPReservationReadyCondition
        else Status_Conditions instance).
Proof.
  intros Hrun instance after.
  destruct (reserveIPs_some client s0 m Hrun) as [u [_ [Hu Hst]]].
  unfold after. rewrite Hst. simpl. split; [reflexivity|].
  fold instance in Hu. rewrite Hu.
  destruct (bool_decide (participating instance = [])); reflexivity.
Qed.

Lemma X2_witness :
  st_calls (snd (reserveIPs storeAllReady (mkState threeNodes [])))
  = [] ++ CallList_NetConfig "openstack"
          :: map (upsertCall threeNodes) (participating threeNodes).
Proof.
  refine (proj1
    (X2_one_upsert_per_participating_node storeAllReady
       (mkState threeNodes [])
       (<["edpm-2" := readyIPSet "openstack" "edpm-2" [ctlplaneNet]]>
          (<["edpm-1" := readyIPSet "openstack" "edpm-1" [ctlplaneNet]]>
             (<["edpm-0" := readyIPSet "openstack" "edpm-0" [ctlplaneNet]]> ∅)))
       _)).
  vm_compute. reflexivity.
Defined.

(** X3. The map [reserveIPs] returns has exactly the host names of the
    participating nodes as keys, and under each it holds the IPSet as
    the store answered the last upsert made under that name. *)
Theorem X3_map_holds_the_store_answers
    (client : Client) (s0 : State) (m : gmap string IPSet) :
  fst (reserveIPs client s0) = Ok (Some m) ->
  let instance := st_instance s0 in
  dom m = hostNames (participating instance)
  /\ forall (pre post : list NodeSection) (node : NodeSection),
       participating instance = pre ++ node :: post ->
       (forall later, In later post -> HostName later <> HostName node) ->
       exists ipSet,
         answer_CreateOrPatch_IPSet client
           (st_calls s0
            ++ CallList_NetConfig (Namespace instance)
               :: map (upsertCall instance) pre)
           (Namespace instance) (HostName node) (netsOf instance node)
         = Ok ipSet
         /\ m !! HostName node = Some ipSet.
Proof.
  intros Hrun instance.
  destruct (reserveIPs_some client s0 m Hrun) as [u [Hrange _]].
  fold instance in Hrange.
  set (s' := mkState instance
               (st_calls s0 ++ [CallList_NetConfig (Namespace instance)]))
    in Hrange.
  assert (Hfst : fst (reserveIPs_range client instance (Spec_Nodes instance)
                        false ∅ s') = Ok (u, m)) by (rewrite Hrange; reflexivity).
  split.
  - destruct (reserveIPs_range_success client instance (Spec_Nodes instance)
                false ∅ s' u m Hfst) as [_ [_ Hdom]].
    rewrite Hdom, dom_empty_L. unfold participating.
    apply set_eq. intros x. rewrite elem_of_union, elem_of_empty. tauto.
  - intros pre post node Hsplit Hlast.
    destruct (reserveIPs_range_content client instance (Spec_Nodes instance)
                false ∅ s' u m pre post node Hfst Hsplit Hlast)
      as [ipSet [Hans Hlook]].
    exists ipSet. split; [|exact Hlook].
    unfold s' in Hans. simpl in Hans. rewrite <- app_assoc in Hans. exact Hans.
Qed.

Lemma X3_witness :
  dom oneNodeSets = hostNames (participating oneNode).
Proof.
  refine (proj1
    (X3_map_holds_the_store_answers storeAllReady (mkState oneNode [])
       oneNodeSets _)).
  vm_compute. reflexivity.
Defined.

(** X4. Whenever [EnsureIPSets] returns a non-nil map, it returns it with
    [true] and a nil error, the map is the non-empty one [reserveIPs]
    built, the Ready condition of every IPSet in it is True, and the
    reservation condition of the parent is True. *)
Theorem X4_returned_map_is_complete_and_ready
    (rangeOver : gmap string IPSet -> list (string * IPSet))
    (client : Client) (s0 : State) (m : gmap string IPSet) (ready : bool)
    (err : option error) :
  fst (EnsureIPSets rangeOver client s0) = (Some m, ready, err) ->
  rangeOver m ≡ₚ map_to_list m ->
  ready = true
  /\ err = None
  /\ m <> ∅
  /\ everyReady m
  /\ fst (reserveIPs client s0) = Ok (Some m)
  /\ reservationState (snd (EnsureIPSets rangeOver client s0)) = Some Ready.
Proof.
  intros Hrun Hperm.
  destruct (EnsureIPSets_from_reserve rangeOver client s0 m ready err Hrun)
    as [Hres [Hready [Herr [Hall [Hne Hst]]]]].
  repeat split; try assumption.
  - apply allReady_map_Forall.
    rewrite <- (allReady_Permutation _ _ Hperm). exact Hall.
  - rewrite Hst. unfold reservationState. simpl. apply state_MarkTrue.
Qed.

Lemma X4_witness : everyReady oneNodeSets.
Proof.
  refine (proj1 (proj2 (proj2 (proj2
    (X4_returned_map_is_complete_and_ready map_to_list storeAllReady
       (mkState oneNode []) oneNodeSets true None _ _))))).
  - vm_compute. reflexivity.
  - reflexivity.
Defined.

(** X5. Of the parent, [EnsureIPSets] changes at most the reservation
    condition: namespace, name, nodes and template are as before, and so
    is every condition of another type. *)
Theorem X5_EnsureIPSets_touches_only_its_condition
    (rangeOver : gmap string IPSet -> list (string * IPSet))
    (client : Client) (s0 : State) :
  touchesOnly NodeSetIPReservationReadyCondition s0
    (snd (EnsureIPSets rangeOver client s0)).
Proof.
  pose proof (reserveIPs_touchesOnly client s0) as Hreserve.
  unfold EnsureIPSets, bind.
  destruct (reserveIPs client s0) as [[allIPSets|err] s1]; simpl in *.
  - destruct (len_map allIPSets =? 0); [exact Hreserve|].
    rewrite EnsureIPSets_range_spec.
    destruct (allReady _); simpl;
      (eapply touchesOnly_trans; [exact Hreserve|]).
    + apply touchesOnly_MarkTrue.
    + apply touchesOnly_MarkFalse.
  - eapply touchesOnly_trans; [exact Hreserve|]. apply touchesOnly_MarkFalse.
Qed.

(* ===================================================================== *)
(** ** Further properties of [EnsureDNSData] *)
(* ===================================================================== *)

Section BuilderKeeps.

Variable NodeHostNameIsFQDN : string -> bool.

(** The builder leaves the readiness and the addresses of the receiver
    alone. *)
Lemma reservationBody_service (hostName shortName : string) (st : BuildState)
    (res : IPSetReservation) :
  sameService (bs_dns st)
    (bs_dns (reservationBody NodeHostNameIsFQDN hostName shortName st res)).
Proof.
  unfold reservationBody, sameService.
  destruct (negb _); destruct (NodeHostNameIsFQDN hostName && _);
    destruct (String.eqb (ToLower (res_Network res)) CtlPlaneNetwork && _);
    repeat split.
Qed.

Lemma fold_reservationBody_service (hostName shortName : string)
    (reservations : list IPSetReservation) :
  forall st : BuildState,
  sameService (bs_dns st)
    (bs_dns (fold_left (reservationBody NodeHostNameIsFQDN hostName shortName)
               reservations st)).
Proof.
  induction reservations as [|res rest IH]; intros st; simpl.
  - repeat split.
  - destruct (IH (reservationBody NodeHostNameIsFQDN hostName shortName st res))
      as [H1 [H2 H3]].
    destruct (reservationBody_service hostName shortName st res) as [K1 [K2 K3]].
    repeat split; congruence.
Qed.

Lemma nodeBody_service (instance : OpenStackDataPlaneNodeSet)
    (allIPSets : option (gmap string IPSet)) (st : BuildState)
    (node : NodeSection) :
  sameService (bs_dns st)
    (bs_dns (nodeBody NodeHostNameIsFQDN instance allIPSets st node)).
Proof.
  unfold nodeBody.
  destruct (0 <? length (netsOf instance node)); [|repeat split].
  destruct (lookupIPSet allIPSets (HostName node)); [|repeat split].
  match goal with
  | |- sameService _ (bs_dns (fold_left ?f ?l ?st0)) =>
      destruct (fold_reservationBody_service (HostName node)
                  (firstPiece (Split (HostName node) ".")) l st0)
        as [H1 [H2 H3]]
  end.
  repeat split; (etransitivity; [|eassumption]); reflexivity.
Qed.

Lemma buildDNSData_service (instance : OpenStackDataPlaneNodeSet)
    (allIPSets : option (gmap string IPSet)) (dns : DataplaneDNSData) :
  sameService dns
    (bs_dns (buildDNSData NodeHostNameIsFQDN instance allIPSets dns)).
Proof.
  unfold buildDNSData.
  assert (Hfold : forall nodes st,
            sameService (bs_dns st)
              (bs_dns (fold_left (nodeBody NodeHostNameIsFQDN instance allIPSets)
                         nodes st))).
  { induction nodes as [|node rest IH]; intros st; simpl; [repeat split|].
    destruct (IH (nodeBody NodeHostNameIsFQDN instance allIPSets st node))
      as [H1 [H2 H3]].
    destruct (nodeBody_service instance allIPSets st node) as [K1 [K2 K3]].
    repeat split; congruence. }
  destruct (Hfold (Spec_Nodes instance)
              (mkBuild (setAllIPs (setHostnames dns ∅) ∅) [] EmptyString))
    as [H1 [H2 H3]].
  repeat split; (etransitivity; [|eassumption]); reflexivity.
Qed.

End BuilderKeeps.

Lemma gateConditions_other (err : option error) (dns : DataplaneDNSData)
    (conditions : Conditions) (t : CondType) :
  t <> NodeSetDNSDataReadyCondition ->
  Get (gateConditions err dns conditions) t = Get conditions t.
Proof.
  intros Hne. unfold gateConditions.
  destruct (isErr err); destruct (negb (DNSReady dns));
    destruct (isNil (ClusterAddresses dns));
    repeat first [ rewrite Get_Remove_ne by congruence
                 | unfold MarkFalse; rewrite Get_SetCondition_ne by (simpl; congruence) ];
    reflexivity.
Qed.

Lemma CheckDNSService_pair (client : Client) (dns : DataplaneDNSData)
    (s : State) :
  exists dns' err,
    CheckDNSService client dns s
    = ((dns', err),
       mkState (st_instance s)
         (st_calls s ++ [CallList_DNSMasq (Namespace (st_instance s))])).
Proof.
  rewrite CheckDNSService_run.
  destruct (answer_List_DNSMasq client (st_calls s) (Namespace (st_instance s)))
    as [[|first rest]|err]; try (eexists; eexists; reflexivity).
  destruct (dnsmasq_IsReady first); eexists; eexists; reflexivity.
Qed.

(** X6. Of the parent, [EnsureDNSData] changes at most the DNS condition:
    namespace, name, nodes and template are as before, and so is every
    condition of another type, the reservation condition included. *)
Theorem X6_EnsureDNSData_touches_only_its_condition
    (NodeHostNameIsFQDN : string -> bool) (client : Client)
    (allIPSets : option (gmap string IPSet)) (dns : DataplaneDNSData)
    (s0 : State) :
  touchesOnly NodeSetDNSDataReadyCondition s0
    (snd (EnsureDNSData NodeHostNameIsFQDN client allIPSets dns s0)).
Proof.
  destruct (CheckDNSService_pair client dns s0) as [dns' [err Hcheck]].
  destruct (gateClosed err dns') eqn:Hgate.
  - rewrite (EnsureDNSData_closed NodeHostNameIsFQDN client allIPSets dns dns'
               err s0 _ Hcheck Hgate).
    split; [apply sameSpec_withConditions|].
    intros t Hne. simpl. apply gateConditions_other. exact Hne.
  - rewrite (EnsureDNSData_open NodeHostNameIsFQDN client allIPSets dns dns'
               err s0 _ Hcheck Hgate).
    simpl.
    destruct (answer_CreateOrPatch_DNSData client _ _ _ _ _) as [e|].
    { exact (touchesOnly_MarkFalse _ _ _ _ s0 _). }
    destruct (answer_Get_DNSData client _ _ _) as [dnsData|e].
    + destruct (dnsdata_IsReady dnsData).
      * exact (touchesOnly_MarkTrue _ _ s0 _).
      * exact (touchesOnly_MarkFalse _ _ _ _ s0 _).
    + exact (touchesOnly_MarkFalse _ _ _ _ s0 _).
Qed.

(** X7. When the listing of the DNSMasqs fails, [EnsureDNSData] returns
    that error with the receiver not ready and calls nothing else.  The
    Error mark it sets is overwritten by the Waiting mark of the next
    test, so the DNS condition ends removed when the receiver's cluster
    addresses are nil and Waiting when they are not; it does not end in
    Error. *)
Theorem X7_service_list_error
    (NodeHostNameIsFQDN : string -> bool) (client : Client)
    (allIPSets : option (gmap string IPSet)) (dns : DataplaneDNSData)
    (s0 : State) (e : error) :
  answer_List_DNSMasq client (st_calls s0) (Namespace (st_instance s0))
  = Err e ->
  let run := EnsureDNSData NodeHostNameIsFQDN client allIPSets dns s0 in
  fst run = (setReady dns false, Some e)
  /\ st_calls (snd run)
     = st_calls s0 ++ [CallList_DNSMasq (Namespace (st_instance s0))]
  /\ dnsState (snd run)
     = Some (if isNil (ClusterAddresses dns) then NotApplicable else Waiting).
Proof.
  intros Hlist run.
  assert (Hcheck : CheckDNSService client dns s0
                   = ((setReady dns false, Some e),
                      mkState (st_instance s0)
                        (st_calls s0
                         ++ [CallList_DNSMasq (Namespace (st_instance s0))]))).
  { rewrite CheckDNSService_run, Hlist. reflexivity. }
  assert (Hgate : gateClosed (Some e) (setReady dns false) = true) by reflexivity.
  unfold run.
  rewrite (EnsureDNSData_closed NodeHostNameIsFQDN client allIPSets dns _ _
             s0 _ Hcheck Hgate).
  unfold dnsState, withDNSConditions, gateConditions. simpl.
  split; [reflexivity|]. split; [reflexivity|].
  destruct (ClusterAddresses dns); simpl.
  - apply state_MarkFalse_Requested.
  - apply state_Remove.
Qed.

Lemma X7_witness :
  dnsState
    (snd (EnsureDNSData hasDomainPart storeServiceListFails (Some oneNodeSets)
            zeroDNS (mkState oneNode [])))
  = Some NotApplicable.
Proof.
  refine (proj2 (proj2
    (X7_service_list_error hasDomainPart storeServiceListFails
       (Some oneNodeSets) zeroDNS (mkState oneNode [])
       (ErrorString "list failed") _))).
  vm_compute. reflexivity.
Defined.

(** X8. When the service is ready with cluster addresses and the upsert
    of the DNSData fails, [EnsureDNSData] returns that error, marks the
    DNS condition Error and does not read the DNSData back; the receiver
    keeps the readiness and addresses the check gave it. *)
Theorem X8_DNSData_upsert_error
    (NodeHostNameIsFQDN : string -> bool) (client : Client)
    (allIPSets : option (gmap string IPSet)) (dns : DataplaneDNSData)
    (s0 : State) (first : DNSMasq) (rest : list DNSMasq)
    (addresses : list string) (e : error) :
  let instance := st_instance s0 in
  let listed := CallList_DNSMasq (Namespace instance) in
  let st := buildDNSData NodeHostNameIsFQDN instance allIPSets
              (readFrom first dns) in
  let upsert :=
    CallCreateOrPatch_DNSData (Namespace instance) (Name instance)
      (bs_allDNSRecords st) "dnsdata" in
  let run := EnsureDNSData NodeHostNameIsFQDN client allIPSets dns s0 in
  answer_List_DNSMasq client (st_calls s0) (Namespace instance)
  = Ok (first :: rest) ->
  dnsmasq_IsReady first = true ->
  dnsmasq_Status_DNSClusterAddresses first = Some addresses ->
  answer_CreateOrPatch_DNSData client (st_calls s0 ++ [listed])
    (Namespace instance) (Name instance) (bs_allDNSRecords st) "dnsdata"
  = Some e ->
  snd (fst run) = Some e
  /\ st_calls (snd run) = st_calls s0 ++ [listed; upsert]
  /\ dnsState (snd run) = Some Error
  /\ DNSReady (fst (fst run)) = true
  /\ ClusterAddresses (fst (fst run)) = Some addresses
  /\ ServerAddresses (fst (fst run)) = dnsmasq_Status_DNSAddresses first.
Proof.
  intros instance listed st upsert run Hlist Hready Haddr Hupsert.
  assert (Hcheck : CheckDNSService client dns s0
                   = ((readFrom first dns, None),
                      mkState instance (st_calls s0 ++ [listed]))).
  { rewrite CheckDNSService_run. fold instance. rewrite Hlist, Hready.
    reflexivity. }
  assert (Hgate : gateClosed None (readFrom first dns) = false).
  { unfold gateClosed. simpl. rewrite Haddr. reflexivity. }
  pose proof (EnsureDNSData_open NodeHostNameIsFQDN client allIPSets dns _ _
                s0 _ Hcheck Hgate) as Hrun.
  fold run in Hrun. simpl in Hrun. fold instance st in Hrun.
  rewrite Hupsert in Hrun. rewrite Hrun. simpl.
  destruct (buildDNSData_service NodeHostNameIsFQDN instance allIPSets
              (readFrom first dns)) as [H1 [H2 H3]].
  fold st in H1, H2, H3.
  split; [reflexivity|].
  split; [rewrite <- app_assoc; reflexivity|].
  split; [unfold dnsState; simpl; apply state_MarkFalse_Error|].
  split; [rewrite <- H1; reflexivity|].
  split; [rewrite <- H3; simpl; exact Haddr | rewrite <- H2; reflexivity].
Qed.

Lemma X8_witness :
  dnsState
    (snd (EnsureDNSData hasDomainPart storeDNSDataConflict (Some oneNodeSets)
            zeroDNS (mkState oneNode [])))
  = Some Error.
Proof.
  refine (proj1 (proj2 (proj2
    (X8_DNSData_upsert_error hasDomainPart storeDNSDataConflict
       (Some oneNodeSets) zeroDNS (mkState oneNode []) readyDNSMasq []
       ["10.217.4.53"] (ErrorString "conflict") _ _ _ _)))).
  - vm_compute. reflexivity.
  - reflexivity.
  - reflexivity.
  - vm_compute. reflexivity.
Defined.

(** X9. When the DNSData was written and reading it back fails,
    [EnsureDNSData] returns that error and marks the DNS condition
    Error; the calls of the pass are the listing, the upsert and the
    read. *)
Theorem X9_DNSData_read_back_error
    (NodeHostNameIsFQDN : string -> bool) (client : Client)
    (allIPSets : option (gmap string IPSet)) (dns : DataplaneDNSData)
    (s0 : State) (first : DNSMasq) (rest : list DNSMasq)
    (addresses : list string) (e : error) :
  let instance := st_instance s0 in
  let listed := CallList_DNSMasq (Namespace instance) in
  let st := buildDNSData NodeHostNameIsFQDN instance allIPSets
              (readFrom first dns) in
  let upsert :=
    CallCreateOrPatch_DNSData (Namespace instance) (Name instance)
      (bs_allDNSRecords st) "dnsdata" in
  let get := CallGet_DNSData (Namespace instance) (Name instance) in
  let run := EnsureDNSData NodeHostNameIsFQDN client allIPSets dns s0 in
  answer_List_DNSMasq client (st_calls s0) (Namespace instance)
  = Ok (first :: rest) ->
  dnsmasq_IsReady first = true ->
  dnsmasq_Status_DNSClusterAddresses first = Some addresses ->
  answer_CreateOrPatch_DNSData client (st_calls s0 ++ [listed])
    (Namespace instance) (Name instance) (bs_allDNSRecords st) "dnsdata"
  = None ->
  answer_Get_DNSData client (st_calls s0 ++ [listed; upsert])
    (Namespace instance) (Name instance)
  = Err e ->
  snd (fst run) = Some e
  /\ st_calls (snd run) = st_calls s0 ++ [listed; upsert; get]
  /\ Status_Conditions (st_instance (snd run))
     = MarkFalse (Status_Conditions instance) NodeSetDNSDataReadyCondition
         ErrorReason SeverityError NodeSetDNSDataReadyErrorMessage
  /\ dnsState (snd run) = Some Error.
Proof.
  intros instance listed st upsert get run Hlist Hready Haddr Hupsert Hget.
  assert (Hcheck : CheckDNSService client dns s0
                   = ((readFrom first dns, None),
                      mkState instance (st_calls s0 ++ [listed]))).
  { rewrite CheckDNSService_run. fold instance. rewrite Hlist, Hready.
    reflexivity. }
  assert (Hgate : gateClosed None (readFrom first dns) = false).
  { unfold gateClosed. simpl. rewrite Haddr. reflexivity. }
  pose proof (EnsureDNSData_open NodeHostNameIsFQDN client allIPSets dns _ _
                s0 _ Hcheck Hgate) as Hrun.
  fold run in Hrun. simpl in Hrun. fold instance st in Hrun.
  rewrite Hupsert in Hrun. fold upsert in Hrun.
  replace ((st_calls s0 ++ [listed]) ++ [upsert])
    with (st_calls s0 ++ [listed; upsert]) in Hrun
    by (rewrite <- app_assoc; reflexivity).
  rewrite Hget in Hrun. rewrite Hrun. simpl.
  split; [reflexivity|].
  split; [rewrite <- app_assoc; reflexivity|].
  split; [reflexivity|].
  unfold dnsState. simpl. apply state_MarkFalse_Error.
Qed.

Lemma X9_witness :
  dnsState
    (snd (EnsureDNSData hasDomainPart storeGetFails (Some oneNodeSets)
            zeroDNS (mkState oneNode [])))
  = Some Error.
Proof.
  refine (proj2 (proj2 (proj2
    (X9_DNSData_read_back_error hasDomainPart storeGetFails
       (Some oneNodeSets) zeroDNS (mkState oneNode []) readyDNSMasq []
       ["10.217.4.53"] (ErrorString "not found") _ _ _ _ _)))).
  - vm_compute. reflexivity.
  - reflexivity.
  - reflexivity.
  - vm_compute. reflexivity.
  - vm_compute. reflexivity.
Defined.

(** X10. A DNSMasq that is ready but advertises no cluster addresses is
    treated as DNS not in use: the receiver is left ready with the
    server addresses of the service, [EnsureDNSData] returns no error,
    writes no DNSData and removes the DNS condition. *)
Theorem X10_ready_service_without_cluster_addresses
    (NodeHostNameIsFQDN : string -> bool) (client : Client)
    (allIPSets : option (gmap string IPSet)) (dns : DataplaneDNSData)
    (s0 : State) (first : DNSMasq) (rest : list DNSMasq) :
  let instance := st_instance s0 in
  let run := EnsureDNSData NodeHostNameIsFQDN client allIPSets dns s0 in
  answer_List_DNSMasq client (st_calls s0) (Namespace instance)
  = Ok (first :: rest) ->
  dnsmasq_IsReady first = true ->
  dnsmasq_Status_DNSClusterAddresses first = None ->
  fst run = (readFrom first dns, None)
  /\ DNSReady (fst (fst run)) = true
  /\ ServerAddresses (fst (fst run)) = dnsmasq_Status_DNSAddresses first
  /\ st_calls (snd run) = st_calls s0 ++ [CallList_DNSMasq (Namespace instance)]
  /\ Status_Conditions (st_instance (snd run))
     = Remove (Status_Conditions instance) NodeSetDNSDataReadyCondition
  /\ dnsState (snd run) = Some NotApplicable.
Proof.
  intros instance run Hlist Hready Haddr.
  assert (Hcheck : CheckDNSService client dns s0
                   = ((readFrom first dns, None),
                      mkState instance
                        (st_calls s0 ++ [CallList_DNSMasq (Namespace instance)]))).
  { rewrite CheckDNSService_run. fold instance. rewrite Hlist, Hready.
    reflexivity. }
  assert (Hgate : gateClosed None (readFrom first dns) = true).
  { unfold gateClosed. simpl. rewrite Haddr. reflexivity. }
  unfold run.
  rewrite (EnsureDNSData_closed NodeHostNameIsFQDN client allIPSets dns _ _
             s0 _ Hcheck Hgate).
  unfold dnsState, withDNSConditions, gateConditions. simpl. rewrite Haddr.
  simpl. repeat split. apply state_Remove.
Qed.

Lemma X10_witness :
  st_calls
    (snd (EnsureDNSData hasDomainPart storeNoClusterAddresses
            (Some oneNodeSets) zeroDNS (mkState oneNode [])))
  = [] ++ [CallList_DNSMasq "openstack"].
Proof.
  refine (proj1 (proj2 (proj2 (proj2
    (X10_ready_service_without_cluster_addresses hasDomainPart
       storeNoClusterAddresses (Some oneNodeSets) zeroDNS
       (mkState oneNode []) (mkDNSMasq true None (Some ["192.168.122.80"]))
       [] _ _ _))))).
  - vm_compute. reflexivity.
  - reflexivity.
  - reflexivity.
Defined.

(** X11. Whenever [EnsureDNSData] returns a nil error and leaves the
    receiver ready, either the DNS condition is True and the pass wrote
    the DNSData and read it back, or the DNS condition is absent and the
    pass called nothing but the listing; the condition is then never
    Waiting or Error. *)
Theorem X11_ready_without_error_means_ready_or_unused
    (NodeHostNameIsFQDN : string -> bool) (client : Client)
    (allIPSets : option (gmap string IPSet)) (dns : DataplaneDNSData)
    (s0 : State) :
  let instance := st_instance s0 in
  let run := EnsureDNSData NodeHostNameIsFQDN client allIPSets dns s0 in
  snd (fst run) = None ->
  DNSReady (fst (fst run)) = true ->
  (dnsState (snd run) = Some Ready
   /\ exists hosts,
        st_calls (snd run)
        = st_calls s0
          ++ [CallList_DNSMasq (Namespace instance);
              CallCreateOrPatch_DNSData (Namespace instance) (Name instance)
                hosts "dnsdata";
              CallGet_DNSData (Namespace instance) (Name instance)])
  \/ (dnsState (snd run) = Some NotApplicable
      /\ st_calls (snd run)
         = st_calls s0 ++ [CallList_DNSMasq (Namespace instance)]).
Proof.
  intros instance run.
  destruct (CheckDNSService_pair client dns s0) as [dns' [err Hcheck]].
  destruct (gateClosed err dns') eqn:Hgate.
  - unfold run.
    rewrite (EnsureDNSData_closed NodeHostNameIsFQDN client allIPSets dns dns'
               err s0 _ Hcheck Hgate).
    simpl. intros -> Hready. right.
    unfold gateClosed in Hgate. rewrite Hready in Hgate. simpl in Hgate.
    unfold dnsState, withDNSConditions, gateConditions. simpl.
    rewrite Hready, Hgate. simpl. split; [apply state_Remove | reflexivity].
  - pose proof (EnsureDNSData_open NodeHostNameIsFQDN client allIPSets dns dns'
                  err s0 _ Hcheck Hgate) as Hrun.
    fold run in Hrun. simpl in Hrun. fold instance in Hrun. rewrite Hrun.
    destruct (answer_CreateOrPatch_DNSData client _ _ _ _ _) as [e|];
      [discriminate|].
    destruct (answer_Get_DNSData client _ _ _) as [dnsData|e]; [|discriminate].
    destruct (dnsdata_IsReady dnsData); simpl; [|discriminate].
    intros _ _. left. split.
    + unfold dnsState. simpl. apply state_MarkTrue.
    + eexists. rewrite <- !app_assoc. reflexivity.
Qed.

Lemma X11_witness :
  dnsState
    (snd (EnsureDNSData hasDomainPart storeNoService (Some oneNodeSets)
            zeroDNS (mkState oneNode [])))
  = Some Ready
  /\ (exists hosts,
        st_calls
          (snd (EnsureDNSData hasDomainPart storeNoService (Some oneNodeSets)
                  zeroDNS (mkState oneNode [])))
        = [] ++ [CallList_DNSMasq "openstack";
                 CallCreateOrPatch_DNSData "openstack" "edpm" hosts "dnsdata";
                 CallGet_DNSData "openstack" "edpm"])
  \/ dnsState
       (snd (EnsureDNSData hasDomainPart storeNoService (Some oneNodeSets)
               zeroDNS (mkState oneNode [])))
     = Some NotApplicable
     /\ st_calls
          (snd (EnsureDNSData hasDomainPart storeNoService (Some oneNodeSets)
                  zeroDNS (mkState oneNode [])))
        = [] ++ [CallList_DNSMasq "openstack"].
Proof.
  refine (X11_ready_without_error_means_ready_or_unused hasDomainPart
            storeNoService (Some oneNodeSets) zeroDNS (mkState oneNode []) _ _).
  - vm_compute. reflexivity.
  - vm_compute. reflexivity.
Defined.

(* ===================================================================== *)
(** ** Further properties of the record builder *)
(* ===================================================================== *)

Lemma setInner_dom (m : gmap string (gmap string string))
    (hostName net value : string) :
  dom (setInner m hostName net value) = dom m.
Proof. unfold setInner. apply dom_alter_L. Qed.

Lemma setInner_other (m : gmap string (gmap string string))
    (hostName other net value : string) :
  hostName <> other -> setInner m hostName net value !! other = m !! other.
Proof. intros Hne. unfold setInner. apply lookup_alter_ne. exact Hne. Qed.

Lemma registered_setInner_other_net (m : gmap string (gmap string string))
    (hostName net value key : string) :
  net <> key ->
  registered (setInner m hostName net value) hostName key
  = registered m hostName key.
Proof.
  intros Hne. unfold registered, setInner. rewrite lookup_alter_eq.
  destruct (m !! hostName) as [inner|]; simpl; [|reflexivity].
  apply lookup_insert_ne. exact Hne.
Qed.

Lemma fold_recordIP_dom (hostName : string)
    (reservations : list IPSetReservation) :
  forall m : gmap string (gmap string string),
  dom (fold_left (recordIP hostName) reservations m) = dom m.
Proof.
  induction reservations as [|res rest IH]; intros m; simpl; [reflexivity|].
  rewrite IH. apply setInner_dom.
Qed.

Lemma fold_recordIP_other (hostName other : string)
    (reservations : list IPSetReservation) :
  hostName <> other ->
  forall m : gmap string (gmap string string),
  fold_left (recordIP hostName) reservations m !! other = m !! other.
Proof.
  intros Hne. induction reservations as [|res rest IH]; intros m; simpl;
    [reflexivity|].
  rewrite IH. apply setInner_other. exact Hne.
Qed.

Lemma fold_recordIP_key (hostName : string)
    (reservations : list IPSetReservation) :
  forall m : gmap string (gmap string string),
  is_Some (m !! hostName) ->
  is_Some (fold_left (recordIP hostName) reservations m !! hostName).
Proof.
  induction reservations as [|res rest IH]; intros m Hkey; simpl;
    [exact Hkey|].
  apply IH. apply setInner_keeps_key. exact Hkey.
Qed.

(** Later reservations on other networks leave an entry alone. *)
Lemma fold_recordIP_other_nets (hostName key : string)
    (reservations : list IPSetReservation) :
  (forall r, In r reservations -> ToLower (res_Network r) <> key) ->
  forall m : gmap string (gmap string string),
  registered (fold_left (recordIP hostName) reservations m) hostName key
  = registered m hostName key.
Proof.
  induction reservations as [|res rest IH]; intros Hother m; simpl;
    [reflexivity|].
  rewrite IH by (intros r Hr; apply Hother; right; exact Hr).
  apply registered_setInner_other_net. apply Hother. left. reflexivity.
Qed.

(** The last reservation on a network decides the entry. *)
Lemma fold_recordIP_last (hostName : string)
    (before after : list IPSetReservation) (res : IPSetReservation)
    (m : gmap string (gmap string string)) :
  is_Some (m !! hostName) ->
  (forall r, In r after ->
             ToLower (res_Network r) <> ToLower (res_Network res)) ->
  registered (fold_left (recordIP hostName) (before ++ res :: after) m)
    hostName (ToLower (res_Network res))
  = Some (res_Address res).
Proof.
  intros Hkey Hafter. rewrite fold_left_app. simpl.
  rewrite fold_recordIP_other_nets by exact Hafter.
  apply registered_setInner. apply fold_recordIP_key. exact Hkey.
Qed.

(** Every entry comes from the start or from a reservation. *)
Lemma fold_recordIP_origin (hostName key address : string)
    (reservations : list IPSetReservation) :
  forall m : gmap string (gmap string string),
  registered (fold_left (recordIP hostName) reservations m) hostName key
  = Some address ->
  registered m hostName key = Some address
  \/ exists res, In res reservations
                 /\ key = ToLower (res_Network res)
                 /\ address = res_Address res.
Proof.
  induction reservations as [|res rest IH]; intros m Hreg; simpl in *;
    [left; exact Hreg|].
  destruct (IH _ Hreg) as [Hstep | [r [Hin [Hk Ha]]]].
  - destruct (decide (ToLower (res_Network res) = key)) as [Heq|Hne].
    + unfold recordIP, registered, setInner in Hstep.
      rewrite lookup_alter_eq in Hstep.
      destruct (m !! hostName) as [inner|] eqn:Hinner; simpl in Hstep;
        [|discriminate].
      rewrite Heq, lookup_insert_eq in Hstep. injection Hstep as <-.
      right. exists res. split; [left; reflexivity|].
      split; [symmetry; exact Heq | reflexivity].
    + unfold recordIP in Hstep.
      rewrite registered_setInner_other_net in Hstep by exact Hne.
      left. exact Hstep.
  - right. exists r. split; [right; exact Hin | split; assumption].
Qed.

Section BuilderMaps.

Variable NodeHostNameIsFQDN : string -> bool.

Lemma reservationBody_AllIPs (hostName shortName : string) (st : BuildState)
    (res : IPSetReservation) :
  AllIPs (bs_dns (reservationBody NodeHostNameIsFQDN hostName shortName st res))
  = recordIP hostName (AllIPs (bs_dns st)) res.
Proof.
  unfold reservationBody, recordIP.
  destruct (negb _); destruct (NodeHostNameIsFQDN hostName && _);
    destruct (String.eqb (ToLower (res_Network res)) CtlPlaneNetwork && _);
    reflexivity.
Qed.

Lemma reservationBody_Hostnames_dom (hostName shortName : string)
    (st : BuildState) (res : IPSetReservation) :
  dom (Hostnames
         (bs_dns (reservationBody NodeHostNameIsFQDN hostName shortName st res)))
  = dom (Hostnames (bs_dns st)).
Proof.
  unfold reservationBody.
  destruct (negb _); destruct (NodeHostNameIsFQDN hostName && _);
    destruct (String.eqb (ToLower (res_Network res)) CtlPlaneNetwork && _);
    simpl; rewrite ?setInner_dom; reflexivity.
Qed.

Lemma fold_reservationBody_AllIPs (hostName shortName : string)
    (reservations : list IPSetReservation) :
  forall st : BuildState,
  AllIPs
    (bs_dns (fold_left (reservationBody NodeHostNameIsFQDN hostName shortName)
               reservations st))
  = fold_left (recordIP hostName) reservations (AllIPs (bs_dns st)).
Proof.
  induction reservations as [|res rest IH]; intros st; simpl; [reflexivity|].
  rewrite IH, reservationBody_AllIPs. reflexivity.
Qed.

Lemma fold_reservationBody_Hostnames_dom (hostName shortName : string)
    (reservations : list IPSetReservation) :
  forall st : BuildState,
  dom (Hostnames
         (bs_dns (fold_left (reservationBody NodeHostNameIsFQDN hostName shortName)
                    reservations st)))
  = dom (Hostnames (bs_dns st)).
Proof.
  induction reservations as [|res rest IH]; intros st; simpl; [reflexivity|].
  rewrite IH. apply reservationBody_Hostnames_dom.
Qed.

(** What one node does to [dns.AllIPs]: a fresh inner map under its host
    name, then one entry per reservation. *)
Lemma nodeBody_AllIPs (instance : OpenStackDataPlaneNodeSet)
    (allIPSets : option (gmap string IPSet)) (st : BuildState)
    (node : NodeSection) :
  AllIPs (bs_dns (nodeBody NodeHostNameIsFQDN instance allIPSets st node))
  = fold_left (recordIP (HostName node))
      (reservationsOf instance allIPSets node)
      (<[HostName node := ∅]> (AllIPs (bs_dns st))).
Proof.
  unfold nodeBody, reservationsOf, participates.
  destruct (0 <? length (netsOf instance node)); [|reflexivity].
  destruct (lookupIPSet allIPSets (HostName node)) as [ipSet|]; [|reflexivity].
  rewrite fold_reservationBody_AllIPs. reflexivity.
Qed.

Lemma nodeBody_Hostnames_dom (instance : OpenStackDataPlaneNodeSet)
    (allIPSets : option (gmap string IPSet)) (st : BuildState)
    (node : NodeSection) :
  dom (Hostnames (bs_dns (nodeBody NodeHostNameIsFQDN instance allIPSets st node)))
  = {[HostName node]} ∪ dom (Hostnames (bs_dns st)).
Proof.
  unfold nodeBody.
  destruct (0 <? length (netsOf instance node)); [|apply dom_insert_L].
  destruct (lookupIPSet allIPSets (HostName node)) as [ipSet|];
    [|apply dom_insert_L].
  rewrite fold_reservationBody_Hostnames_dom. apply dom_insert_L.
Qed.

Lemma fold_nodeBody_doms (instance : OpenStackDataPlaneNodeSet)
    (allIPSets : option (gmap string IPSet)) (nodes : list NodeSection) :
  forall st : BuildState,
  let final := bs_dns (fold_left (nodeBody NodeHostNameIsFQDN instance allIPSets)
                         nodes st) in
  dom (Hostnames final) = dom (Hostnames (bs_dns st)) ∪ hostNames nodes
  /\ dom (AllIPs final) = dom (AllIPs (bs_dns st)) ∪ hostNames nodes.
Proof.
  induction nodes as [|node rest IH]; intros st; simpl.
  - unfold hostNames. simpl. split; apply set_eq; intros x;
      rewrite elem_of_union, elem_of_empty; tauto.
  - destruct (IH (nodeBody NodeHostNameIsFQDN instance allIPSets st node))
      as [Hh Ha].
    split.
    + rewrite Hh, nodeBody_Hostnames_dom. unfold hostNames. simpl.
      apply set_eq. intros x. rewrite !elem_of_union. tauto.
    + rewrite Ha, nodeBody_AllIPs, fold_recordIP_dom, dom_insert_L.
      unfold hostNames. simpl.
      apply set_eq. intros x. rewrite !elem_of_union. tauto.
Qed.

(** Nodes with another host name leave an entry of [dns.AllIPs] alone. *)
Lemma fold_nodeBody_AllIPs_other (instance : OpenStackDataPlaneNodeSet)
    (allIPSets : option (gmap string IPSet)) (hostName : string)
    (nodes : list NodeSection) :
  (forall node, In node nodes -> HostName node <> hostName) ->
  forall st : BuildState,
  AllIPs (bs_dns (fold_left (nodeBody NodeHostNameIsFQDN instance allIPSets)
                    nodes st)) !! hostName
  = AllIPs (bs_dns st) !! hostName.
Proof.
  induction nodes as [|node rest IH]; intros Hother st; simpl; [reflexivity|].
  rewrite IH by (intros n Hn; apply Hother; right; exact Hn).
  rewrite nodeBody_AllIPs.
  assert (Hne : HostName node <> hostName) by (apply Hother; left; reflexivity).
  rewrite fold_recordIP_other by exact Hne.
  apply lookup_insert_ne. exact Hne.
Qed.

(** The entry of [dns.AllIPs] for the last node with a given host name. *)
Lemma buildDNSData_AllIPs_entry (instance : OpenStackDataPlaneNodeSet)
    (allIPSets : option (gmap string IPSet)) (dns : DataplaneDNSData)
    (pre post : list NodeSection) (node : NodeSection) :
  Spec_Nodes instance = pre ++ node :: post ->
  (forall later, In later post -> HostName later <> HostName node) ->
  AllIPs (bs_dns (buildDNSData NodeHostNameIsFQDN instance allIPSets dns))
    !! HostName node
  = fold_left (recordIP (HostName node))
      (reservationsOf instance allIPSets node)
      (<[HostName node := ∅]>
         (AllIPs
            (bs_dns
               (fold_left (nodeBody NodeHostNameIsFQDN instance allIPSets) pre
                  (mkBuild (setAllIPs (setHostnames dns ∅) ∅) [] EmptyString)))))
    !! HostName node.
Proof.
  intros Hsplit Hlast. unfold buildDNSData. rewrite Hsplit, fold_left_app.
  simpl. rewrite fold_nodeBody_AllIPs_other by exact Hlast.
  rewrite nodeBody_AllIPs. reflexivity.
Qed.

End BuilderMaps.

Lemma registered_from_entry (m m' : gmap string (gmap string string))
    (hostName key : string) :
  m !! hostName = m' !! hostName ->
  registered m hostName key = registered m' hostName key.
Proof. intros H. unfold registered. rewrite H. reflexivity. Qed.

Lemma map_flat_map_addresses (NodeHostNameIsFQDN : string -> bool)
    (instance : OpenStackDataPlaneNodeSet)
    (allIPSets : option (gmap string IPSet)) (nodes : list NodeSection) :
  map dnshost_IP
    (flat_map (recordsOfNode NodeHostNameIsFQDN instance allIPSets) nodes)
  = map res_Address (flat_map (reservationsOf instance allIPSets) nodes).
Proof.
  induction nodes as [|node rest IH]; simpl; [reflexivity|].
  rewrite !List.map_app, IH. f_equal.
  unfold recordsOfNode. rewrite List.map_map. reflexivity.
Qed.

(** X12. The DNSData upsert receives exactly one record per reservation
    the builder visits, in visiting order, each carrying that
    reservation's address: nodes without attachments and nodes without
    an IPSet in the map contribute no record, and no reservation of the
    others is dropped. *)
Theorem X12_one_record_per_reservation
    (NodeHostNameIsFQDN : string -> bool) (client : Client)
    (allIPSets : option (gmap string IPSet)) (dns : DataplaneDNSData)
    (s0 : State) :
  let instance := st_instance s0 in
  exists hosts,
    st_calls (snd (createOrPatchDNSData NodeHostNameIsFQDN client allIPSets
                     dns s0))
    = st_calls s0
      ++ [CallCreateOrPatch_DNSData (Namespace instance) (Name instance)
            hosts "dnsdata"]
    /\ map dnshost_IP hosts = map res_Address (visited instance allIPSets)
    /\ length hosts = length (visited instance allIPSets).
Proof.
  intros instance. rewrite createOrPatchDNSData_run. simpl snd. simpl st_calls.
  eexists. split; [reflexivity|].
  fold instance. rewrite buildDNSData_records.
  pose proof (map_flat_map_addresses NodeHostNameIsFQDN instance allIPSets
                (Spec_Nodes instance)) as Hmap.
  split; [exact Hmap|].
  apply (f_equal (@length string)) in Hmap.
  rewrite !List.length_map in Hmap. exact Hmap.
Qed.

(** X13. After the builder, the keys of [dns.Hostnames] and of
    [dns.AllIPs] are exactly the host names of the nodes of the parent:
    every node has an entry, also one without attachments or
    reservations, and whatever the two maps held on entry is gone. *)
Theorem X13_maps_are_keyed_by_the_nodes
    (NodeHostNameIsFQDN : string -> bool) (client : Client)
    (allIPSets : option (gmap string IPSet)) (dns : DataplaneDNSData)
    (s0 : State) :
  let dns' := fst (fst (createOrPatchDNSData NodeHostNameIsFQDN client
                          allIPSets dns s0)) in
  dom (Hostnames dns') = hostNames (Spec_Nodes (st_instance s0))
  /\ dom (AllIPs dns') = hostNames (Spec_Nodes (st_instance s0)).
Proof.
  rewrite createOrPatchDNSData_run. simpl fst. unfold buildDNSData.
  destruct (fold_nodeBody_doms NodeHostNameIsFQDN (st_instance s0) allIPSets
              (Spec_Nodes (st_instance s0))
              (mkBuild (setAllIPs (setHostnames dns ∅) ∅) [] EmptyString))
    as [Hh Ha].
  simpl in Hh, Ha. rewrite dom_empty_L in Hh, Ha.
  split; [rewrite Hh | rewrite Ha];
    apply set_eq; intros x; rewrite elem_of_union, elem_of_empty; tauto.
Qed.

(** X14. For the last node carrying a host name, when it participates
    and has an IPSet in the map, [dns.AllIPs] holds under that host name
    and the lower-cased name of a network the address of the last
    reservation on that network, and it holds nothing that is not the
    address of one of the node's reservations. *)
Theorem X14_AllIPs_holds_the_last_address_per_network
    (NodeHostNameIsFQDN : string -> bool) (client : Client)
    (allIPSets : option (gmap string IPSet)) (dns : DataplaneDNSData)
    (s0 : State) (pre post : list NodeSection) (node : NodeSection)
    (ipSet : IPSet) :
  let instance := st_instance s0 in
  let dns' := fst (fst (createOrPatchDNSData NodeHostNameIsFQDN client
                          allIPSets dns s0)) in
  Spec_Nodes instance = pre ++ node :: post ->
  (forall later, In later post -> HostName later <> HostName node) ->
  participates instance node = true ->
  lookupIPSet allIPSets (HostName node) = Some ipSet ->
  (forall before res after,
     ipset_Status_Reservation ipSet = before ++ res :: after ->
     (forall r, In r after ->
                ToLower (res_Network r) <> ToLower (res_Network res)) ->
     registered (AllIPs dns') (HostName node) (ToLower (res_Network res))
     = Some (res_Address res))
  /\ (forall key address,
        registered (AllIPs dns') (HostName node) key = Some address ->
        exists res, In res (ipset_Status_Reservation ipSet)
                    /\ key = ToLower (res_Network res)
                    /\ address = res_Address res).
Proof.
  intros instance dns' Hsplit Hlast Hpart Hset.
  assert (Hentry : forall key,
            registered (AllIPs dns') (HostName node) key
            = registered
                (fold_left (recordIP (HostName node))
                   (ipset_Status_Reservation ipSet)
                   (<[HostName node := ∅]>
                      (AllIPs
                         (bs_dns
                            (fold_left
                               (nodeBody NodeHostNameIsFQDN instance allIPSets)
                               pre
                               (mkBuild (setAllIPs (setHostnames dns ∅) ∅) []
                                  EmptyString))))))
                (HostName node) key).
  { intros key. apply registered_from_entry. unfold dns'.
    rewrite createOrPatchDNSData_run. simpl fst. fold instance.
    rewrite (buildDNSData_AllIPs_entry NodeHostNameIsFQDN instance allIPSets
               dns pre post node Hsplit Hlast).
    unfold reservationsOf. rewrite Hpart, Hset. reflexivity. }
  split.
  - intros before res after Hres Hafter. rewrite Hentry, Hres.
    apply fold_recordIP_last; [|exact Hafter].
    rewrite lookup_insert_eq. eexists. reflexivity.
  - intros key address Hreg. rewrite Hentry in Hreg.
    destruct (fold_recordIP_origin _ _ _ _ _ Hreg) as [Hstart|Hres];
      [|exact Hres].
    unfold registered in Hstart. rewrite lookup_insert_eq in Hstart.
    rewrite lookup_empty in Hstart. discriminate.
Qed.

Lemma X14_witness :
  registered
    (AllIPs
       (fst (fst (createOrPatchDNSData hasDomainPart storeAllReady
                    (Some oneNodeSets) zeroDNS (mkState oneNode [])))))
    "edpm-0" (ToLower "ctlplane")
  = Some "172.20.0.10".
Proof.
  refine (proj1
    (X14_AllIPs_holds_the_last_address_per_network hasDomainPart storeAllReady
       (Some oneNodeSets) zeroDNS (mkState oneNode []) []
       [] (mkNodeSection "edpm-0" [ctlplaneNet])
       (readyIPSet "openstack" "edpm-0" [ctlplaneNet]) _ _ _ _)
    [] sampleReservation [] _ _).
  - reflexivity.
  - intros later [].
  - vm_compute. reflexivity.
  - vm_compute. reflexivity.
  - reflexivity.
  - intros r [].
Defined.

(** X15. The search domain [createOrPatchDNSData] leaves in the receiver
    is the DNS domain of the last reservation it visits whose lower-cased
    network name is the control plane's; when it visits none, the field
    keeps the value it had on entry. *)
Theorem X15_search_domain_law
    (NodeHostNameIsFQDN : string -> bool) (client : Client)
    (allIPSets : option (gmap string IPSet)) (dns : DataplaneDNSData)
    (s0 : State) :
  let instance := st_instance s0 in
  let dns' := fst (fst (createOrPatchDNSData NodeHostNameIsFQDN client
                          allIPSets dns s0)) in
  CtlplaneSearchDomain dns'
  = List.last (ctlplaneDomains (visited instance allIPSets))
      (CtlplaneSearchDomain dns)
  /\ (List.filter onCtlPlane (visited instance allIPSets) = [] ->
      CtlplaneSearchDomain dns' = CtlplaneSearchDomain dns).
Proof.
  intros instance dns'.
  assert (Hlaw : CtlplaneSearchDomain dns'
                 = List.last (ctlplaneDomains (visited instance allIPSets))
                     (CtlplaneSearchDomain dns)).
  { unfold dns'. rewrite createOrPatchDNSData_run. simpl fst.
    apply buildDNSData_searchDomain. }
  split; [exact Hlaw|].
  intros Hnone. rewrite Hlaw. unfold ctlplaneDomains. rewrite Hnone.
  reflexivity.
Qed.

(* ===================================================================== *)
(** ** Short names *)
(* ===================================================================== *)

Lemma firstPiece_Split_no_sep (s : string) (sep : ascii) :
  occurs sep s = false -> firstPiece (Split s sep) = s.
Proof.
  induction s as [|a s' IH]; simpl; [reflexivity|].
  intros Hocc. apply orb_false_iff in Hocc. destruct Hocc as [Ha Hs'].
  rewrite Ha. specialize (IH Hs').
  destruct (Split s' sep) as [|piece pieces] eqn:Hsplit.
  - exfalso. exact (Split_nonempty s' sep Hsplit).
  - simpl in *. rewrite IH. reflexivity.
Qed.

Lemma firstPiece_Split_prefix (short rest : string) (sep : ascii) :
  occurs sep short = false ->
  firstPiece (Split (short +:+ String sep rest) sep) = short.
Proof.
  induction short as [|a short' IH]; simpl.
  - intros _. rewrite Ascii.eqb_refl. reflexivity.
  - intros Hocc. apply orb_false_iff in Hocc. destruct Hocc as [Ha Hs'].
    rewrite Ha. specialize (IH Hs').
    destruct (Split (short' +:+ String sep rest) sep) as [|piece pieces] eqn:Hsplit.
    + exfalso. exact (Split_nonempty _ sep Hsplit).
    + simpl in *. rewrite IH. reflexivity.
Qed.

Lemma append_nonempty_differs (s : string) (c : ascii) (rest : string) :
  s +:+ String c rest <> s.
Proof.
  induction s as [|a s' IH]; simpl; [discriminate|].
  intros H. injection H as H. exact (IH H).
Qed.

(** X16. For a node declared by a name without a dot, every reservation
    gets the record whose first host name is that name, a dot and the
    reservation's DNS domain.  For a node declared by a name that is
    already a dot-free short name, a dot and the reservation's DNS
    domain, the derived name is the declared one and is not listed: the
    record carries the declared name alone when that is fully qualified
    and the network is the control plane, and no host name otherwise. *)
Theorem X16_derived_name_by_shape_of_host_name
    (NodeHostNameIsFQDN : string -> bool) (hostName : string)
    (st : BuildState) (res : IPSetReservation) :
  let step :=
    reservationBody NodeHostNameIsFQDN hostName
      (firstPiece (Split hostName ".")) st res in
  let own :=
    if NodeHostNameIsFQDN hostName
       && String.eqb (ToLower (res_Network res)) CtlPlaneNetwork
    then [hostName] else [] in
  (occurs "." hostName = false ->
   bs_allDNSRecords step
   = bs_allDNSRecords st
     ++ [mkDNSHost (res_Address res)
           ((hostName +:+ "." +:+ res_DNSDomain res) :: own)])
  /\ (forall short,
        occurs "." short = false ->
        hostName = short +:+ "." +:+ res_DNSDomain res ->
        bs_allDNSRecords step
        = bs_allDNSRecords st ++ [mkDNSHost (res_Address res) own]).
Proof.
  intros step own.
  assert (Hstep : bs_allDNSRecords step
                  = bs_allDNSRecords st
                    ++ [recordOf NodeHostNameIsFQDN hostName res])
    by apply reservationBody_records.
  split.
  - intros Hdot. rewrite Hstep.
    unfold recordOf, aliasesOf, fqdnOf, shortNameOf, onCtlPlane.
    rewrite (firstPiece_Split_no_sep hostName "." Hdot).
    destruct (String.eqb (hostName +:+ "." +:+ res_DNSDomain res) hostName)
      eqn:Heq; [|reflexivity].
    apply String.eqb_eq in Heq.
    exfalso. exact (append_nonempty_differs hostName "." _ Heq).
  - intros short Hdot Hname. rewrite Hstep.
    unfold recordOf, aliasesOf, fqdnOf, shortNameOf, onCtlPlane.
    assert (Hshort : firstPiece (Split hostName ".") = short).
    { rewrite Hname. apply (firstPiece_Split_prefix short _ "." Hdot). }
    rewrite Hshort, <- Hname, String.eqb_refl. reflexivity.
Qed.

(* ===================================================================== *)
(** ** From the reservations to the records *)
(* ===================================================================== *)

Lemma reserveIPs_dom (client : Client) (s0 : State) (m : gmap string IPSet) :
  fst (reserveIPs client s0) = Ok (Some m) ->
  dom m = hostNames (participating (st_instance s0)).
Proof.
  intros Hrun. destruct (reserveIPs_some client s0 m Hrun) as [u [Hrange _]].
  pose proof (reserveIPs_range_success client (st_instance s0)
                (Spec_Nodes (st_instance s0)) false ∅ _ u m
                (f_equal fst Hrange)) as [_ [_ Hdom]].
  rewrite Hdom, dom_empty_L. unfold participating.
  apply set_eq. intros x. rewrite elem_of_union, elem_of_empty. tauto.
Qed.

Lemma hostNames_elem (nodes : list NodeSection) (node : NodeSection) :
  In node nodes -> HostName node ∈ hostNames nodes.
Proof.
  intros Hin. unfold hostNames. apply elem_of_list_to_set.
  apply list_elem_of_In. apply in_map. exact Hin.
Qed.

Lemma participates_sameSpec (a b : OpenStackDataPlaneNodeSet)
    (node : NodeSection) :
  sameSpec a b -> participates b node = participates a node.
Proof.
  intros [_ [_ [_ Htemplate]]]. unfold participates, netsOf.
  rewrite Htemplate. reflexivity.
Qed.

(** X17. When [EnsureIPSets] returns a map and that map is handed to
    [createOrPatchDNSData] in the same pass, the builder finds an IPSet
    for every participating node of the parent, and every reservation of
    that IPSet has its record in the list given to the DNSData upsert:
    no participating node is skipped for want of an IPSet. *)
Theorem X17_every_participating_node_reaches_the_DNSData
    (NodeHostNameIsFQDN : string -> bool)
    (rangeOver : gmap string IPSet -> list (string * IPSet))
    (client : Client) (dns : DataplaneDNSData) (s0 : State)
    (m : gmap string IPSet) (ready : bool) (err : option error) :
  let instance := st_instance s0 in
  let run1 := EnsureIPSets rangeOver client s0 in
  let run2 :=
    createOrPatchDNSData NodeHostNameIsFQDN client (Some m) dns (snd run1) in
  fst run1 = (Some m, ready, err) ->
  exists hosts,
    st_calls (snd run2)
    = st_calls (snd run1)
      ++ [CallCreateOrPatch_DNSData (Namespace instance) (Name instance)
            hosts "dnsdata"]
    /\ forall node,
         In node (Spec_Nodes instance) ->
         participates instance node = true ->
         exists ipSet,
           m !! HostName node = Some ipSet
           /\ forall res,
                In res (ipset_Status_Reservation ipSet) ->
                In (mkDNSHost (res_Address res)
                      (aliasesOf NodeHostNameIsFQDN (HostName node) res))
                   hosts.
Proof.
  intros instance run1 run2 Hrun.
  destruct (EnsureIPSets_from_reserve rangeOver client s0 m ready err Hrun)
    as [Hres [_ [_ [_ [_ Hst]]]]].
  fold run1 in Hst.
  assert (Hspec : sameSpec instance (st_instance (snd run1))).
  { rewrite Hst. simpl.
    destruct (reserveIPs_touchesOnly client s0) as [Hsame _].
    destruct Hsame as [H1 [H2 [H3 H4]]]. repeat split; assumption. }
  destruct Hspec as [Hns [Hname [Hnodes Htemplate]]].
  unfold run2. rewrite createOrPatchDNSData_run. simpl snd. simpl st_calls.
  rewrite <- Hns, <- Hname. eexists. split; [reflexivity|].
  intros node Hnode Hpart.
  assert (Hkey : HostName node ∈ dom m).
  { rewrite (reserveIPs_dom client s0 m Hres). apply hostNames_elem.
    unfold participating. apply filter_In. split; assumption. }
  apply elem_of_dom in Hkey. destruct Hkey as [ipSet HipSet].
  exists ipSet. split; [exact HipSet|]. intros res Hin.
  apply (record_persisted NodeHostNameIsFQDN (st_instance (snd run1)) (Some m)
           dns node ipSet res).
  - rewrite <- Hnodes. exact Hnode.
  - rewrite (participates_sameSpec instance (st_instance (snd run1)) node)
      by (repeat split; assumption).
    exact Hpart.
  - exact HipSet.
  - exact Hin.
Qed.

Lemma X17_witness :
  exists hosts,
    st_calls
      (snd (createOrPatchDNSData hasDomainPart storeAllReady (Some oneNodeSets)
              zeroDNS
              (snd (EnsureIPSets map_to_list storeAllReady (mkState oneNode [])))))
    = st_calls (snd (EnsureIPSets map_to_list storeAllReady (mkState oneNode [])))
      ++ [CallCreateOrPatch_DNSData "openstack" "edpm" hosts "dnsdata"]
    /\ forall node,
         In node (Spec_Nodes oneNode) ->
         participates oneNode node = true ->
         exists ipSet,
           oneNodeSets !! HostName node = Some ipSet
           /\ forall res,
                In res (ipset_Status_Reservation ipSet) ->
                In (mkDNSHost (res_Address res)
                      (aliasesOf hasDomainPart (HostName node) res))
                   hosts.
Proof.
  refine (X17_every_participating_node_reaches_the_DNSData hasDomainPart
            map_to_list storeAllReady zeroDNS (mkState oneNode []) oneNodeSets
            true None _).
  vm_compute. reflexivity.
Defined.

(* ===================================================================== *)
(** ** The earlier revision *)
(* ===================================================================== *)

Lemma prior_checkDNSService_run (client : Client) (s : State) :
  PriorRevision.checkDNSService client s
  = (match answer_List_DNSMasq client (st_calls s) (Namespace (st_instance s)) with
     | Err err => (None, None, false, Some err)
     | Ok [] => (None, None, true, None)
     | Ok (first :: _) =>
         if dnsmasq_IsReady first
         then (dnsmasq_Status_DNSAddresses first,
               dnsmasq_Status_DNSClusterAddresses first, true, None)
         else (None, None, false, None)
     end,
     mkState (st_instance s)
       (st_calls s ++ [CallList_DNSMasq (Namespace (st_instance s))])).
Proof.
  unfold PriorRevision.checkDNSService, bind, getInstance, List_DNSMasq, call,
    GetNamespace. simpl.
  destruct (answer_List_DNSMasq client (st_calls s) (Namespace (st_instance s)))
    as [[|first rest]|err]; try reflexivity.
  destruct (dnsmasq_IsReady first); reflexivity.
Qed.

(** The earlier [EnsureDNSData] behind a closed gate. *)
Lemma prior_EnsureDNSData_closed (client : Client)
    (nodes : list (string * NodeSection))
    (allIPSets : option (gmap string IPSet)) (s s' : State)
    (dnsAddresses dnsClusterAddresses : option (list string)) (isReady : bool)
    (err : option error) :
  PriorRevision.checkDNSService client s
  = ((dnsAddresses, dnsClusterAddresses, isReady, err), s') ->
  isErr err || negb isReady || isNil dnsAddresses = true ->
  PriorRevision.EnsureDNSData client nodes allIPSets s
  = ((None, None, EmptyString, isReady, err),
     withDNSConditions s'
       (fun conditions =>
          let conditions :=
            if isErr err then
              MarkFalse conditions NodeSetDNSDataReadyCondition ErrorReason
                SeverityError NodeSetDNSDataReadyErrorMessage
            else conditions in
          let conditions :=
            if negb isReady then
              MarkFalse conditions NodeSetDNSDataReadyCondition RequestedReason
                SeverityInfo NodeSetDNSDataReadyWaitingMessage
            else conditions in
          if isNil dnsAddresses then
            Remove conditions NodeSetDNSDataReadyCondition
          else conditions)).
Proof.
  intros Hcheck Hgate. unfold PriorRevision.EnsureDNSData, bind.
  rewrite Hcheck. rewrite Hgate.
  unfold withDNSConditions, instance_MarkFalse, instance_Remove,
    modifyConditions, ret.
  destruct (isErr err); destruct (negb isReady); destruct (isNil dnsAddresses);
    try discriminate Hgate; reflexivity.
Qed.

(** The earlier [EnsureDNSData] behind an open gate. *)
Lemma prior_EnsureDNSData_open (client : Client)
    (nodes : list (string * NodeSection))
    (allIPSets : option (gmap string IPSet)) (s s' : State)
    (dnsAddresses dnsClusterAddresses : option (list string)) (isReady : bool)
    (err : option error) :
  PriorRevision.checkDNSService client s
  = ((dnsAddresses, dnsClusterAddresses, isReady, err), s') ->
  isErr err || negb isReady || isNil dnsAddresses = false ->
  let built :=
    PriorRevision.buildDNSData (Spec_NodeTemplate_Networks (st_instance s'))
      nodes allIPSets in
  let upsert :=
    CallCreateOrPatch_DNSData (Namespace (st_instance s'))
      (Name (st_instance s')) (fst built) "dnsdata" in
  let get :=
    CallGet_DNSData (Namespace (st_instance s')) (Name (st_instance s')) in
  PriorRevision.EnsureDNSData client nodes allIPSets s
  = match answer_CreateOrPatch_DNSData client (st_calls s')
            (Namespace (st_instance s')) (Name (st_instance s'))
            (fst built) "dnsdata" with
    | Some err' =>
        ((None, None, EmptyString, false, Some err'),
         withDNSConditions (mkState (st_instance s') (st_calls s' ++ [upsert]))
           (fun conditions =>
              MarkFalse conditions NodeSetDNSDataReadyCondition ErrorReason
                SeverityError NodeSetDNSDataReadyErrorMessage))
    | None =>
        match answer_Get_DNSData client (st_calls s' ++ [upsert])
                (Namespace (st_instance s')) (Name (st_instance s')) with
        | Err err' =>
            ((None, None, EmptyString, false, Some err'),
             withDNSConditions
               (mkState (st_instance s') ((st_calls s' ++ [upsert]) ++ [get]))
               (fun conditions =>
                  MarkFalse conditions NodeSetDNSDataReadyCondition ErrorReason
                    SeverityError NodeSetDNSDataReadyErrorMessage))
        | Ok dnsData =>
            if dnsdata_IsReady dnsData then
              ((dnsAddresses, dnsClusterAddresses, snd built, true, None),
               withDNSConditions
                 (mkState (st_instance s') ((st_calls s' ++ [upsert]) ++ [get]))
                 (fun conditions =>
                    MarkTrue conditions NodeSetDNSDataReadyCondition
                      NodeSetDNSDataReadyMessage))
            else
              ((None, None, EmptyString, false, None),
               withDNSConditions
                 (mkState (st_instance s') ((st_calls s' ++ [upsert]) ++ [get]))
                 (fun conditions =>
                    MarkFalse conditions NodeSetDNSDataReadyCondition
                      RequestedReason SeverityInfo
                      NodeSetDNSDataReadyWaitingMessage))
        end
    end.
Proof.
  intros Hcheck Hgate built upsert get.
  unfold PriorRevision.EnsureDNSData, bind at 1. rewrite Hcheck, Hgate.
  unfold PriorRevision.createOrPatchDNSData, bind, getInstance,
    CreateOrPatch_DNSData, Get_DNSData, call, ret,
    withDNSConditions, instance_MarkFalse, instance_MarkTrue, modifyConditions.
  simpl. fold built.
  destruct (answer_CreateOrPatch_DNSData client (st_calls s')
              (Namespace (st_instance s')) (Name (st_instance s'))
              (fst built) "dnsdata") as [err'|]; [reflexivity|].
  simpl. fold upsert.
  destruct (answer_Get_DNSData client (st_calls s' ++ [upsert])
              (Namespace (st_instance s')) (Name (st_instance s')))
    as [dnsData|err']; [|reflexivity].
  destruct (dnsdata_IsReady dnsData); reflexivity.
Qed.

(** X18. In the earlier revision, whenever the service check reports not
    ready (the listing failed, or the first DNSMasq is not ready),
    [EnsureDNSData] returns nil addresses, an empty search domain,
    [false] and the check's error, calls nothing but the listing, and
    ends with the DNS condition removed: the Error or Waiting mark it
    sets is taken away by the test for nil addresses, which always holds
    there. *)
Theorem X18_prior_not_ready_ends_with_condition_removed
    (client : Client) (nodes : list (string * NodeSection))
    (allIPSets : option (gmap string IPSet)) (s0 : State) :
  let check := fst (PriorRevision.checkDNSService client s0) in
  let run := PriorRevision.EnsureDNSData client nodes allIPSets s0 in
  snd (fst check) = false ->
  fst run = (None, None, EmptyString, false, snd check)
  /\ fst (fst (fst check)) = None
  /\ st_calls (snd run)
     = st_calls s0 ++ [CallList_DNSMasq (Namespace (st_instance s0))]
  /\ Status_Conditions (st_instance (snd run))
     = Remove (Status_Conditions (st_instance s0)) NodeSetDNSDataReadyCondition
  /\ dnsState (snd run) = Some NotApplicable.
Proof.
  intros check run. unfold check, run.
  pose proof (prior_checkDNSService_run client s0) as Hcheck.
  destruct (PriorRevision.checkDNSService client s0)
    as [[[[dnsAddresses dnsClusterAddresses] isReady] err] s'] eqn:Hrun.
  simpl. intros ->.
  assert (Hs' : s' = mkState (st_instance s0)
                       (st_calls s0
                        ++ [CallList_DNSMasq (Namespace (st_instance s0))]))
    by exact (f_equal snd Hcheck).
  assert (Hnil : dnsAddresses = None).
  { apply (f_equal fst) in Hcheck. simpl in Hcheck.
    destruct (answer_List_DNSMasq client (st_calls s0) (Namespace (st_instance s0)))
      as [[|first rest]|e]; [| |inversion Hcheck; reflexivity].
    - inversion Hcheck.
    - destruct (dnsmasq_IsReady first); inversion Hcheck; reflexivity. }
  subst dnsAddresses.
  rewrite (prior_EnsureDNSData_closed client nodes allIPSets s0 s' None
             dnsClusterAddresses false err Hrun)
    by (destruct err; reflexivity).
  subst s'. unfold dnsState, withDNSConditions. simpl.
  assert (Hremove :
    Remove
      (MarkFalse
         (if isErr err
          then MarkFalse (Status_Conditions (st_instance s0))
                 NodeSetDNSDataReadyCondition ErrorReason SeverityError
                 NodeSetDNSDataReadyErrorMessage
          else Status_Conditions (st_instance s0))
         NodeSetDNSDataReadyCondition RequestedReason SeverityInfo
         NodeSetDNSDataReadyWaitingMessage)
      NodeSetDNSDataReadyCondition
    = Remove (Status_Conditions (st_instance s0)) NodeSetDNSDataReadyCondition).
  { unfold MarkFalse.
    rewrite (Remove_SetCondition _
               (FalseCondition NodeSetDNSDataReadyCondition RequestedReason
                  SeverityInfo NodeSetDNSDataReadyWaitingMessage)).
    destruct (isErr err); [|reflexivity].
    exact (Remove_SetCondition _
             (FalseCondition NodeSetDNSDataReadyCondition ErrorReason
                SeverityError NodeSetDNSDataReadyErrorMessage)). }
  rewrite Hremove.
  repeat split. apply state_Remove.
Qed.

Lemma X18_witness :
  dnsState
    (snd (PriorRevision.EnsureDNSData storeServiceNotReady
            [("edpm-0", mkNodeSection "edpm-0" [ctlplaneNet])]
            (Some oneNodeSets) (mkState oneNodeWaiting [])))
  = Some NotApplicable.
Proof.
  refine (proj2 (proj2 (proj2 (proj2
    (X18_prior_not_ready_ends_with_condition_removed storeServiceNotReady
       [("edpm-0", mkNodeSection "edpm-0" [ctlplaneNet])]
       (Some oneNodeSets) (mkState oneNodeWaiting []) _))))).
  vm_compute. reflexivity.
Defined.

(** X19. The earlier revision gates the builder on the server addresses
    of the service: with a ready DNSMasq whose status holds no server
    addresses, [EnsureDNSData] returns nil addresses with [true] and no
    error, calls nothing but the listing and removes the DNS condition,
    whatever cluster addresses the service advertises. *)
Theorem X19_prior_gate_is_on_server_addresses
    (client : Client) (nodes : list (string * NodeSection))
    (allIPSets : option (gmap string IPSet)) (s0 : State)
    (first : DNSMasq) (rest : list DNSMasq) :
  let run := PriorRevision.EnsureDNSData client nodes allIPSets s0 in
  answer_List_DNSMasq client (st_calls s0) (Namespace (st_instance s0))
  = Ok (first :: rest) ->
  dnsmasq_IsReady first = true ->
  dnsmasq_Status_DNSAddresses first = None ->
  fst run = (None, None, EmptyString, true, None)
  /\ st_calls (snd run)
     = st_calls s0 ++ [CallList_DNSMasq (Namespace (st_instance s0))]
  /\ Status_Conditions (st_instance (snd run))
     = Remove (Status_Conditions (st_instance s0)) NodeSetDNSDataReadyCondition
  /\ dnsState (snd run) = Some NotApplicable.
Proof.
  intros run Hlist Hready Haddr.
  assert (Hcheck : PriorRevision.checkDNSService client s0
                   = ((None, dnsmasq_Status_DNSClusterAddresses first, true, None),
                      mkState (st_instance s0)
                        (st_calls s0
                         ++ [CallList_DNSMasq (Namespace (st_instance s0))]))).
  { rewrite prior_checkDNSService_run, Hlist, Hready, Haddr. reflexivity. }
  unfold run.
  rewrite (prior_EnsureDNSData_closed client nodes allIPSets s0 _ _ _ _ _
             Hcheck eq_refl).
  unfold dnsState, withDNSConditions. simpl.
  repeat split. apply state_Remove.
Qed.

Lemma X19_witness :
  st_calls
    (snd (PriorRevision.EnsureDNSData storeNoServerAddresses
            [("edpm-0", mkNodeSection "edpm-0" [ctlplaneNet])]
            (Some oneNodeSets) (mkState oneNode [])))
  = [] ++ [CallList_DNSMasq "openstack"].
Proof.
  refine (proj1 (proj2
    (X19_prior_gate_is_on_server_addresses storeNoServerAddresses
       [("edpm-0", mkNodeSection "edpm-0" [ctlplaneNet])]
       (Some oneNodeSets) (mkState oneNode [])
       (mkDNSMasq true (Some ["10.217.4.53"]) None) [] _ _ _))).
  - vm_compute. reflexivity.
  - reflexivity.
  - reflexivity.
Defined.

(** X20. Whenever the earlier [EnsureDNSData] returns a non-nil address
    list or a non-empty search domain, it returns them with [true] and a
    nil error, the DNS condition is True, and the pass has written the
    DNSData and read it back. *)
Theorem X20_prior_results_only_when_ready
    (client : Client) (nodes : list (string * NodeSection))
    (allIPSets : option (gmap string IPSet)) (s0 : State)
    (dnsAddresses dnsClusterAddresses : option (list string))
    (searchDomain : string) (isReady : bool) (err : option error) :
  let instance := st_instance s0 in
  let run := PriorRevision.EnsureDNSData client nodes allIPSets s0 in
  fst run = (dnsAddresses, dnsClusterAddresses, searchDomain, isReady, err) ->
  dnsAddresses <> None \/ dnsClusterAddresses <> None
  \/ searchDomain <> EmptyString ->
  isReady = true
  /\ err = None
  /\ dnsAddresses <> None
  /\ dnsState (snd run) = Some Ready
  /\ exists hosts,
       st_calls (snd run)
       = st_calls s0
         ++ [CallList_DNSMasq (Namespace instance);
             CallCreateOrPatch_DNSData (Namespace instance) (Name instance)
               hosts "dnsdata";
             CallGet_DNSData (Namespace instance) (Name instance)].
Proof.
  intros instance run. unfold run.
  pose proof (prior_checkDNSService_run client s0) as Hcheck.
  destruct (PriorRevision.checkDNSService client s0)
    as [[[[a c] r] e] s'] eqn:Hrun.
  destruct (isErr e || negb r || isNil a) eqn:Hgate.
  - rewrite (prior_EnsureDNSData_closed client nodes allIPSets s0 s' a c r e
               Hrun Hgate).
    simpl. intros H. injection H as <- <- <- <- <-.
    intros [H|[H|H]]; contradiction.
  - assert (Hs' : s' = mkState instance
                         (st_calls s0 ++ [CallList_DNSMasq (Namespace instance)]))
      by exact (f_equal snd Hcheck).
    pose proof (prior_EnsureDNSData_open client nodes allIPSets s0 s' a c r e
                  Hrun Hgate) as Hopen.
    simpl in Hopen. rewrite Hopen. subst s'. simpl.
    apply orb_false_iff in Hgate. destruct Hgate as [Hgate Ha].
    apply orb_false_iff in Hgate. destruct Hgate as [He Hr].
    destruct (answer_CreateOrPatch_DNSData client _ _ _ _ _) as [e'|]; simpl.
    { intros H. injection H as <- <- <- <- <-.
      intros [H|[H|H]]; contradiction. }
    destruct (answer_Get_DNSData client _ _ _) as [dnsData|e']; simpl.
    2:{ intros H. injection H as <- <- <- <- <-.
        intros [H|[H|H]]; contradiction. }
    destruct (dnsdata_IsReady dnsData); simpl.
    2:{ intros H. injection H as <- <- <- <- <-.
        intros [H|[H|H]]; contradiction. }
    intros H. injection H as <- <- <- <- <-. intros _.
    split; [reflexivity|].
    split; [reflexivity|].
    split; [destruct a; [discriminate | simpl in Ha; discriminate Ha]|].
    split; [unfold dnsState; simpl; apply state_MarkTrue|].
    eexists. rewrite <- !app_assoc. reflexivity.
Qed.

Lemma X20_witness :
  dnsState
    (snd (PriorRevision.EnsureDNSData storeAllReady
            [("edpm-0", mkNodeSection "edpm-0" [ctlplaneNet])]
            (Some oneNodeSets) (mkState oneNode [])))
  = Some Ready.
Proof.
  refine (proj1 (proj2 (proj2 (proj2
    (X20_prior_results_only_when_ready storeAllReady
       [("edpm-0", mkNodeSection "edpm-0" [ctlplaneNet])]
       (Some oneNodeSets) (mkState oneNode [])
       (Some ["192.168.122.80"]) (Some ["10.217.4.53"]) "ctlplane.example.com"
       true None _ _))))).
  - vm_compute. reflexivity.
  - left. discriminate.
Defined.

Lemma prior_reserveIPs_range_idle (client : Client)
    (instance : OpenStackDataPlaneNodeSet) (nodes : list (string * NodeSection))
    (allIPSets : gmap string IPSet) (s : State) :
  Forall (fun entry =>
            (0 <? length (PriorRevision.templateNets instance (snd entry)))
            = false) nodes ->
  PriorRevision.reserveIPs_range client instance nodes allIPSets s
  = (Ok allIPSets, s).
Proof.
  induction 1 as [|[nodeName node] rest Hnode _ IH]; simpl; [reflexivity|].
  simpl in Hnode. rewrite Hnode. exact IH.
Qed.

(** X21. In the earlier revision, when NetConfigs exist and no node
    requests an attachment, [EnsureIPSets] makes no upsert and returns
    [nil, true, nil], and it leaves the parent entirely as it was: a
    reservation condition set by an earlier pass stays in place. *)
Theorem X21_prior_no_attachments_keeps_the_condition
    (rangeOver : gmap string IPSet -> list (string * IPSet))
    (client : Client) (nodes : list (string * NodeSection)) (s0 : State)
    (items : list NetConfig) :
  let instance := st_instance s0 in
  let run := PriorRevision.EnsureIPSets rangeOver client nodes s0 in
  answer_List_NetConfig client (st_calls s0) (Namespace instance) = Ok items ->
  items <> [] ->
  Forall (fun entry =>
            Networks (snd entry) = []) nodes ->
  Spec_NodeTemplate_Networks instance = [] ->
  fst run = (None, true, None)
  /\ snd run
     = mkState instance
         (st_calls s0 ++ [CallList_NetConfig (Namespace instance)]).
Proof.
  intros instance run Hlist Hitems Hnodes Htemplate.
  assert (Hidle : Forall (fun entry =>
                    (0 <? length (PriorRevision.templateNets instance (snd entry)))
                    = false) nodes).
  { eapply Forall_impl; [exact Hnodes|]. intros entry Hentry. simpl in Hentry.
    unfold PriorRevision.templateNets. rewrite Hentry, Htemplate. reflexivity. }
  unfold run, PriorRevision.EnsureIPSets, PriorRevision.reserveIPs, bind,
    getInstance, List_NetConfig, call, GetNamespace. simpl.
  fold instance. rewrite Hlist.
  destruct items as [|item items']; [contradiction|]. simpl.
  rewrite (prior_reserveIPs_range_idle client instance nodes ∅ _ Hidle).
  simpl. rewrite map_size_empty. simpl. split; reflexivity.
Qed.

Lemma X21_witness :
  snd (PriorRevision.EnsureIPSets map_to_list storeAllReady
         [("edpm-0", mkNodeSection "edpm-0" [])] (mkState bareNodesReady []))
  = mkState bareNodesReady ([] ++ [CallList_NetConfig "openstack"]).
Proof.
  refine (proj2
    (X21_prior_no_attachments_keeps_the_condition map_to_list storeAllReady
       [("edpm-0", mkNodeSection "edpm-0" [])] (mkState bareNodesReady [])
       [mkNetConfig "netconfig"] _ _ _ _)).
  - vm_compute. reflexivity.
  - discriminate.
  - repeat constructor.
  - reflexivity.
Defined.

Lemma prior_EnsureIPSets_range_spec (sets : list (string * IPSet)) (s : State) :
  PriorRevision.EnsureIPSets_range sets s
  = if existsb (fun entry =>
                  IsFalse (ipset_Status_Conditions (snd entry)) ReadyCondition)
         sets
    then (Some (None, false, None), markWaiting s)
    else (None, s).
Proof.
  induction sets as [|[name ipSet] rest IH]; simpl; [reflexivity|].
  destruct (IsFalse (ipset_Status_Conditions ipSet) ReadyCondition); simpl.
  - reflexivity.
  - exact IH.
Qed.

Lemma existsb_Permutation {A : Type} (f : A -> bool) (l l' : list A) :
  l ≡ₚ l' -> existsb f l = existsb f l'.
Proof.
  induction 1 as [|x l l' _ IH|x y l|l l' l'' _ IH1 _ IH2]; simpl.
  - reflexivity.
  - rewrite IH. reflexivity.
  - destruct (f x), (f y); reflexivity.
  - congruence.
Qed.

Lemma existsb_IsFalse_map_Forall (m : gmap string IPSet) :
  existsb (fun entry =>
             IsFalse (ipset_Status_Conditions (snd entry)) ReadyCondition)
    (map_to_list m) = false
  <-> map_Forall
        (fun _ ipSet =>
           IsFalse (ipset_Status_Conditions ipSet) ReadyCondition = false) m.
Proof.
  rewrite map_Forall_to_list.
  induction (map_to_list m) as [|[name ipSet] rest IH]; simpl.
  - split; [constructor | reflexivity].
  - rewrite orb_false_iff, IH. split.
    + intros [H1 H2]. constructor; assumption.
    + intros H. inversion H; subst. split; assumption.
Qed.

(** X22. In the earlier revision the scan stops only at a member whose
    Ready condition is False: for a non-empty map handed back by
    [reserveIPs], [EnsureIPSets] returns the map with [true] and marks
    the reservation condition True if and only if no member's Ready
    condition is False, so members whose condition is unset or Unknown
    count as ready; otherwise it returns [nil, false, nil] with the
    condition Waiting.  The outcome does not depend on the order of the
    scan. *)
Theorem X22_prior_ready_unless_some_member_is_false
    (rangeOver rangeOver' : gmap string IPSet -> list (string * IPSet))
    (client : Client) (nodes : list (string * NodeSection)) (s0 s1 : State)
    (m : gmap string IPSet) :
  PriorRevision.reserveIPs client nodes s0 = (Ok (Some m), s1) ->
  m <> ∅ ->
  rangeOver m ≡ₚ map_to_list m ->
  rangeOver' m ≡ₚ map_to_list m ->
  let run := PriorRevision.EnsureIPSets rangeOver client nodes s0 in
  let noneFalse :=
    map_Forall
      (fun _ ipSet =>
         IsFalse (ipset_Status_Conditions ipSet) ReadyCondition = false) m in
  (noneFalse ->
     fst run = (Some m, true, None) /\ reservationState (snd run) = Some Ready)
  /\ (~ noneFalse ->
     fst run = (None, false, None) /\ reservationState (snd run) = Some Waiting)
  /\ PriorRevision.EnsureIPSets rangeOver' client nodes s0 = run.
Proof.
  intros Hsync Hne Hperm Hperm' run noneFalse.
  assert (Hform : forall order, order m ≡ₚ map_to_list m ->
            PriorRevision.EnsureIPSets order client nodes s0
            = if existsb (fun entry =>
                            IsFalse (ipset_Status_Conditions (snd entry))
                              ReadyCondition) (map_to_list m)
              then ((None, false, None), markWaiting s1)
              else ((Some m, true, None), markReady s1)).
  { intros order Horder. unfold PriorRevision.EnsureIPSets, bind.
    rewrite Hsync. simpl.
    destruct (size m =? 0) eqn:Hsize.
    { apply Nat.eqb_eq in Hsize. apply map_size_empty_iff in Hsize.
      exact (False_ind _ (Hne Hsize)). }
    rewrite prior_EnsureIPSets_range_spec.
    rewrite (existsb_Permutation _ _ _ Horder).
    destruct (existsb _ (map_to_list m)); reflexivity. }
  assert (Hiff : existsb (fun entry =>
                            IsFalse (ipset_Status_Conditions (snd entry))
                              ReadyCondition) (map_to_list m) = false
                 <-> noneFalse).
  { exact (existsb_IsFalse_map_Forall m). }
  unfold run. rewrite (Hform rangeOver Hperm), (Hform rangeOver' Hperm').
  destruct (existsb _ (map_to_list m)) eqn:Hex.
  - assert (Hnot : ~ noneFalse).
    { intros H. apply Hiff in H. discriminate. }
    split; [intros H; contradiction|].
    split; [|reflexivity].
    intros _. split; [reflexivity|].
    unfold reservationState. simpl. apply state_MarkFalse_Requested.
  - assert (Hall : noneFalse) by (apply Hiff; reflexivity).
    split.
    + intros _. split; [reflexivity|].
      unfold reservationState. simpl. apply state_MarkTrue.
    + split; [intros H; contradiction | reflexivity].
Qed.

Lemma X22_witness :
  reverse (map_to_list threeSetsOnePending) <> map_to_list threeSetsOnePending
  /\ ~ map_Forall
        (fun _ ipSet =>
           IsFalse (ipset_Status_Conditions ipSet) ReadyCondition = false)
        threeSetsOnePending
  /\ fst (PriorRevision.EnsureIPSets map_to_list storeOnePending
            threeNodeEntries (mkState threeNodes []))
     = (None, false, None)
  /\ reservationState
       (snd (PriorRevision.EnsureIPSets map_to_list storeOnePending
               threeNodeEntries (mkState threeNodes [])))
     = Some Waiting
  /\ PriorRevision.EnsureIPSets (fun m => reverse (map_to_list m))
       storeOnePending threeNodeEntries (mkState threeNodes [])
     = PriorRevision.EnsureIPSets map_to_list storeOnePending
         threeNodeEntries (mkState threeNodes []).
Proof.
  assert (Hrun : PriorRevision.reserveIPs storeOnePending threeNodeEntries
                   (mkState threeNodes [])
                 = (Ok (Some threeSetsOnePending),
                    mkState threeNodes threeNodesCalls)).
  { vm_compute. reflexivity. }
  assert (Hne : threeSetsOnePending <> ∅).
  { apply insert_non_empty. }
  assert (Hpending :
            ~ map_Forall
                (fun _ ipSet =>
                   IsFalse (ipset_Status_Conditions ipSet) ReadyCondition = false)
                threeSetsOnePending).
  { intros Hnone. apply existsb_IsFalse_map_Forall in Hnone.
    vm_compute in Hnone. discriminate Hnone. }
  destruct (X22_prior_ready_unless_some_member_is_false
              map_to_list (fun m => reverse (map_to_list m)) storeOnePending
              threeNodeEntries
              (mkState threeNodes []) (mkState threeNodes threeNodesCalls)
              threeSetsOnePending Hrun Hne
              (Permutation_refl _) (reverse_Permutation _))
    as (_ & Hwaiting & Horder).
  split.
  { vm_compute. intros Hsame. discriminate Hsame. }
  split; [exact Hpending|].
  split; [exact (proj1 (Hwaiting Hpending))|].
  split; [exact (proj2 (Hwaiting Hpending)) | exact Horder].
Defined.

Lemma firstNonEmpty_app (a b : list string) :
  firstNonEmpty (a ++ b)
  = if String.eqb (firstNonEmpty a) EmptyString then firstNonEmpty b
    else firstNonEmpty a.
Proof.
  induction a as [|d a IH]; simpl; [reflexivity|].
  destruct (String.eqb d EmptyString) eqn:Hd; [exact IH|].
  rewrite Hd. reflexivity.
Qed.

Lemma prior_fold_reservationBody (nodeName : string)
    (reservations : list IPSetReservation) :
  forall (records : list DNSHost) (domain : string),
  fold_left (PriorRevision.reservationBody nodeName) reservations
    (records, domain)
  = (records
     ++ map (fun res =>
               mkDNSHost (res_Address res)
                 [nodeName +:+ "." +:+ res_DNSDomain res])
            reservations,
     if String.eqb domain EmptyString
     then firstNonEmpty
            (map res_DNSDomain (List.filter priorOnCtlPlane reservations))
     else domain).
Proof.
  induction reservations as [|res rest IH]; intros records domain; simpl.
  - rewrite app_nil_r. destruct (String.eqb domain EmptyString) eqn:Hd;
      [apply String.eqb_eq in Hd; subst|]; reflexivity.
  - rewrite IH, <- app_assoc. simpl. f_equal.
    unfold priorOnCtlPlane.
    destruct (String.eqb (res_Network res) CtlPlaneNetwork); simpl.
    + destruct (String.eqb domain EmptyString) eqn:Hd; simpl.
      * reflexivity.
      * rewrite Hd. reflexivity.
    + destruct (String.eqb domain EmptyString); reflexivity.
Qed.

Lemma prior_domains_of_entry (nodeName : string)
    (reservations : list IPSetReservation) :
  map (fun p : string * IPSetReservation => res_DNSDomain (snd p))
      (List.filter (fun p => priorOnCtlPlane (snd p))
         (map (pair nodeName) reservations))
  = map res_DNSDomain (List.filter priorOnCtlPlane reservations).
Proof.
  induction reservations as [|res rest IH]; simpl; [reflexivity|].
  destruct (priorOnCtlPlane res); simpl; rewrite IH; reflexivity.
Qed.

Lemma prior_records_of_entry (nodeName : string)
    (reservations : list IPSetReservation) :
  map (fun p : string * IPSetReservation =>
         mkDNSHost (res_Address (snd p))
           [fst p +:+ "." +:+ res_DNSDomain (snd p)])
      (map (pair nodeName) reservations)
  = map (fun res =>
           mkDNSHost (res_Address res) [nodeName +:+ "." +:+ res_DNSDomain res])
        reservations.
Proof. rewrite List.map_map. reflexivity. Qed.

Lemma prior_nodeBody (templateNetworks : list IPSetNetwork)
    (allIPSets : option (gmap string IPSet)) (records : list DNSHost)
    (domain : string) (entry : string * NodeSection) :
  PriorRevision.nodeBody templateNetworks allIPSets (records, domain) entry
  = (records
     ++ map (fun p : string * IPSetReservation =>
               mkDNSHost (res_Address (snd p))
                 [fst p +:+ "." +:+ res_DNSDomain (snd p)])
            (priorReservationsOf templateNetworks allIPSets entry),
     if String.eqb domain EmptyString
     then firstNonEmpty
            (map (fun p : string * IPSetReservation => res_DNSDomain (snd p))
               (List.filter (fun p => priorOnCtlPlane (snd p))
                  (priorReservationsOf templateNetworks allIPSets entry)))
     else domain).
Proof.
  destruct entry as [nodeName node].
  unfold PriorRevision.nodeBody, priorReservationsOf. simpl.
  destruct (0 <? length _).
  2:{ simpl. rewrite app_nil_r.
      destruct (String.eqb domain EmptyString) eqn:Hd;
        [apply String.eqb_eq in Hd; subst|]; reflexivity. }
  destruct (lookupIPSet allIPSets nodeName) as [ipSet|].
  - rewrite prior_fold_reservationBody, prior_domains_of_entry,
      prior_records_of_entry. reflexivity.
  - simpl. rewrite app_nil_r.
    destruct (String.eqb domain EmptyString) eqn:Hd;
      [apply String.eqb_eq in Hd; subst|]; reflexivity.
Qed.

Lemma prior_fold_nodeBody (templateNetworks : list IPSetNetwork)
    (allIPSets : option (gmap string IPSet))
    (nodes : list (string * NodeSection)) :
  forall (records : list DNSHost) (domain : string),
  fold_left (PriorRevision.nodeBody templateNetworks allIPSets) nodes
    (records, domain)
  = (records
     ++ map (fun p : string * IPSetReservation =>
               mkDNSHost (res_Address (snd p))
                 [fst p +:+ "." +:+ res_DNSDomain (snd p)])
            (flat_map (priorReservationsOf templateNetworks allIPSets) nodes),
     if String.eqb domain EmptyString
     then firstNonEmpty
            (map (fun p : string * IPSetReservation => res_DNSDomain (snd p))
               (List.filter (fun p => priorOnCtlPlane (snd p))
                  (flat_map (priorReservationsOf templateNetworks allIPSets)
                     nodes)))
     else domain).
Proof.
  induction nodes as [|entry rest IH]; intros records domain; simpl.
  - rewrite app_nil_r. destruct (String.eqb domain EmptyString) eqn:Hd;
      [apply String.eqb_eq in Hd; subst|]; reflexivity.
  - rewrite prior_nodeBody, IH.
    rewrite List.filter_app, !List.map_app, <- app_assoc. f_equal.
    destruct (String.eqb domain EmptyString) eqn:Hd.
    + rewrite firstNonEmpty_app. reflexivity.
    + rewrite Hd. reflexivity.
Qed.

(** X23. The builder of the earlier revision hands to the upsert one
    record per reservation it visits, in order, each with the
    reservation's address and the single host name made of the node's
    name, a dot and the reservation's DNS domain; the search domain it
    returns is the first non-empty DNS domain among the visited
    reservations whose network name is exactly the control plane's, and
    the empty string when there is none or the upsert fails. *)
Theorem X23_prior_builder_keeps_the_first_domain
    (client : Client) (nodes : list (string * NodeSection))
    (allIPSets : option (gmap string IPSet)) (s0 : State) :
  let instance := st_instance s0 in
  let run := PriorRevision.createOrPatchDNSData client nodes allIPSets s0 in
  let seen :=
    flat_map (priorReservationsOf (Spec_NodeTemplate_Networks instance) allIPSets)
      nodes in
  let hosts :=
    map (fun p : string * IPSetReservation =>
           mkDNSHost (res_Address (snd p))
             [fst p +:+ "." +:+ res_DNSDomain (snd p)]) seen in
  let first :=
    firstNonEmpty
      (map (fun p : string * IPSetReservation => res_DNSDomain (snd p))
         (List.filter (fun p => priorOnCtlPlane (snd p)) seen)) in
  st_calls (snd run)
  = st_calls s0
    ++ [CallCreateOrPatch_DNSData (Namespace instance) (Name instance)
          hosts "dnsdata"]
  /\ fst run
     = match answer_CreateOrPatch_DNSData client (st_calls s0)
               (Namespace instance) (Name instance) hosts "dnsdata" with
       | Some err => (EmptyString, Some err)
       | None => (first, None)
       end.
Proof.
  intros instance run seen hosts first.
  unfold run, PriorRevision.createOrPatchDNSData, PriorRevision.buildDNSData,
    bind, getInstance, CreateOrPatch_DNSData, call, ret.
  rewrite prior_fold_nodeBody. simpl. fold instance seen hosts first.
  destruct (answer_CreateOrPatch_DNSData client (st_calls s0)
              (Namespace instance) (Name instance) hosts "dnsdata");
    split; reflexivity.
Qed.
